(** * Intent resolution and tool dispatch of the taxi chat backend

    A shallow embedding of the dispatch pipeline of [chat-backend/app]:
    the text analyzer ([utils/text.py]), the intent classifier
    ([llm/intent_classifier.py]), the session store with its ride and
    player state ([session_store.py]), the music catalogue
    ([services/music_service.py]), the music and driving-policy tools
    ([tools/music_tools.py], [tools/taxi_tools.py]), the selection service
    ([services/policy.py]) and the message and button handlers of [main.py].

    Conventions.
    - A Python [str] is a list of Unicode code points ([char := N]).  The
      character tables (case mapping, [\w], [\d]) are those of CPython for
      U+0000..U+00FF; code points above U+00FF are caseless symbols that
      are neither word characters nor digits.  The whitespace table is
      CPython's over the whole range.
    - Values are modelled at their annotated types ([confidence: float],
      [music_volume: int], [tool_id: str | None], ...).
    - Stateful code threads a [World] (sessions, simulator link, logs and a
      trace of the calls made to external collaborators); a Python
      exception is the [Raise] result of the monad [M].
    - The LLM, the JSON decoder, the graph repository and the simulator
      socket are collaborators: their answers are fields of the class
      [Collaborators], indexed by the number of external calls made so far. *)

From Stdlib Require Import ZArith NArith List Bool String Ascii Floats Lia DecimalString.
From stdpp Require Import base option list gmap.

Set Warnings "-inexact-float".

Local Open Scope N_scope.
Local Open Scope list_scope.

(* ===================================================================== *)
(** * Python strings                                                      *)
(* ===================================================================== *)

Module Py.

Abbreviation char := N.
Abbreviation str := (list N).

(** Decoding of the UTF-8 bytes of a literal into code points. *)
Fixpoint utf8_decode (bs : list N) : str :=
  match bs with
  | [] => []
  | b :: r =>
      if b <? 128 then b :: utf8_decode r
      else if b <? 224 then
        match r with
        | c1 :: r1 => ((b - 192) * 64 + (c1 - 128)) :: utf8_decode r1
        | [] => []
        end
      else if b <? 240 then
        match r with
        | c1 :: c2 :: r2 =>
            ((b - 224) * 4096 + (c1 - 128) * 64 + (c2 - 128)) :: utf8_decode r2
        | _ => []
        end
      else
        match r with
        | c1 :: c2 :: c3 :: r3 =>
            ((b - 240) * 262144 + (c1 - 128) * 4096 + (c2 - 128) * 64 + (c3 - 128))
              :: utf8_decode r3
        | _ => []
        end
  end.

(** [u "text"] is the Python string written ["text"] in the source. *)
Definition u (s : string) : str :=
  utf8_decode (map N_of_ascii (list_ascii_of_string s)).

Definition in_range (lo hi c : N) : bool := (lo <=? c) && (c <=? hi).

(** [str.isspace] / [\s] (the same table in CPython). *)
Definition isspace (c : char) : bool :=
  in_range 9 13 c || in_range 28 32 c || (c =? 133) || (c =? 160)
  || (c =? 5760) || in_range 8192 8202 c || in_range 8232 8233 c
  || (c =? 8239) || (c =? 8287) || (c =? 12288).

(** [\d] on U+0000..U+00FF. *)
Definition isdigit (c : char) : bool := in_range 48 57 c.

(** [\w] on U+0000..U+00FF: alphanumeric or underscore. *)
Definition isword (c : char) : bool :=
  in_range 48 57 c || in_range 65 90 c || (c =? 95) || in_range 97 122 c
  || (c =? 170) || in_range 178 179 c || (c =? 181) || in_range 185 186 c
  || in_range 188 190 c || in_range 192 214 c || in_range 216 246 c
  || in_range 248 255 c.

(** [str.lower], one code point at a time. *)
Definition lower_char (c : char) : char :=
  if in_range 65 90 c then c + 32
  else if in_range 192 214 c || in_range 216 222 c then c + 32
  else c.

Definition lower (s : str) : str := map lower_char s.

(** Title-casing of the first character, as [str.capitalize] does it. *)
Definition title_char (c : char) : str :=
  if in_range 97 122 c then [c - 32]
  else if c =? 181 then [924]
  else if c =? 223 then [83; 115]
  else if in_range 224 246 c || in_range 248 254 c then [c - 32]
  else if c =? 255 then [376]
  else [c].

Definition capitalize (s : str) : str :=
  match s with
  | [] => []
  | c :: r => title_char c ++ lower r
  end.

Definition eqb (a b : str) : bool := bool_decide (a = b).

Fixpoint lstrip (s : str) : str :=
  match s with
  | c :: r => if isspace c then lstrip r else s
  | [] => []
  end.

Definition rstrip (s : str) : str := rev (lstrip (rev s)).
Definition strip (s : str) : str := rstrip (lstrip s).

(** [str.split()] with no argument: the maximal runs of non-whitespace. *)
Fixpoint split_acc (cur : str) (s : str) : list str :=
  match s with
  | [] => match cur with [] => [] | _ => [rev cur] end
  | c :: r =>
      if isspace c then
        match cur with
        | [] => split_acc [] r
        | _ => rev cur :: split_acc [] r
        end
      else split_acc (c :: cur) r
  end.

Definition split (s : str) : list str := split_acc [] s.

(** [s.startswith(p)]. *)
Fixpoint startswith (p s : str) : bool :=
  match p, s with
  | [], _ => true
  | a :: p', c :: s' => (a =? c) && startswith p' s'
  | _ :: _, [] => false
  end.

(** [p in s]. *)
Fixpoint contains (p s : str) : bool :=
  startswith p s ||
  match s with
  | [] => false
  | _ :: r => contains p r
  end.

(** [s.find(c)] and [s.rfind(c)] for a single character, as offsets. *)
Fixpoint find_char (c : char) (s : str) : option nat :=
  match s with
  | [] => None
  | a :: r => if a =? c then Some O else S <$> find_char c r
  end.

Definition rfind_char (c : char) (s : str) : option nat :=
  (fun i => (length s - 1 - i)%nat) <$> find_char c (rev s).

(** [s[i:j]]. *)
Definition slice (i j : nat) (s : str) : str := take (j - i) (drop i s).

(** [s.replace(old, "")] for a non-empty [old]. *)
Fixpoint remove_all (fuel : nat) (old s : str) : str :=
  match fuel with
  | O => s
  | S n =>
      match s with
      | [] => []
      | c :: r =>
          if startswith old s then remove_all n old (drop (length old) s)
          else c :: remove_all n old r
      end
  end.

Definition replace_empty (old s : str) : str := remove_all (S (length s)) old s.

(** [int(digits)] for a run of decimal digits. *)
Definition int_of_digits (ds : str) : Z :=
  fold_left (fun acc d => (acc * 10 + Z.of_N (d - 48))%Z) ds 0%Z.

(** Truthiness of an optional string: [None] and [""] are falsy. *)
Definition truthy (o : option str) : bool :=
  match o with
  | Some (_ :: _) => true
  | _ => false
  end.

End Py.

(* ===================================================================== *)
(** * The fragment of [re] the sources use                                *)
(* ===================================================================== *)

Module Re.
Import Py.

(** A cursor is the character just before it and the input that remains. *)
Definition wordch (o : option char) : bool :=
  match o with
  | Some c => isword c
  | None => false
  end.

(** [\b] at a cursor. *)
Definition boundary (prev : option char) (rest : str) : bool :=
  xorb (wordch prev) (wordch (head rest)).

(** Consume the literal [w]; the new cursor when it is there. *)
Fixpoint consume (w : str) (prev : option char) (rest : str)
  : option (option char * str) :=
  match w with
  | [] => Some (prev, rest)
  | a :: w' =>
      match rest with
      | c :: r => if a =? c then consume w' (Some c) r else None
      | [] => None
      end
  end.

(** The same under [re.IGNORECASE], for a lower-case literal. *)
Fixpoint consume_ci (w : str) (prev : option char) (rest : str)
  : option (option char * str) :=
  match w with
  | [] => Some (prev, rest)
  | a :: w' =>
      match rest with
      | c :: r => if a =? lower_char c then consume_ci w' (Some c) r else None
      | [] => None
      end
  end.

(** [re.search]: the first cursor, left to right, at which [m] matches. *)
Fixpoint search_from {A} (m : option char -> str -> option A)
    (prev : option char) (s : str) : option A :=
  match m prev s with
  | Some a => Some a
  | None =>
      match s with
      | [] => None
      | c :: r => search_from m (Some c) r
      end
  end.

Definition search {A} (m : option char -> str -> option A) (s : str) : option A :=
  search_from m None s.

Definition test (b : bool) : option unit := if b then Some tt else None.

(** [\bw\b] at a cursor, for a literal [w]. *)
Definition word_here (w : str) (prev : option char) (rest : str) : bool :=
  boundary prev rest &&
  match consume w prev rest with
  | Some (p, r) => boundary p r
  | None => false
  end.

(** [re.search(rf"\b{re.escape(w)}\b", s)] as a truth value. *)
Definition search_word (w s : str) : bool :=
  bool_decide (is_Some (search (fun p r => test (word_here w p r)) s)).

(** [re.search(r"\b(w1|...|wn)\b", s)]: at each cursor the alternatives
    are tried in order, backtracking into the next one when the closing
    [\b] fails. *)
Definition search_words (ws : list str) (s : str) : bool :=
  bool_decide (is_Some (search (fun p r => test (existsb (fun w => word_here w p r) ws)) s)).

(** The maximal run of digits at the head of the input. *)
Fixpoint digits_run (s : str) : str * str :=
  match s with
  | c :: r => if isdigit c then let '(d, t) := digits_run r in (c :: d, t) else ([], s)
  | [] => ([], [])
  end.

Definition last_or (prev : option char) (d : str) : option char :=
  match last d with
  | Some c => Some c
  | None => prev
  end.

(** [(\d+)\b] at a cursor: [\d+] is greedy, and giving a digit back never
    helps, since there is no boundary between two digits. *)
Definition number_here (prev : option char) (rest : str) : option str :=
  let '(d, t) := digits_run rest in
  match d with
  | [] => None
  | _ => if boundary (last_or prev d) t then Some d else None
  end.

(** [\b(\d+)\b] at a cursor. *)
Definition bare_number_here (prev : option char) (rest : str) : option str :=
  if boundary prev rest then number_here prev rest else None.

End Re.

(* ===================================================================== *)
(** * [utils/text.py]: the text analyzer                                  *)
(* ===================================================================== *)

Module Text.
Import Py Re.

Record TextAnalysis := {
  has_negation : bool;
  is_simple_confirmation : bool;
  is_simple_rejection : bool;
  cleaned_text : str
}.

(** The six entries of [NEGATION_PATTERNS], each as a matcher at a cursor. *)
Inductive neg_pattern :=
| WordThenSpaces (w : str)      (* \bw\s+ *)
| WordAlone (w : str)           (* \bw\b *)
| NoNotGrazie.                  (* \bno\b(?!\s+grazie) *)

Definition NEGATION_PATTERNS : list neg_pattern :=
  [ WordThenSpaces (u "non");
    WordThenSpaces (u "niente");
    NoNotGrazie;
    WordAlone (u "mai");
    WordThenSpaces (u "senza");
    WordAlone (u "non") ].

(** [\s+grazie] at a cursor (the body of the negative lookahead). *)
Definition spaces_then_grazie (rest : str) : bool :=
  match rest with
  | c :: r =>
      isspace c &&
      bool_decide (is_Some (consume_ci (u "grazie") (Some c) (lstrip r)))
  | [] => false
  end.

Definition neg_here (pat : neg_pattern) (prev : option char) (rest : str) : bool :=
  boundary prev rest &&
  match pat with
  | WordThenSpaces w =>
      match consume_ci w prev rest with
      | Some (_, c :: _) => isspace c
      | _ => false
      end
  | WordAlone w =>
      match consume_ci w prev rest with
      | Some (p, r) => boundary p r
      | None => false
      end
  | NoNotGrazie =>
      match consume_ci (u "no") prev rest with
      | Some (p, r) => boundary p r && negb (spaces_then_grazie r)
      | None => false
      end
  end.

(** [re.search(pattern, text, re.IGNORECASE)] is truthy. *)
Definition neg_search (pat : neg_pattern) (text : str) : bool :=
  bool_decide (is_Some (search (fun p r => test (neg_here pat p r)) text)).

Definition _detect_negation (text : str) : bool :=
  existsb (fun pat => neg_search pat text) NEGATION_PATTERNS.

Definition SIMPLE_CONFIRMATIONS : list str :=
  map u [ "ok"; "okay"; "sì"; "si"; "va bene"; "perfetto"; "grazie";
          "d'accordo"; "capito"; "certo"; "esatto"; "giusto";
          "benissimo"; "ottimo"; "fantastico"; "eccellente" ]%string.

Definition SIMPLE_REJECTIONS : list str :=
  map u [ "no"; "no grazie"; "niente"; "lascia stare"; "annulla";
          "non importa"; "non serve"; "lascia perdere"; "basta così" ]%string.

Definition action_indicators : list str :=
  map u [ "metti"; "ferma"; "cambia"; "vai"; "portami"; "voglio"; "cerco";
          "trova" ]%string.

Definition is_punct (c : char) : bool :=
  existsb (N.eqb c) (u "!?.,;:").

(** [re.sub(cls+, ' ', s)]: every maximal run of the class becomes one space. *)
Fixpoint squeeze (cls : char -> bool) (in_run : bool) (s : str) : str :=
  match s with
  | [] => []
  | c :: r =>
      if cls c then (if in_run then squeeze cls true r else 32 :: squeeze cls true r)
      else c :: squeeze cls false r
  end.

Definition analyze_text (text : str) : TextAnalysis :=
  let text_lower := strip (lower text) in
  let words := split text_lower in
  let has_negation := _detect_negation text_lower in
  let is_simple_confirmation :=
    if (length words <=? 3)%nat && negb has_negation
    then existsb (fun conf => search_word conf text_lower) SIMPLE_CONFIRMATIONS
    else false in
  let is_simple_confirmation :=
    if is_simple_confirmation
    then negb (existsb (fun action => contains action text_lower) action_indicators)
    else false in
  let is_simple_rejection :=
    if (length words <=? 5)%nat
    then existsb (fun rej => search_word rej text_lower) SIMPLE_REJECTIONS
    else false in
  let cleaned := strip (squeeze is_punct false text) in
  let cleaned := squeeze isspace false cleaned in
  {| has_negation := has_negation;
     is_simple_confirmation := is_simple_confirmation;
     is_simple_rejection := is_simple_rejection;
     cleaned_text := cleaned |}.

Definition is_greeting (text : str) : bool :=
  let greetings := map u [ "ciao"; "salve"; "buongiorno"; "buonasera";
                           "buonanotte"; "hey"; "ehi"; "hello"; "hi" ]%string in
  let text_lower := strip (lower text) in
  let words := split text_lower in
  (length words <=? 3)%nat && existsb (fun g => contains g text_lower) greetings.

Definition is_help_request (text : str) : bool :=
  let help_patterns := map u [ "aiuto"; "help"; "cosa puoi fare"; "cosa sai fare";
                               "come funziona"; "che puoi fare"; "cosa fai";
                               "quali sono le opzioni"; "menu"; "comandi" ]%string in
  let text_lower := lower text in
  existsb (fun p => contains p text_lower) help_patterns.

End Text.

(* ===================================================================== *)
(** * [schemas.py]: data model, and the world the handlers run in         *)
(* ===================================================================== *)

Module Core.
Import Py.

Inductive SessionMode := PRE_RIDE | NORMAL.

Record UIOption := { opt_id : str; opt_label : str }.

(** The payload of a [REROUTE_TO] command; a key that is missing or null
    reads as [None] through [payload.get]. *)
Record RerouteP := {
  rp_poi_id : option str;
  rp_name : option str;
  rp_id_unity : option str
}.

Inductive Command :=
| PLAY_MUSIC (genre url : str)
| STOP_MUSIC
| PAUSE_MUSIC
| RESUME_MUSIC
| SET_VOLUME (volume : Z)
| REROUTE_TO (payload : RerouteP)
| END_RIDE.

(** Extracted parameters of a tool call, at the types the tools read them. *)
Record Params := {
  p_genre : option str;
  p_volume : option Z;
  p_policy : option str;
  p_rest : list (str * str)
}.

Definition no_params : Params :=
  {| p_genre := None; p_volume := None; p_policy := None; p_rest := [] |}.

Record ToolContext := {
  ctx_session_id : str;
  ctx_user_id : str;
  ctx_message : str;
  ctx_city : option str;
  ctx_taxi_x : float;
  ctx_taxi_y : float;
  ctx_params : Params;
  ctx_music_playing : bool;
  ctx_music_genre : option str;
  ctx_music_paused : bool;
  ctx_music_volume : Z
}.

Record ToolResult := {
  tr_message : str;
  tr_ui_options : list UIOption;
  tr_commands : list Command
}.

(** The outbound envelope [{type: "assistant_response", ...}]. *)
Record Response := {
  r_session_id : str;
  r_message : str;
  r_ui_options : list UIOption;
  r_commands : list Command
}.

Definition to_response (r : ToolResult) (session_id : str) : Response :=
  {| r_session_id := session_id;
     r_message := tr_message r;
     r_ui_options := tr_ui_options r;
     r_commands := tr_commands r |}.

Record SessionState := {
  session_id : str;
  user_id : option str;
  ride_id : option str;
  city : option str;
  taxi_x : float;
  taxi_y : float;
  history : list (str * str);
  pending_question : option str;
  last_poi_suggestions : list str;
  last_ui_options : list UIOption;
  mode : SessionMode;
  music_playing : bool;
  music_genre : option str;
  music_paused : bool;
  music_volume : Z;
  is_ride_active : bool;
  current_destination_name : option str;
  current_destination_id : option str;
  current_passenger_id : option str;
  ride_started_at : option str;
  driving_policy : str
}.

(** [SessionState(session_id=session_id)]: the field defaults. *)
Definition new_session (sid : str) : SessionState :=
  {| session_id := sid; user_id := None; ride_id := None; city := None;
     taxi_x := 0%float; taxi_y := 0%float; history := [];
     pending_question := None; last_poi_suggestions := [];
     last_ui_options := []; mode := NORMAL;
     music_playing := false; music_genre := None; music_paused := false;
     music_volume := 5%Z;
     is_ride_active := false; current_destination_name := None;
     current_destination_id := None; current_passenger_id := None;
     ride_started_at := None; driving_policy := u "Sport" |}.

(** The prompts, by template and arguments of [str.format]. *)
Inductive Prompt :=
| NEED_CLASSIFICATION_PROMPT (message : str)
| OPTION_MATCHING_PROMPT (options_list message : str)
| TOOL_CLASSIFICATION_PROMPT (message tools context : str)
| CONVERSATIONAL_PROMPT (message : str).

(** The messages the backend sends to the simulator. *)
Inductive UnityMsg :=
| cambio_destinazione (session_id : str) (nuova_destinazione : RerouteP)
| cambio_policy (session_id : str) (nuova_policy : str).

(** A row of [PuntoInteresse] as [get_poi_by_id] returns it (the keys the
    handlers read). *)
Record Poi := {
  poi_name : str;
  poi_id_unity : option str
}.

(** Calls that leave the process, in the order they were made. *)
Inductive Call :=
| CallLLM (p : Prompt)
| CallGetPoiById (poi_id : option str)
| CallRecordVisit (user_id poi_id : str)
| CallGetUserConditions (user_id : str)
| CallSendText (m : UnityMsg)
| CallTool (tool_id : str) (ctx : ToolContext)
| CallUIAction (session_id action_id : str)
| CallNeedRequest (session_id user_id need : str) (subcategory : option str).

Inductive Level := WARNING | ERROR.

(** The WARNING and ERROR records of [main.py]'s logger. *)
Inductive LogMsg :=
| LogRerouteNoRide (session_id : str)
| LogMissingIdUnity (name poi_id : option str)
| LogRecoverFailed (poi_id : option str)
| LogFetchError
| LogUnityNotConnected
| LogNoUnityConnection
| LogSendFailed
| LogPolicyDetectionFailed.

Record World := {
  sessions : gmap str SessionState;
  unity_connected : bool;
  calls : list Call;
  log : list (Level * LogMsg)
}.

Inductive exn :=
| JSONDecodeError
| AttributeError
| TransportError
| OtherException.

Inductive res (A : Type) :=
| Ok (a : A)
| Raise (e : exn).
Arguments Ok {A} a.
Arguments Raise {A} e.

(** Computations over the world that may raise. *)
Definition M (A : Type) : Type := World -> res A * World.

Definition ret {A} (a : A) : M A := fun w => (Ok a, w).
Definition raise {A} (e : exn) : M A := fun w => (Raise e, w).

Definition bind {A B} (m : M A) (k : A -> M B) : M B :=
  fun w =>
    match m w with
    | (Ok a, w') => k a w'
    | (Raise e, w') => (Raise e, w')
    end.

(** [try: m  except Exception as e: h e]. *)
Definition try_except {A} (m : M A) (h : exn -> M A) : M A :=
  fun w =>
    match m w with
    | (Ok a, w') => (Ok a, w')
    | (Raise e, w') => h e w'
    end.

Definition get_world : M World := fun w => (Ok w, w).
Definition modify_world (f : World -> World) : M unit := fun w => (Ok tt, f w).

Definition record_call (c : Call) : M unit :=
  modify_world (fun w =>
    {| sessions := sessions w; unity_connected := unity_connected w;
       calls := calls w ++ [c]; log := log w |}).

Definition write_log (l : Level) (m : LogMsg) : M unit :=
  modify_world (fun w =>
    {| sessions := sessions w; unity_connected := unity_connected w;
       calls := calls w; log := log w ++ [(l, m)] |}).

Definition set_sessions (f : gmap str SessionState -> gmap str SessionState) : M unit :=
  modify_world (fun w =>
    {| sessions := f (sessions w); unity_connected := unity_connected w;
       calls := calls w; log := log w |}).

(** The number of external calls made so far: the index at which a
    collaborator's next answer is read. *)
Definition now (w : World) : nat := length (calls w).

(** The decoded JSON of a reply.  An object is read at the keys the
    classifier uses; any other JSON value has no [.get]. *)
Record JObj := {
  j_need : option str;
  j_confidence : option float;
  j_subcategory : option str;
  j_selected_id : option str;
  j_action : option str;
  j_tool_id : option str;
  j_params : option Params
}.

Inductive json :=
| JObject (o : JObj)
| JOther.

Definition empty_obj : JObj :=
  {| j_need := None; j_confidence := None; j_subcategory := None;
     j_selected_id := None; j_action := None; j_tool_id := None;
     j_params := None |}.

(** The external collaborators, and the helpers of [main.py] that lie
    outside the embedded fragment.  [None] stands for a raised exception,
    except where noted. *)
Class Collaborators := {
  (** [_call_llm(prompt)]: the completion text. *)
  llm_complete : nat -> Prompt -> option str;
  (** [json.loads]: [None] is [JSONDecodeError]. *)
  json_loads : str -> option json;
  (** [neo4j_repo.get_poi_by_id]: the row, or [None] when there is none
      (the repository catches its own errors). *)
  repo_get_poi_by_id : nat -> option str -> option Poi;
  (** [get_user_conditions] of [seed2.py]. *)
  repo_user_conditions : nat -> str -> option (list str);
  (** [unity_connection.send_text] succeeds. *)
  socket_send_ok : nat -> UnityMsg -> bool;
  (** [tool_registry.build_tools_prompt]: the rendered catalogue. *)
  build_tools_prompt : SessionState -> str;
  (** The context line of the tool-classification prompt (music state,
      number of pending suggestions, mode), as the f-strings render it. *)
  context_line : SessionState -> str;
  (** [execute] of the registered tools that are not embedded here;
      [None] when the id is not one of theirs. *)
  other_tool : str -> option (ToolContext -> World -> res ToolResult * World);
  (** [_extract_genre_from_message] and [_extract_volume_from_message]. *)
  extract_genre : str -> option str;
  extract_volume : str -> option Z;
  (** [handle_ui_action] after its call is recorded. *)
  ui_action : str -> str -> World -> res Response * World;
  (** [_handle_need_request] after its call is recorded. *)
  need_request : str -> str -> str -> option str -> World -> res Response * World
}.

End Core.

Declare Scope monad_scope.
Delimit Scope monad_scope with monad.
Notation "x <- m ;; k" := (Core.bind m (fun x => k))
  (at level 100, m at next level, right associativity) : monad_scope.
Notation "m ;;; k" := (Core.bind m (fun _ => k))
  (at level 100, right associativity) : monad_scope.
Local Open Scope monad_scope.

(* ===================================================================== *)
(** * [session_store.py]                                                  *)
(* ===================================================================== *)

Module SessionStore.
Import Py Core.

(** Field assignments [session.f = v]. *)
Definition set_user_id v s :=
  Build_SessionState (session_id s) v (ride_id s) (city s) (taxi_x s) (taxi_y s)
    (history s) (pending_question s) (last_poi_suggestions s) (last_ui_options s)
    (mode s) (music_playing s) (music_genre s) (music_paused s) (music_volume s)
    (is_ride_active s) (current_destination_name s) (current_destination_id s)
    (current_passenger_id s) (ride_started_at s) (driving_policy s).
Definition set_ride_id v s :=
  Build_SessionState (session_id s) (user_id s) v (city s) (taxi_x s) (taxi_y s)
    (history s) (pending_question s) (last_poi_suggestions s) (last_ui_options s)
    (mode s) (music_playing s) (music_genre s) (music_paused s) (music_volume s)
    (is_ride_active s) (current_destination_name s) (current_destination_id s)
    (current_passenger_id s) (ride_started_at s) (driving_policy s).
Definition set_city v s :=
  Build_SessionState (session_id s) (user_id s) (ride_id s) v (taxi_x s) (taxi_y s)
    (history s) (pending_question s) (last_poi_suggestions s) (last_ui_options s)
    (mode s) (music_playing s) (music_genre s) (music_paused s) (music_volume s)
    (is_ride_active s) (current_destination_name s) (current_destination_id s)
    (current_passenger_id s) (ride_started_at s) (driving_policy s).
Definition set_taxi_x v s :=
  Build_SessionState (session_id s) (user_id s) (ride_id s) (city s) v (taxi_y s)
    (history s) (pending_question s) (last_poi_suggestions s) (last_ui_options s)
    (mode s) (music_playing s) (music_genre s) (music_paused s) (music_volume s)
    (is_ride_active s) (current_destination_name s) (current_destination_id s)
    (current_passenger_id s) (ride_started_at s) (driving_policy s).
Definition set_taxi_y v s :=
  Build_SessionState (session_id s) (user_id s) (ride_id s) (city s) (taxi_x s) v
    (history s) (pending_question s) (last_poi_suggestions s) (last_ui_options s)
    (mode s) (music_playing s) (music_genre s) (music_paused s) (music_volume s)
    (is_ride_active s) (current_destination_name s) (current_destination_id s)
    (current_passenger_id s) (ride_started_at s) (driving_policy s).
Definition set_pending_question v s :=
  Build_SessionState (session_id s) (user_id s) (ride_id s) (city s) (taxi_x s) (taxi_y s)
    (history s) v (last_poi_suggestions s) (last_ui_options s)
    (mode s) (music_playing s) (music_genre s) (music_paused s) (music_volume s)
    (is_ride_active s) (current_destination_name s) (current_destination_id s)
    (current_passenger_id s) (ride_started_at s) (driving_policy s).
Definition set_last_poi_suggestions v s :=
  Build_SessionState (session_id s) (user_id s) (ride_id s) (city s) (taxi_x s) (taxi_y s)
    (history s) (pending_question s) v (last_ui_options s)
    (mode s) (music_playing s) (music_genre s) (music_paused s) (music_volume s)
    (is_ride_active s) (current_destination_name s) (current_destination_id s)
    (current_passenger_id s) (ride_started_at s) (driving_policy s).
Definition set_last_ui_options v s :=
  Build_SessionState (session_id s) (user_id s) (ride_id s) (city s) (taxi_x s) (taxi_y s)
    (history s) (pending_question s) (last_poi_suggestions s) v
    (mode s) (music_playing s) (music_genre s) (music_paused s) (music_volume s)
    (is_ride_active s) (current_destination_name s) (current_destination_id s)
    (current_passenger_id s) (ride_started_at s) (driving_policy s).
Definition set_mode v s :=
  Build_SessionState (session_id s) (user_id s) (ride_id s) (city s) (taxi_x s) (taxi_y s)
    (history s) (pending_question s) (last_poi_suggestions s) (last_ui_options s)
    v (music_playing s) (music_genre s) (music_paused s) (music_volume s)
    (is_ride_active s) (current_destination_name s) (current_destination_id s)
    (current_passenger_id s) (ride_started_at s) (driving_policy s).
Definition set_music_playing v s :=
  Build_SessionState (session_id s) (user_id s) (ride_id s) (city s) (taxi_x s) (taxi_y s)
    (history s) (pending_question s) (last_poi_suggestions s) (last_ui_options s)
    (mode s) v (music_genre s) (music_paused s) (music_volume s)
    (is_ride_active s) (current_destination_name s) (current_destination_id s)
    (current_passenger_id s) (ride_started_at s) (driving_policy s).
Definition set_music_genre v s :=
  Build_SessionState (session_id s) (user_id s) (ride_id s) (city s) (taxi_x s) (taxi_y s)
    (history s) (pending_question s) (last_poi_suggestions s) (last_ui_options s)
    (mode s) (music_playing s) v (music_paused s) (music_volume s)
    (is_ride_active s) (current_destination_name s) (current_destination_id s)
    (current_passenger_id s) (ride_started_at s) (driving_policy s).
Definition set_music_paused v s :=
  Build_SessionState (session_id s) (user_id s) (ride_id s) (city s) (taxi_x s) (taxi_y s)
    (history s) (pending_question s) (last_poi_suggestions s) (last_ui_options s)
    (mode s) (music_playing s) (music_genre s) v (music_volume s)
    (is_ride_active s) (current_destination_name s) (current_destination_id s)
    (current_passenger_id s) (ride_started_at s) (driving_policy s).
Definition set_music_volume v s :=
  Build_SessionState (session_id s) (user_id s) (ride_id s) (city s) (taxi_x s) (taxi_y s)
    (history s) (pending_question s) (last_poi_suggestions s) (last_ui_options s)
    (mode s) (music_playing s) (music_genre s) (music_paused s) v
    (is_ride_active s) (current_destination_name s) (current_destination_id s)
    (current_passenger_id s) (ride_started_at s) (driving_policy s).

(** The session stored under [sid], as [get_session] would return it. *)
Definition session_of (w : World) (sid : str) : SessionState :=
  default (new_session sid) (sessions w !! sid).

Definition get_session (sid : str) : M SessionState :=
  w <- get_world ;;
  match sessions w !! sid with
  | Some s => ret s
  | None =>
      set_sessions (fun m => <[sid := new_session sid]> m) ;;;
      ret (new_session sid)
  end.

(** In-place mutation of the session object of [sid]. *)
Definition mutate (sid : str) (f : SessionState -> SessionState) : M unit :=
  s <- get_session sid ;;
  set_sessions (fun m => <[sid := f s]> m).

(** The keyword arguments of [update_session]; [None] is "not passed". *)
Record Update := {
  up_user_id : option str;
  up_ride_id : option str;
  up_city : option str;
  up_taxi_x : option float;
  up_taxi_y : option float;
  up_pending_question : option str;
  up_last_poi_suggestions : option (list str);
  up_last_ui_options : option (list UIOption);
  up_mode : option SessionMode;
  up_music_playing : option bool;
  up_music_genre : option str;
  up_music_paused : option bool
}.

Definition no_update : Update :=
  Build_Update None None None None None None None None None None None None.

Definition when {A} (o : option A) (f : A -> SessionState -> SessionState)
    (s : SessionState) : SessionState :=
  match o with
  | Some v => f v s
  | None => s
  end.

Definition apply_update (up : Update) (s : SessionState) : SessionState :=
  let s := when (up_user_id up) (fun v => set_user_id (Some v)) s in
  let s := when (up_ride_id up) (fun v => set_ride_id (Some v)) s in
  let s := when (up_city up) (fun v => set_city (Some v)) s in
  let s := when (up_taxi_x up) set_taxi_x s in
  let s := when (up_taxi_y up) set_taxi_y s in
  let s := when (up_pending_question up) (fun v => set_pending_question (Some v)) s in
  let s := when (up_last_poi_suggestions up) set_last_poi_suggestions s in
  let s := when (up_last_ui_options up) set_last_ui_options s in
  let s := when (up_mode up) set_mode s in
  let s := when (up_music_playing up) set_music_playing s in
  let s := when (up_music_genre up) (fun v => set_music_genre (Some v)) s in
  when (up_music_paused up) set_music_paused s.

Definition update_session (sid : str) (up : Update) : M SessionState :=
  mutate sid (apply_update up) ;;;
  get_session sid.

Definition clear_pending_question (sid : str) : M unit :=
  mutate sid (set_pending_question None).

Definition clear_poi_suggestions (sid : str) : M unit :=
  mutate sid (set_last_poi_suggestions []).

Definition is_ride_active (sid : str) : M bool :=
  s <- get_session sid ;; ret (Core.is_ride_active s).

Definition clamp_volume (v : Z) : Z := Z.max 1 (Z.min 10 v).

Definition set_volume (sid : str) (volume : Z) : M Z :=
  mutate sid (set_music_volume (clamp_volume volume)) ;;;
  s <- get_session sid ;; ret (music_volume s).

Definition adjust_volume (sid : str) (delta : Z) : M Z :=
  mutate sid (fun s => set_music_volume (clamp_volume (music_volume s + delta)) s) ;;;
  s <- get_session sid ;; ret (music_volume s).

End SessionStore.

(* ===================================================================== *)
(** * [llm/intent_classifier.py]                                          *)
(* ===================================================================== *)

Module IntentClassifier.
Import Py Re Core.

Record ClassifyResult := {
  need : option str;
  confidence : float;
  subcategory : option str
}.

Record MatchResult := {
  selected_id : option str;
  action : str
}.

Record ToolClassifyResult := {
  tool_id : option str;
  params : option Params;
  tool_confidence : float
}.

(** [ToolClassifyResult.none()]. *)
Definition ToolClassifyResult_none : ToolClassifyResult :=
  {| tool_id := None; params := None; tool_confidence := 0%float |}.

Definition no_need : ClassifyResult :=
  {| need := None; confidence := 0%float; subcategory := None |}.

Definition unclear : MatchResult :=
  {| selected_id := None; action := u "unclear" |}.

(** ** Pure helpers *)

Definition ordinal_map : list (str * Z) :=
  [ (u "primo", 1); (u "prima", 1); (u "secondo", 2); (u "seconda", 2);
    (u "terzo", 3); (u "terza", 3); (u "quarto", 4); (u "quarta", 4);
    (u "quinto", 5); (u "quinta", 5); (u "sesto", 6); (u "sesta", 6);
    (u "settimo", 7); (u "settima", 7); (u "ottavo", 8); (u "ottava", 8);
    (u "nono", 9); (u "nona", 9); (u "decimo", 10); (u "decima", 10) ]%Z.

Definition in_1_to (idx count : Z) : bool := ((1 <=? idx) && (idx <=? count))%Z.

(** The loop over [ordinal_map.items()]. *)
Fixpoint first_ordinal (table : list (str * Z)) (text : str) (count : Z) : option Z :=
  match table with
  | [] => None
  | (word, idx) :: rest =>
      if search_word word text && in_1_to idx count then Some idx
      else first_ordinal rest text count
  end.

(** [\s*(\d+)\b] at a cursor. *)
Definition spaced_number_here (prev : option char) (rest : str) : option str :=
  number_here prev (lstrip rest).

(** [\b(?:numero|n\.?|n°|nº)\s*(\d+)\b] at a cursor; the value is group 1. *)
Definition numero_here (prev : option char) (rest : str) : option str :=
  if boundary prev rest then
    let alt (w : str) :=
      match consume w prev rest with
      | Some (p, r) => spaced_number_here p r
      | None => None
      end in
    let alt_n_dot :=
      match consume (u "n") prev rest with
      | Some (p, r) =>
          match r with
          | c :: r' =>
              if c =? 46 then
                match spaced_number_here (Some c) r' with
                | Some d => Some d
                | None => spaced_number_here p r
                end
              else spaced_number_here p r
          | [] => spaced_number_here p r
          end
      | None => None
      end in
    match alt (u "numero") with
    | Some d => Some d
    | None =>
        match alt_n_dot with
        | Some d => Some d
        | None =>
            match alt (u "n°") with
            | Some d => Some d
            | None => alt (u "nº")
            end
        end
    end
  else None.

Definition _extract_option_index (text : str) (options_count : Z) : option Z :=
  if (options_count <=? 0)%Z then None
  else
    match first_ordinal ordinal_map text options_count with
    | Some idx => Some idx
    | None =>
        let numbered :=
          match search numero_here text with
          | Some d =>
              let idx := int_of_digits d in
              if in_1_to idx options_count then Some idx else None
          | None => None
          end in
        match numbered with
        | Some idx => Some idx
        | None =>
            match search bare_number_here text with
            | Some d =>
                let idx := int_of_digits d in
                if in_1_to idx options_count then Some idx else None
            | None => None
            end
        end
    end.

Fixpoint _fuzzy_match_option (text : str) (options : list UIOption) : option str :=
  let text_lower := lower text in
  match options with
  | [] => None
  | opt :: rest =>
      if contains (lower (opt_label opt)) text_lower
         || contains text_lower (lower (opt_label opt))
      then Some (opt_id opt)
      else _fuzzy_match_option text rest
  end.

Definition valid_needs : list str :=
  map u [ "Fame"; "Sete"; "Malessere"; "Divertimento"; "Shopping" ]%string.

(** [s.split(sep)[0]]: the text before the first [sep]. *)
Fixpoint before (sep : char) (s : str) : str :=
  match s with
  | [] => []
  | c :: r => if c =? sep then [] else c :: before sep r
  end.

(** [_clean_need_value].  [valid_needs] is a [set]: [order] is the order
    in which this run of the interpreter iterates over it. *)
Definition _clean_need_value (order : list str) (need : str) : option str :=
  if bool_decide (need ∈ valid_needs) then Some need
  else
    match find (fun valid => contains (lower valid) (lower need)) order with
    | Some valid => Some valid
    | None =>
        if contains (u "|") need then
          let first := strip (before 124 need) in
          if bool_decide (first ∈ valid_needs) then Some first
          else find (fun valid => contains (lower valid) (lower first)) order
        else None
    end.

Definition valid_subcategories : list str :=
  map u [ "colazione"; "pranzo"; "cena"; "spuntino" ]%string.

(** [s.split(sep)]. *)
Fixpoint split_on_acc (sep : char) (cur : str) (s : str) : list str :=
  match s with
  | [] => [rev cur]
  | c :: r =>
      if c =? sep then rev cur :: split_on_acc sep [] r
      else split_on_acc sep (c :: cur) r
  end.

Definition split_on (sep : char) (s : str) : list str := split_on_acc sep [] s.

(** [sep.join(parts)]. *)
Fixpoint join (sep : str) (parts : list str) : str :=
  match parts with
  | [] => []
  | [p] => p
  | p :: rest => p ++ sep ++ join sep rest
  end.

Definition _clean_subcategory_value (order : list str) (subcategory : str) : option str :=
  if bool_decide (lower subcategory ∈ valid_subcategories) then Some (lower subcategory)
  else
    let by_part :=
      if contains (u "|") subcategory then
        find (fun part => bool_decide (part ∈ valid_subcategories))
             (map (fun part => lower (strip part)) (split_on 124 subcategory))
      else None in
    match by_part with
    | Some part => Some part
    | None => find (fun valid => contains valid (lower subcategory)) order
    end.

(** The iteration orders of the two [set] literals in this run. *)
Class SetOrder := {
  needs_order : list str;
  needs_order_perm : needs_order ≡ₚ valid_needs;
  subcategories_order : list str;
  subcategories_order_perm : subcategories_order ≡ₚ valid_subcategories
}.

(** [response.strip()], then the body of a fenced block when the reply
    starts with three backquotes: [lines[1:-1]] joined again. *)
Definition unfence (response : str) : str :=
  let response := strip response in
  if startswith (u "```") response
  then join [10] (removelast (tail (split_on 10 response)))
  else response.

(** [\{[^}]+\}] at a cursor. *)
Definition braces_here (prev : option char) (rest : str) : option str :=
  match rest with
  | c :: r =>
      if c =? 123 then
        let body := before 125 r in
        match body with
        | [] => None
        | _ => if (length body <? length r)%nat then Some (123 :: body ++ [125]) else None
        end
      else None
  | [] => None
  end.

Section Classifier.
Context `{C : Collaborators} `{O : SetOrder}.

Definition _call_llm (prompt : Prompt) : M str :=
  w <- get_world ;;
  record_call (CallLLM prompt) ;;;
  match llm_complete (now w) prompt with
  | Some text => ret text
  | None => raise TransportError
  end.

Definition _parse_json_response (response : str) : json :=
  let response := unfence response in
  match json_loads response with
  | Some v => v
  | None =>
      match search braces_here response with
      | Some found =>
          match json_loads found with
          | Some v => v
          | None => JObject empty_obj
          end
      | None => JObject empty_obj
      end
  end.

(** [result.get(...)] needs a dict. *)
Definition as_dict (v : json) : M JObj :=
  match v with
  | JObject o => ret o
  | JOther => raise AttributeError
  end.

Definition json_loads_or_raise (s : str) : M json :=
  match json_loads s with
  | Some v => ret v
  | None => raise JSONDecodeError
  end.

(** The [try] block of [classify_with_tools]. *)
Definition classify_with_tools_try (prompt : Prompt) : M ToolClassifyResult :=
  response <- _call_llm prompt ;;
  match find_char 123 response, rfind_char 125 response with
  | Some start_idx, Some end_idx =>
      if (start_idx <? end_idx)%nat then
        data <- json_loads_or_raise (slice start_idx (end_idx + 1) response) ;;
        data <- as_dict data ;;
        let tool_id := j_tool_id data in
        let params := default no_params (j_params data) in
        let confidence := default 0.8%float (j_confidence data) in
        if truthy tool_id && negb (bool_decide (tool_id = Some (u "none")))
        then ret {| tool_id := tool_id; params := Some params;
                    tool_confidence := confidence |}
        else ret ToolClassifyResult_none
      else ret ToolClassifyResult_none
  | _, _ => ret ToolClassifyResult_none
  end.

Definition tool_prompt (message tools_prompt context_info : str) : Prompt :=
  TOOL_CLASSIFICATION_PROMPT message tools_prompt
    (match context_info with [] => u "Nessun contesto speciale" | _ => context_info end).

Definition classify_with_tools (message tools_prompt context_info : str)
  : M ToolClassifyResult :=
  let prompt := tool_prompt message tools_prompt context_info in
  try_except (classify_with_tools_try prompt) (fun _ => ret ToolClassifyResult_none).

(** [x = None if x == "null" or x is None else x]. *)
Definition null_to_none (o : option str) : option str :=
  match o with
  | Some s => if bool_decide (s = u "null") then None else Some s
  | None => None
  end.

(** The [try] block of [classify_need]. *)
Definition classify_need_try (prompt : Prompt) : M ClassifyResult :=
  response <- _call_llm prompt ;;
  result <- as_dict (_parse_json_response response) ;;
  let need := null_to_none (j_need result) in
  let need :=
    match need with
    | Some n => if truthy need then _clean_need_value needs_order n else need
    | None => None
    end in
  let confidence := default 0%float (j_confidence result) in
  let subcategory := null_to_none (j_subcategory result) in
  let subcategory :=
    match subcategory with
    | Some c => if truthy subcategory
                then _clean_subcategory_value subcategories_order c
                else subcategory
    | None => None
    end in
  ret {| need := need; confidence := confidence; subcategory := subcategory |}.

Definition classify_need (message : str) : M ClassifyResult :=
  let prompt := NEED_CLASSIFICATION_PROMPT message in
  try_except (classify_need_try prompt) (fun _ => ret no_need).

Definition cancel_phrases : list str :=
  map u [ "no"; "niente"; "annulla"; "non voglio"; "lascia stare" ]%string.

(** [poi:POI_\d+] and [POI_\d+] at a cursor: the literal, then the
    maximal run of digits. *)
Definition literal_digits_here (w : str) (prev : option char) (rest : str) : option str :=
  match consume w prev rest with
  | Some (_, r) =>
      match fst (digits_run r) with
      | [] => None
      | d => Some (w ++ d)
      end
  | None => None
  end.

(** The clean-up of the id the model returned, when [action == "select"]. *)
Definition clean_selected_id (selected_id : str) (options : list UIOption) : option str :=
  match search (literal_digits_here (u "poi:POI_")) selected_id with
  | Some found => Some found
  | None =>
      match search (literal_digits_here (u "POI_")) selected_id with
      | Some found => Some (u "poi:" ++ found)
      | None => _fuzzy_match_option selected_id options
      end
  end.

(** One line of the option list of the prompt. *)
Definition option_line (opt : UIOption) : str :=
  u "- ID: " ++ opt_id opt ++ u " | Nome: " ++ opt_label opt.

(** The deterministic pre-check of [match_option]. *)
Definition pre_check (message : str) (options : list UIOption) : option MatchResult :=
  let text_lower := lower message in
  if search_words cancel_phrases text_lower
  then Some {| selected_id := None; action := u "cancel" |}
  else
    match _extract_option_index text_lower (Z.of_nat (length options)) with
    | Some index =>
        match options !! Z.to_nat (index - 1) with
        | Some opt =>
            if truthy (Some (opt_id opt))
            then Some {| selected_id := Some (opt_id opt); action := u "select" |}
            else None
        | None => None
        end
    | None => None
    end.

(** The [try] block of [match_option]. *)
Definition match_option_try (prompt : Prompt) (options : list UIOption) : M MatchResult :=
  response <- _call_llm prompt ;;
  result <- as_dict (_parse_json_response response) ;;
  let selected_id := j_selected_id result in
  let action := default (u "unclear") (j_action result) in
  let selected_id :=
    match selected_id with
    | Some s => if bool_decide (s = u "null") || bool_decide (s = [])
                then None else selected_id
    | None => None
    end in
  let '(selected_id, action) :=
    if bool_decide (selected_id = Some (u "cancel"))
    then (None, u "cancel") else (selected_id, action) in
  let selected_id :=
    match selected_id with
    | Some s => if truthy selected_id && bool_decide (action = u "select")
                then clean_selected_id s options
                else selected_id
    | None => None
    end in
  ret {| selected_id := selected_id; action := action |}.

Definition option_prompt (message : str) (options : list UIOption) : Prompt :=
  OPTION_MATCHING_PROMPT (join [10] (map option_line options)) message.

Definition match_option (message : str) (options : list UIOption) : M MatchResult :=
  match options with
  | [] => ret unclear
  | _ =>
      match pre_check message options with
      | Some found => ret found
      | None =>
          try_except (match_option_try (option_prompt message options) options)
            (fun _ => ret unclear)
      end
  end.

Definition canned_response : str :=
  u "Come posso aiutarti? Dimmi se hai fame, sete, o se vuoi visitare qualche posto!".

(** The [try] block of [get_conversational_response]. *)
Definition conversational_try (prompt : Prompt) : M str :=
  response <- _call_llm prompt ;; ret (strip response).

Definition get_conversational_response (message : str) : M str :=
  let prompt := CONVERSATIONAL_PROMPT message in
  try_except (conversational_try prompt) (fun _ => ret canned_response).

End Classifier.

End IntentClassifier.

(* ===================================================================== *)
(** * The simulator link ([ConnectionManager] of [main.py])               *)
(* ===================================================================== *)

Module Connection.
Import Py Core.

Section Connection.
Context `{C : Collaborators}.

Definition is_unity_connected : M bool :=
  w <- get_world ;; ret (unity_connected w).

Definition send_to_unity (message : UnityMsg) : M bool :=
  w <- get_world ;;
  if unity_connected w then
    record_call (CallSendText message) ;;;
    if socket_send_ok (now w) message then ret true
    else write_log ERROR LogSendFailed ;;; ret false
  else
    write_log WARNING LogNoUnityConnection ;;; ret false.

End Connection.
End Connection.

(* ===================================================================== *)
(** * [tools/music_tools.py] (volume) and [tools/taxi_tools.py]           *)
(* ===================================================================== *)

Module Tools.
Import Py Core SessionStore Connection.

Definition POLICY_KEYWORDS : list (str * list str) :=
  [ (u "sport",
     map u [ "fretta"; "urgente"; "urgenza"; "veloce"; "sbrigati"; "corri";
             "rapido"; "di fretta"; "ho fretta"; "è urgente"; "sbrigarmi";
             "presto"; "velocemente"; "sport"; "sportiva"; "modalità sport" ]%string);
    (u "comfort",
     map u [ "relax"; "tranquillo"; "calma"; "comodo"; "comfort"; "confortevole";
             "senza fretta"; "con calma"; "piano"; "lentamente"; "rilassato";
             "modalità comfort"; "comfortevole" ]%string);
    (u "eco",
     map u [ "ecologico"; "eco"; "risparmio"; "ecosostenibile"; "verde";
             "ambiente"; "risparmiare"; "economico"; "modalità eco"; "green" ]%string) ].

Definition detect_policy_from_text (text : str) : option str :=
  let text_lower := lower text in
  capitalize ∘ fst <$>
    find (fun '(_, keywords) => existsb (fun k => contains k text_lower) keywords)
         POLICY_KEYWORDS.

(** [CONDITION_POLICY_RULES] of [neo4j/seed2.py]: condition, forced
    policy, reason. *)
Definition CONDITION_POLICY_RULES : list (str * (str * str)) :=
  [ (u "pregnancy",
     (u "Comfort", u "Per la tua sicurezza, utilizziamo la modalità Comfort 🛋️")) ].

Fixpoint get_effective_policy (requested_policy : str) (user_conditions : list str)
  : str * option str :=
  match user_conditions with
  | [] => (requested_policy, None)
  | condition :: rest =>
      match find (fun '(c, _) => bool_decide (c = condition)) CONDITION_POLICY_RULES with
      | Some (_, (forces_policy, reason)) => (forces_policy, Some reason)
      | None => get_effective_policy requested_policy rest
      end
  end.

(** The decimal rendering of an [int] in an f-string. *)
Definition str_of_Z (z : Z) : str :=
  u (NilZero.string_of_int (Z.to_int z)).

Section Tools.
Context `{C : Collaborators}.

Definition VolumeUpTool_execute (ctx : ToolContext) : M ToolResult :=
  new_vol <- adjust_volume (ctx_session_id ctx) 2 ;;
  ret {| tr_message := u "🔊 Volume alzato a " ++ str_of_Z new_vol ++ u "/10";
         tr_ui_options := [];
         tr_commands := [SET_VOLUME new_vol] |}.

Definition VolumeDownTool_execute (ctx : ToolContext) : M ToolResult :=
  new_vol <- adjust_volume (ctx_session_id ctx) (-2) ;;
  ret {| tr_message := u "🔉 Volume abbassato a " ++ str_of_Z new_vol ++ u "/10";
         tr_ui_options := [];
         tr_commands := [SET_VOLUME new_vol] |}.

Definition VolumeSetTool_execute (ctx : ToolContext) : M ToolResult :=
  let volume := default 5%Z (p_volume (ctx_params ctx)) in
  new_vol <- set_volume (ctx_session_id ctx) volume ;;
  ret {| tr_message := u "🔊 Volume impostato a " ++ str_of_Z new_vol ++ u "/10";
         tr_ui_options := [];
         tr_commands := [SET_VOLUME new_vol] |}.

Definition get_user_conditions (user_id : str) : M (list str) :=
  w <- get_world ;;
  record_call (CallGetUserConditions user_id) ;;;
  match repo_user_conditions (now w) user_id with
  | Some conditions => ret conditions
  | None => raise OtherException
  end.

Definition policy_buttons (long : bool) : list UIOption :=
  if long then
    [ {| opt_id := u "policy:Sport"; opt_label := u "🏎️ Sport - Più veloce" |};
      {| opt_id := u "policy:Comfort"; opt_label := u "🛋️ Comfort - Più fluido" |};
      {| opt_id := u "policy:Eco"; opt_label := u "🌿 Eco - Più ecologico" |} ]
  else
    [ {| opt_id := u "policy:Sport"; opt_label := u "🏎️ Sport" |};
      {| opt_id := u "policy:Comfort"; opt_label := u "🛋️ Comfort" |};
      {| opt_id := u "policy:Eco"; opt_label := u "🌿 Eco" |} ].

Definition msg_only (message : str) : ToolResult :=
  {| tr_message := message; tr_ui_options := []; tr_commands := [] |}.

Definition refusal (override_reason : str) : ToolResult :=
  msg_only (u "🛋️ " ++ override_reason ++
            u "

La modalità Comfort non può essere cambiata per garantire la tua sicurezza.").

Definition already_active (current : str) : ToolResult :=
  msg_only (u "ℹ️ Modalità " ++ current ++ u " già attiva.").

Definition request_sent (new_policy : str) : ToolResult :=
  msg_only (u "Richiesta inviata: sto verificando se posso passare a " ++ new_policy ++ u ".").

Definition not_connected : ToolResult :=
  msg_only (u "⚠️ Il taxi non è connesso. Riprova tra poco.").

(** The part of [ChangeDrivingPolicyTool.execute] after the check of the
    user's conditions. *)
Definition change_policy (ctx : ToolContext) : M ToolResult :=
  let new_policy :=
    if truthy (p_policy (ctx_params ctx)) then p_policy (ctx_params ctx)
    else detect_policy_from_text (ctx_message ctx) in
  match new_policy with
  | Some new_policy =>
    if truthy (Some new_policy) then
      let new_policy := capitalize new_policy in
      if bool_decide (new_policy ∈ map u ["Sport"; "Comfort"; "Eco"]%string) then
        session <- get_session (ctx_session_id ctx) ;;
        if bool_decide (lower (driving_policy session) = lower new_policy) then
          ret (already_active (driving_policy session))
        else
          connected <- is_unity_connected ;;
          if connected then
            send_to_unity (cambio_policy (ctx_session_id ctx) new_policy) ;;;
            ret (request_sent new_policy)
          else ret not_connected
      else
        ret {| tr_message := u "⚠️ Modalità '" ++ new_policy ++
                             u "' non riconosciuta. Scegli tra Sport, Comfort o Eco.";
               tr_ui_options := policy_buttons false;
               tr_commands := [] |}
    else
      ret {| tr_message := u "🎯 Quale modalità di guida preferisci?";
             tr_ui_options := policy_buttons true; tr_commands := [] |}
  | None =>
      ret {| tr_message := u "🎯 Quale modalità di guida preferisci?";
             tr_ui_options := policy_buttons true; tr_commands := [] |}
  end.

(** The check of the user's conditions: [Some reason] when a condition
    forces a policy.  A failure of the lookup is caught and ignored. *)
Definition forced_reason (user_id : str) : M (option str) :=
  try_except
    (user_conditions <- get_user_conditions user_id ;;
     match user_conditions with
     | [] => ret None
     | _ =>
         match snd (get_effective_policy (u "Sport") user_conditions) with
         | Some reason => if truthy (Some reason) then ret (Some reason) else ret None
         | None => ret None
         end
     end)
    (fun _ => ret None).

Definition ChangeDrivingPolicyTool_execute (ctx : ToolContext) : M ToolResult :=
  forced <- forced_reason (ctx_user_id ctx) ;;
  match forced with
  | Some override_reason => ret (refusal override_reason)
  | None => change_policy ctx
  end.

(** [tool_registry.get_tool]: the embedded tools, then the others. *)
Definition get_tool (tool_id : str) : option (ToolContext -> M ToolResult) :=
  if bool_decide (tool_id = u "volume_up") then Some VolumeUpTool_execute
  else if bool_decide (tool_id = u "volume_down") then Some VolumeDownTool_execute
  else if bool_decide (tool_id = u "volume_set") then Some VolumeSetTool_execute
  else if bool_decide (tool_id = u "change_driving_policy")
       then Some ChangeDrivingPolicyTool_execute
  else other_tool tool_id.

Definition execute_tool (tool_id : str) (ctx : ToolContext) : M (option ToolResult) :=
  match get_tool tool_id with
  | Some execute =>
      record_call (CallTool tool_id ctx) ;;;
      result <- execute ctx ;; ret (Some result)
  | None => ret None
  end.

End Tools.
End Tools.

(* ===================================================================== *)
(** * [services/policy.py] and the handlers of [main.py]                  *)
(* ===================================================================== *)

Module Main.
Import Py Core SessionStore IntentClassifier Connection Tools Text.

(** The validated [UserMessage] of the in-ride path. *)
Record UserMessage := {
  msg_session_id : str;
  msg_user_id : str;
  msg_ride_id : str;
  msg_city : str;
  msg_taxi_x : float;
  msg_taxi_y : float;
  msg_text : str
}.

(** The raw dictionary of the pre-ride path; a missing key is [None]. *)
Record PreRideData := {
  pr_session_id : option str;
  pr_user_id : option str;
  pr_city : option str;
  pr_text : option str
}.

(** A pre-ride reply: the envelope, and the [selected_poi] key when the
    branch sets it. *)
Record PreRideResponse := {
  pr_response : Response;
  pr_selected_poi : option (option RerouteP)
}.

Definition reply (session_id message : str) (ui_options : list UIOption) : Response :=
  {| r_session_id := session_id; r_message := message;
     r_ui_options := ui_options; r_commands := [] |}.

Definition button (id label : string) : UIOption :=
  {| opt_id := u id; opt_label := u label |}.

Definition quick_buttons : list UIOption :=
  [ button "quick:fame" "🍕 Ho fame"; button "quick:sete" "🍺 Ho sete";
    button "ask_music" "🎵 Metti musica" ].

Definition rejection_message : str :=
  u "Va bene, nessun problema! Se hai bisogno di qualcosa, sono qui. 🚕".
Definition confirmation_message : str :=
  u "👍 Ricevuto! Continuiamo verso la destinazione.".
Definition help_message : str :=
  u "🚕 **Ecco cosa posso fare per te:**

🍕 **Cibo** - Dimmi se hai fame e ti trovo un posto dove mangiare
🍺 **Bevande** - Bar, caffè, cocktail
💊 **Farmacia** - Se ti senti male
🛍️ **Shopping** - Negozi, regali, spesa
🎵 **Musica** - Metti, ferma, cambia genere
🚗 **Guida** - Veloce, lenta, normale
🗺️ **Tour** - Ti mostro i posti interessanti

Dimmi cosa ti serve!".
Definition greeting_message : str :=
  u "Ciao! 👋 Come posso aiutarti durante il viaggio?".
Definition negation_message : str :=
  u "Ho capito. C'è qualcos'altro che posso fare per te?".
Definition negation_buttons : list UIOption :=
  [ button "quick:fame" "🍕 Ho fame"; button "quick:sete" "🍺 Ho sete";
    button "ask_music" "🎵 Musica"; button "cancel" "❌ Niente, grazie" ].
Definition continue_message : str :=
  u "Va bene! Continuiamo verso la destinazione. 🚕".
Definition fallback_buttons : list UIOption :=
  [ button "quick:fame" "🍕 Ho fame"; button "quick:sete" "🍺 Ho sete";
    button "quick:malessere" "💊 Sto male" ].

Section Handlers.
Context `{C : Collaborators} `{O : SetOrder}.

Definition get_poi_by_id (poi_id : option str) : M (option Poi) :=
  w <- get_world ;;
  record_call (CallGetPoiById poi_id) ;;;
  ret (repo_get_poi_by_id (now w) poi_id).

(** ** [PolicyService] *)

Definition handle_poi_selection (session_id user_id poi_id : str) : M ToolResult :=
  poi <- get_poi_by_id (Some poi_id) ;;
  match poi with
  | None => ret (msg_only (u "Mi dispiace, non ho trovato il luogo selezionato."))
  | Some poi =>
      record_call (CallRecordVisit user_id poi_id) ;;;
      clear_poi_suggestions session_id ;;;
      let command :=
        REROUTE_TO {| rp_poi_id := Some poi_id; rp_name := Some (poi_name poi);
                      rp_id_unity := poi_id_unity poi |} in
      active <- is_ride_active session_id ;;
      let message :=
        if active then []
        else u "Perfetto! Ti sto portando a " ++ poi_name poi ++ u ". ðŸš•" in
      ret {| tr_message := message; tr_ui_options := []; tr_commands := [command] |}
  end.

(** ** The side-effect processor *)

(** The body of the loop of [_process_side_effects] for one
    [REROUTE_TO] command. *)
Definition forward_reroute (session_id : str) (payload : RerouteP) : M unit :=
  active <- is_ride_active session_id ;;
  if negb active then write_log WARNING (LogRerouteNoRide session_id)
  else
    let poi_id := rp_poi_id payload in
    let poi_name := rp_name payload in
    id_unity <-
      match rp_id_unity payload with
      | Some id_unity => ret (Some id_unity)
      | None =>
          write_log WARNING (LogMissingIdUnity poi_name poi_id) ;;;
          try_except
            (poi_data <- get_poi_by_id poi_id ;;
             match poi_data with
             | Some poi => ret (poi_id_unity poi)
             | None => write_log ERROR (LogRecoverFailed poi_id) ;;; ret None
             end)
            (fun _ => write_log ERROR LogFetchError ;;; ret None)
      end ;;
    let unity_msg :=
      cambio_destinazione session_id
        {| rp_poi_id := poi_id; rp_name := poi_name; rp_id_unity := id_unity |} in
    connected <- is_unity_connected ;;
    if connected then send_to_unity unity_msg ;;; ret tt
    else write_log WARNING LogUnityNotConnected.

Fixpoint process_commands (session_id : str) (commands : list Command) : M unit :=
  match commands with
  | [] => ret tt
  | cmd :: rest =>
      match cmd with
      | REROUTE_TO payload => forward_reroute session_id payload
      | _ => ret tt
      end ;;;
      process_commands session_id rest
  end.

Definition _process_side_effects (response : Response) (session_id : str) : M unit :=
  process_commands session_id (r_commands response).

(** ** Tool dispatch *)

Definition with_genre (g : str) (p : Params) : Params :=
  {| p_genre := Some g; p_volume := p_volume p; p_policy := p_policy p;
     p_rest := p_rest p |}.
Definition with_volume (v : Z) (p : Params) : Params :=
  {| p_genre := p_genre p; p_volume := Some v; p_policy := p_policy p;
     p_rest := p_rest p |}.
Definition with_policy (v : str) (p : Params) : Params :=
  {| p_genre := p_genre p; p_volume := p_volume p; p_policy := Some v;
     p_rest := p_rest p |}.

Definition fill_params (tool_id message : str) (params : option Params) : Params :=
  let params := default no_params params in
  let params :=
    if bool_decide (tool_id ∈ map u ["music_play"; "change_genre"]%string)
       && bool_decide (p_genre params = None)
    then match extract_genre message with
         | Some genre => if truthy (Some genre) then with_genre genre params else params
         | None => params
         end
    else params in
  if bool_decide (tool_id = u "volume_set") && bool_decide (p_volume params = None)
  then match extract_volume message with
       | Some volume => if (volume =? 0)%Z then params else with_volume volume params
       | None => params
       end
  else params.

Definition tool_not_found (tool_id session_id : str) : Response :=
  reply session_id (u "Tool '" ++ tool_id ++ u "' non trovato.") [].

Definition _execute_tool (tool_id session_id user_id message : str)
    (params : option Params) : M Response :=
  let params := fill_params tool_id message params in
  w <- get_world ;;
  let session := session_of w session_id in
  let ctx :=
    {| ctx_session_id := session_id; ctx_user_id := user_id;
       ctx_message := message; ctx_city := city session;
       ctx_taxi_x := taxi_x session; ctx_taxi_y := taxi_y session;
       ctx_params := params;
       ctx_music_playing := music_playing session;
       ctx_music_genre := music_genre session;
       ctx_music_paused := music_paused session;
       ctx_music_volume := music_volume session |} in
  result <- execute_tool tool_id ctx ;;
  match result with
  | Some result => ret (to_response result session_id)
  | None => ret (tool_not_found tool_id session_id)
  end.

Definition handle_ui_action (session_id action_id : str) : M Response :=
  record_call (CallUIAction session_id action_id) ;;;
  ui_action session_id action_id.

Definition _handle_need_request (session_id user_id need : str)
    (subcategory : option str) : M Response :=
  record_call (CallNeedRequest session_id user_id need subcategory) ;;;
  need_request session_id user_id need subcategory.

Definition clear_both : Update :=
  Build_Update None None None None None None (Some []) (Some []) None None None None.
Definition clear_suggestions : Update :=
  Build_Update None None None None None None (Some []) None None None None None.

(** Option matching against the active options (stage 5b, and the same
    block of the pre-ride handler): the reply when an option is selected
    or the choice is cancelled, [None] when the stage falls through. *)
Definition option_matching (session_id text : str) : M (option Response) :=
  w <- get_world ;;
  match last_ui_options (session_of w session_id) with
  | [] => ret None
  | options =>
      match_result <- match_option text options ;;
      if bool_decide (action match_result = u "select") && truthy (selected_id match_result)
      then
        update_session session_id clear_both ;;;
        response <- handle_ui_action session_id (default [] (selected_id match_result)) ;;
        ret (Some response)
      else if bool_decide (action match_result = u "cancel")
      then
        update_session session_id clear_both ;;;
        response <- handle_ui_action session_id (u "cancel") ;;
        ret (Some response)
      else ret None
  end.

(** ** [handle_user_message], stage by stage, last stage first *)

(** 9. Conversational fallback. *)
Definition conversational_fallback (session_id text : str) : M Response :=
  response_text <- get_conversational_response text ;;
  ret (reply session_id response_text fallback_buttons).

(** 8. Need classification. *)
Definition from_need_classification (session_id user_id text : str) : M Response :=
  classify_result <- classify_need text ;;
  if truthy (need classify_result) && (0.65 <=? confidence classify_result)%float
  then
    update_session session_id clear_suggestions ;;;
    _handle_need_request session_id user_id (default [] (need classify_result))
      (subcategory classify_result)
  else conversational_fallback session_id text.

(** The option list of stage 7: one entry per suggestion the repository
    still knows, then the cancel entry. *)
Fixpoint poi_options (poi_ids : list str) : M (list UIOption) :=
  match poi_ids with
  | [] => ret [ {| opt_id := u "cancel"; opt_label := u "Annulla" |} ]
  | poi_id :: rest =>
      poi <- get_poi_by_id (Some poi_id) ;;
      options <- poi_options rest ;;
      match poi with
      | Some poi => ret ({| opt_id := u "poi:" ++ poi_id; opt_label := poi_name poi |} :: options)
      | None => ret options
      end
  end.

(** 7. Selection among the pending POI suggestions. *)
Definition from_poi_selection (session_id user_id text : str) : M Response :=
  w <- get_world ;;
  match last_poi_suggestions (session_of w session_id) with
  | [] => from_need_classification session_id user_id text
  | suggestions =>
      options <- poi_options suggestions ;;
      match_result <- match_option text options ;;
      if bool_decide (action match_result = u "select") && truthy (selected_id match_result)
      then
        let poi_id := replace_empty (u "poi:") (default [] (selected_id match_result)) in
        result <- handle_poi_selection session_id user_id poi_id ;;
        update_session session_id clear_suggestions ;;;
        let response := to_response result session_id in
        _process_side_effects response session_id ;;;
        ret response
      else if bool_decide (action match_result = u "cancel")
      then
        update_session session_id clear_suggestions ;;;
        ret (reply session_id continue_message [])
      else from_need_classification session_id user_id text
  end.

(** 6b. The keyword safety net for driving-policy requests. *)
Definition direct_policy_intent (session_id user_id text : str) : M (option Response) :=
  w <- get_world ;;
  match mode (session_of w session_id) with
  | NORMAL =>
      try_except
        (match detect_policy_from_text text with
         | Some direct_policy =>
             if truthy (Some direct_policy) then
               response <- _execute_tool (u "change_driving_policy") session_id user_id
                             text (Some (with_policy direct_policy no_params)) ;;
               _process_side_effects response session_id ;;;
               ret (Some response)
             else ret None
         | None => ret None
         end)
        (fun _ => write_log WARNING LogPolicyDetectionFailed ;;; ret None)
  | PRE_RIDE => ret None
  end.

Definition after_tool_classification (session_id user_id text : str) : M Response :=
  hit <- direct_policy_intent session_id user_id text ;;
  match hit with
  | Some response => ret response
  | None => from_poi_selection session_id user_id text
  end.

(** The branch that runs the classified tool. *)
Definition run_classified_tool (session_id user_id text : str)
    (tool_result : ToolClassifyResult) : M Response :=
  response <- _execute_tool (default [] (tool_id tool_result)) session_id user_id text
                (params tool_result) ;;
  _process_side_effects response session_id ;;;
  ret response.

(** 6. LLM tool classification. *)
Definition from_tool_classification (session_id user_id text : str) : M Response :=
  w <- get_world ;;
  let session := session_of w session_id in
  tool_result <- classify_with_tools text (build_tools_prompt session) (context_line session) ;;
  if truthy (tool_id tool_result) && (0.7 <=? tool_confidence tool_result)%float
  then run_classified_tool session_id user_id text tool_result
  else after_tool_classification session_id user_id text.

Definition first_truthy (a : option str) (b : str) (c : str) : str :=
  match a with
  | Some (x :: r) => x :: r
  | _ => match b with _ :: _ => b | [] => c end
  end.

Definition handle_user_message (msg : UserMessage) : M Response :=
  let sid := msg_session_id msg in
  session <- update_session sid
    (Build_Update (Some (msg_user_id msg)) (Some (msg_ride_id msg)) (Some (msg_city msg))
       (Some (msg_taxi_x msg)) (Some (msg_taxi_y msg)) None None None None None None None) ;;
  let user_id := first_truthy (user_id session) (msg_user_id msg) (u "unknown") in
  let text := strip (msg_text msg) in
  let analysis := analyze_text text in
  if is_simple_rejection analysis then
    update_session sid clear_suggestions ;;;
    clear_pending_question sid ;;;
    ret (reply sid rejection_message [])
  else if is_simple_confirmation analysis then
    ret (reply sid confirmation_message [])
  else if is_help_request text then
    ret (reply sid help_message quick_buttons)
  else if is_greeting text then
    ret (reply sid greeting_message quick_buttons)
  else if has_negation analysis then
    ret (reply sid negation_message negation_buttons)
  else
    hit <- option_matching sid text ;;
    match hit with
    | Some response => ret response
    | None => from_tool_classification sid user_id text
    end.

(** ** [handle_pre_ride_message] *)

Definition pre_ride_buttons (a b : string) : list UIOption :=
  [ button "quick:fame" a; button "quick:sete" b; button "quick:shopping" "🛍️ Shopping" ].

Definition pre_ride_greeting : str :=
  u "Ciao! 👋 Dimmi dove vuoi andare. Puoi dirmi il nome del posto o descrivermi cosa cerchi!".
Definition pre_ride_help : str :=
  u "🚕 Dimmi dove vuoi andare! Puoi:

• Cercare un posto per nome (es. 'FastFood Express')
• Dirmi cosa ti serve (es. 'ho fame', 'voglio una pizza')
• Chiedere un posto per un bisogno (es. 'un bar per un aperitivo')".
Definition pre_ride_clarify : str :=
  u "🤔 Non ho capito bene. Dimmi dove vuoi andare o cosa stai cercando!".
Definition pre_ride_clarify_buttons : list UIOption :=
  [ button "quick:fame" "🍕 Ho fame"; button "quick:sete" "🍺 Ho sete";
    button "quick:malessere" "💊 Sto male";
    button "quick:divertimento" "🎉 Divertimento";
    button "quick:shopping" "🛍️ Shopping" ].

Definition with_selected (r : Response) (p : option RerouteP) : PreRideResponse :=
  {| pr_response := r; pr_selected_poi := Some p |}.
Definition without_selected (r : Response) : PreRideResponse :=
  {| pr_response := r; pr_selected_poi := None |}.

(** The payload of the first [REROUTE_TO] command, if any. *)
Fixpoint first_reroute (commands : list Command) : option RerouteP :=
  match commands with
  | [] => None
  | REROUTE_TO payload :: _ => Some payload
  | _ :: rest => first_reroute rest
  end.

(** The fall-back of the pre-ride handler: need classification, then the
    request for clarification. *)
Definition pre_ride_need_classification (session_id user_id text : str)
  : M PreRideResponse :=
  classify_result <- classify_need text ;;
  if truthy (need classify_result) && (0.5 <=? confidence classify_result)%float
  then
    result <- _handle_need_request session_id user_id (default [] (need classify_result))
                (subcategory classify_result) ;;
    ret (with_selected result None)
  else ret (with_selected (reply session_id pre_ride_clarify pre_ride_clarify_buttons) None).

(** The tool classification of the pre-ride handler. *)
Definition pre_ride_tool_classification (session_id user_id text : str)
  : M PreRideResponse :=
  w <- get_world ;;
  let session := session_of w session_id in
  tool_result <- classify_with_tools text (build_tools_prompt session)
                   (u "Modalità: pre_ride (selezione destinazione)") ;;
  if truthy (tool_id tool_result) && (0.6 <=? tool_confidence tool_result)%float
  then
    result <- _execute_tool (default [] (tool_id tool_result)) session_id user_id text
                (params tool_result) ;;
    ret (with_selected result (first_reroute (r_commands result)))
  else pre_ride_need_classification session_id user_id text.

Definition handle_pre_ride_message (data : PreRideData) : M PreRideResponse :=
  let session_id := default (u "unknown") (pr_session_id data) in
  let user_id := default (u "unknown") (pr_user_id data) in
  let city := default (u "Palermo") (pr_city data) in
  let text := strip (default [] (pr_text data)) in
  update_session session_id
    (Build_Update (Some user_id) None (Some city) None None None None None
       (Some PRE_RIDE) None None None) ;;;
  if is_greeting text then
    ret (with_selected (reply session_id pre_ride_greeting
                          (pre_ride_buttons "🍕 Ho fame" "🍺 Ho sete")) None)
  else if is_help_request text then
    ret (with_selected (reply session_id pre_ride_help
                          (pre_ride_buttons "🍕 Cibo" "🍺 Bevande")) None)
  else
    hit <- option_matching session_id text ;;
    match hit with
    | Some response => ret (without_selected response)
    | None => pre_ride_tool_classification session_id user_id text
    end.

End Handlers.
End Main.

(* ===================================================================== *)
(** * Vocabulary of the statements                                        *)
(* ===================================================================== *)

Module Spec.
Import Py Re Core SessionStore IntentClassifier Tools.

(** [w] occurs in [s]. *)
Definition occurs (w s : str) : Prop :=
  ∃ pre post, s = pre ++ w ++ post.



(** The text as the analyzer looks at it, and its words. *)
Definition normalized (text : str) : str := strip (lower text).
Definition word_count (text : str) : nat := length (split (normalized text)).









(** The calls made between two worlds. *)
Definition calls_since (w w' : World) : list Call := drop (length (calls w)) (calls w').

(** The value of a run that raised nothing. *)
Definition answer {A} (r : res A) : option A :=
  match r with
  | Ok a => Some a
  | Raise _ => None
  end.

(** The log records written between two worlds. *)
Definition logged_since (w w' : World) : list (Level * LogMsg) :=
  drop (length (log w)) (log w').


Definition is_repo_lookup (c : Call) : bool :=
  match c with
  | CallGetPoiById _ => true
  | _ => false
  end.

Definition is_send (c : Call) : bool :=
  match c with
  | CallSendText _ => true
  | _ => false
  end.

(** The world in which the session of [sid] is [s]. *)
Definition with_session (sid : str) (s : SessionState) (w : World) : World :=
  {| sessions := <[sid := s]> (sessions w); unity_connected := unity_connected w;
     calls := calls w; log := log w |}.

(** The world after the call [c]. *)
Definition after_call (c : Call) (w : World) : World :=
  {| sessions := sessions w; unity_connected := unity_connected w;
     calls := calls w ++ [c]; log := log w |}.

(** The world after the log record [(l, m)]. *)
Definition after_log (l : Level) (m : LogMsg) (w : World) : World :=
  {| sessions := sessions w; unity_connected := unity_connected w;
     calls := calls w; log := log w ++ [(l, m)] |}.



Definition valid_policies : list str := map u [ "Sport"; "Comfort"; "Eco" ]%string.

(** The policy a call of the driving-policy tool asks for, normalized:
    the [policy] parameter, else the policy read from the message. *)
Definition requested_policy (ctx : ToolContext) : option str :=
  capitalize <$>
    (if truthy (p_policy (ctx_params ctx)) then p_policy (ctx_params ctx)
     else detect_policy_from_text (ctx_message ctx)).

(** One of the conditions has a rule that forces a policy. *)
Definition forces_policy (conditions : list str) : Prop :=
  ∃ c, c ∈ conditions ∧ c ∈ map fst CONDITION_POLICY_RULES.

(** The lookup of the user's conditions, made now, fails or returns no
    condition that forces a policy. *)
Definition unconstrained `{C : Collaborators} (w : World) (user_id : str) : Prop :=
  match repo_user_conditions (now w) user_id with
  | Some conditions => ¬ forces_policy conditions
  | None => True
  end.

(** Every session reads the same in both worlds. *)
Definition same_sessions (w w' : World) : Prop :=
  ∀ sid, session_of w' sid = session_of w sid.

(** A computation that changes no session. *)
Definition preserves_sessions {A} (m : M A) : Prop :=
  ∀ w, same_sessions w (snd (m w)).

End Spec.

(* ===================================================================== *)
(** * Concrete collaborators for the worked examples                      *)
(* ===================================================================== *)

Module Scenario.
Import Py Core IntentClassifier Main.

(** Collaborators given by the answers of the LLM, of the JSON decoder,
    of the POI lookup and of the conditions lookup; everything else is
    inert. *)
Definition scripted (llm : Prompt -> option str) (loads : str -> option json)
    (poi : option str -> option Poi) (conditions : str -> option (list str))
  : Collaborators :=
  {| llm_complete := fun _ => llm;
     json_loads := loads;
     repo_get_poi_by_id := fun _ => poi;
     repo_user_conditions := fun _ => conditions;
     socket_send_ok := fun _ _ => true;
     build_tools_prompt := fun _ => u "Tool disponibili:";
     context_line := fun _ => u "Musica: SPENTA | Modalità: normal";
     other_tool := fun _ => None;
     extract_genre := fun _ => None;
     extract_volume := fun _ => None;
     ui_action := fun sid _ w => (Ok (reply sid (u "Azione ricevuta.") []), w);
     need_request := fun sid _ _ _ w => (Ok (reply sid (u "Ecco cosa ho trovato:") []), w) |}.

(** No LLM, no repository: every call fails or finds nothing. *)
Definition offline : Collaborators :=
  scripted (fun _ => None) (fun _ => None) (fun _ => None) (fun _ => Some []).

(** The sets iterate in the order of their literals. *)
Definition source_order : SetOrder :=
  {| needs_order := valid_needs;
     needs_order_perm := reflexivity valid_needs;
     subcategories_order := valid_subcategories;
     subcategories_order_perm := reflexivity valid_subcategories |}.

Definition empty_world (connected : bool) : World :=
  {| sessions := ∅; unity_connected := connected; calls := []; log := [] |}.

(** A world with one session. *)
Definition world_with (s : SessionState) (connected : bool) : World :=
  {| sessions := {[ session_id s := s ]}; unity_connected := connected;
     calls := []; log := [] |}.

Definition sid : str := u "s1".

Definition three_options : list UIOption :=
  [ {| opt_id := u "poi:POI_1"; opt_label := u "Bar Centrale" |};
    {| opt_id := u "poi:POI_2"; opt_label := u "Pizzeria Roma" |};
    {| opt_id := u "cancel"; opt_label := u "❌ Annulla" |} ].

(** A session in a ride, with two suggestions on offer. *)
Definition riding : SessionState :=
  SessionStore.set_last_ui_options three_options
    (SessionStore.set_last_poi_suggestions [u "POI_1"; u "POI_2"]
       (Build_SessionState sid (Some (u "u1")) (Some (u "r1")) (Some (u "Palermo"))
          0%float 0%float [] None [] [] NORMAL false None false 5%Z
          true (Some (u "Stazione")) (Some (u "POI_9")) (Some (u "u1")) None
          (u "Sport"))).

Definition ctx_for (params : Params) (message : string) : ToolContext :=
  {| ctx_session_id := sid; ctx_user_id := u "u1"; ctx_message := u message;
     ctx_city := Some (u "Palermo"); ctx_taxi_x := 0%float; ctx_taxi_y := 0%float;
     ctx_params := params; ctx_music_playing := true; ctx_music_genre := Some (u "Jazz");
     ctx_music_paused := false; ctx_music_volume := 5%Z |}.

End Scenario.

(* ===================================================================== *)
(** * [session_store.py]: history, ride lifecycle and music state         *)
(* ===================================================================== *)

Module Lifecycle.
Import Py Core SessionStore.

Definition set_history v s :=
  Build_SessionState (session_id s) (user_id s) (ride_id s) (city s) (taxi_x s) (taxi_y s)
    v (pending_question s) (last_poi_suggestions s) (last_ui_options s)
    (mode s) (music_playing s) (music_genre s) (music_paused s) (music_volume s)
    (Core.is_ride_active s) (current_destination_name s) (current_destination_id s)
    (current_passenger_id s) (ride_started_at s) (driving_policy s).
Definition set_is_ride_active v s :=
  Build_SessionState (session_id s) (user_id s) (ride_id s) (city s) (taxi_x s) (taxi_y s)
    (history s) (pending_question s) (last_poi_suggestions s) (last_ui_options s)
    (mode s) (music_playing s) (music_genre s) (music_paused s) (music_volume s)
    v (current_destination_name s) (current_destination_id s)
    (current_passenger_id s) (ride_started_at s) (driving_policy s).
Definition set_current_destination_name v s :=
  Build_SessionState (session_id s) (user_id s) (ride_id s) (city s) (taxi_x s) (taxi_y s)
    (history s) (pending_question s) (last_poi_suggestions s) (last_ui_options s)
    (mode s) (music_playing s) (music_genre s) (music_paused s) (music_volume s)
    (Core.is_ride_active s) v (current_destination_id s)
    (current_passenger_id s) (ride_started_at s) (driving_policy s).
Definition set_current_destination_id v s :=
  Build_SessionState (session_id s) (user_id s) (ride_id s) (city s) (taxi_x s) (taxi_y s)
    (history s) (pending_question s) (last_poi_suggestions s) (last_ui_options s)
    (mode s) (music_playing s) (music_genre s) (music_paused s) (music_volume s)
    (Core.is_ride_active s) (current_destination_name s) v
    (current_passenger_id s) (ride_started_at s) (driving_policy s).
Definition set_current_passenger_id v s :=
  Build_SessionState (session_id s) (user_id s) (ride_id s) (city s) (taxi_x s) (taxi_y s)
    (history s) (pending_question s) (last_poi_suggestions s) (last_ui_options s)
    (mode s) (music_playing s) (music_genre s) (music_paused s) (music_volume s)
    (Core.is_ride_active s) (current_destination_name s) (current_destination_id s)
    v (ride_started_at s) (driving_policy s).
Definition set_ride_started_at v s :=
  Build_SessionState (session_id s) (user_id s) (ride_id s) (city s) (taxi_x s) (taxi_y s)
    (history s) (pending_question s) (last_poi_suggestions s) (last_ui_options s)
    (mode s) (music_playing s) (music_genre s) (music_paused s) (music_volume s)
    (Core.is_ride_active s) (current_destination_name s) (current_destination_id s)
    (current_passenger_id s) v (driving_policy s).

(** A run of field assignments on the session object, first to last. *)
Definition assign (fs : list (SessionState -> SessionState)) (s : SessionState)
  : SessionState :=
  fold_left (fun s f => f s) fs s.

(** [h[-n:]]: the last [n] items for a positive [n], everything for
    [n = 0], and [h[k:]] for [n = -k < 0]. *)
Definition last_n {A} (n : Z) (h : list A) : list A :=
  if (0 <? n)%Z then drop (length h - Z.to_nat n) h
  else drop (Z.to_nat (- n)) h.

(** What [get_music_state] returns. *)
Record MusicState := {
  ms_playing : bool;
  ms_genre : option str;
  ms_paused : bool;
  ms_volume : Z
}.

Section Store.
(** [settings.max_history_turns] (10 unless the environment sets it). *)
Variable max_history_turns : Z.
(** [datetime.now().isoformat()], by the number of external calls made. *)
Variable isoformat_now : nat -> str.

(** A turn is its role and content (the callers pass no extra key). *)
Definition add_to_history (sid role content : str) : M unit :=
  mutate sid (fun s =>
    let appended := history s ++ [(role, content)] in
    if (max_history_turns <? Z.of_nat (length appended))%Z
    then set_history (last_n max_history_turns appended) s
    else set_history appended s).

Definition is_poi_valid (sid poi_id : str) : M bool :=
  s <- get_session sid ;; ret (bool_decide (poi_id ∈ last_poi_suggestions s)).

(** [self._sessions.pop(session_id, None)]. *)
Definition delete_session (sid : str) : M unit :=
  set_sessions (delete sid).

Definition clear_session (sid : str) : M unit :=
  mutate sid
    (assign [ set_pending_question None; set_last_poi_suggestions [];
              set_last_ui_options []; set_mode NORMAL; set_history [];
              set_music_playing false; set_music_genre None; set_music_paused false;
              set_is_ride_active false; set_current_destination_name None;
              set_current_destination_id None; set_current_passenger_id None;
              set_ride_started_at None ]).

Definition start_ride (sid destination_name destination_id : str)
    (passenger_id : option str) : M unit :=
  w <- get_world ;;
  mutate sid
    (assign [ set_is_ride_active true;
              set_current_destination_name (Some destination_name);
              set_current_destination_id (Some destination_id);
              set_current_passenger_id passenger_id;
              set_ride_started_at (Some (isoformat_now (now w)));
              set_mode NORMAL ]).

Definition end_ride (sid : str) : M unit :=
  mutate sid
    (assign [ set_is_ride_active false; set_current_destination_name None;
              set_current_destination_id None; set_current_passenger_id None;
              set_ride_started_at None;
              set_music_playing false; set_music_genre None; set_music_paused false;
              set_mode NORMAL ]).

Definition update_destination (sid name dest_id : str) : M unit :=
  mutate sid (fun s =>
    if Core.is_ride_active s
    then assign [ set_current_destination_name (Some name);
                  set_current_destination_id (Some dest_id) ] s
    else s).

Definition is_music_playing (sid : str) : M bool :=
  s <- get_session sid ;; ret (music_playing s && negb (music_paused s)).

Definition get_music_state (sid : str) : M MusicState :=
  s <- get_session sid ;;
  ret {| ms_playing := music_playing s; ms_genre := music_genre s;
         ms_paused := music_paused s; ms_volume := music_volume s |}.

Definition start_music (sid genre : str) : M unit :=
  mutate sid
    (assign [ set_music_playing true; set_music_genre (Some genre);
              set_music_paused false ]).

Definition stop_music (sid : str) : M unit :=
  mutate sid
    (assign [ set_music_playing false; set_music_genre None; set_music_paused false ]).

Definition pause_music (sid : str) : M unit :=
  mutate sid (set_music_paused true).

Definition resume_music (sid : str) : M unit :=
  mutate sid (set_music_paused false).

End Store.
End Lifecycle.

(* ===================================================================== *)
(** * [services/music_service.py] and the music tools                     *)
(* ===================================================================== *)

Module Music.
Import Py Core SessionStore Lifecycle Tools.

Definition genre_buttons (with_refusal : bool) : list UIOption :=
  [ {| opt_id := u "genre:Pop"; opt_label := u "Pop" |};
    {| opt_id := u "genre:Rock"; opt_label := u "Rock" |};
    {| opt_id := u "genre:Jazz"; opt_label := u "Jazz" |};
    {| opt_id := u "genre:Classica"; opt_label := u "Classica" |};
    {| opt_id := u "genre:HipHop"; opt_label := u "Hip Hop" |};
    {| opt_id := u "genre:Elettronica"; opt_label := u "Elettronica" |} ]
  ++ (if with_refusal then [ {| opt_id := u "no_music"; opt_label := u "No grazie" |} ]
      else []).

Definition ask_genre (with_refusal : bool) : ToolResult :=
  {| tr_message := u "🎵 Che genere preferisci?";
     tr_ui_options := genre_buttons with_refusal; tr_commands := [] |}.

(** The [pending_question] keyword of [update_session]. *)
Definition pending (question : string) : Update :=
  Build_Update None None None None None (Some (u question)) None None None None None None.

Section Service.
(** [get_available_genres()]: the listing of the music directory, read
    once and then cached. *)
Variable available_genres : list str.

Definition normalize_genre (genre : str) : option str :=
  find (fun available => bool_decide (lower available = lower genre)) available_genres.

Definition is_valid_genre (genre : str) : bool :=
  bool_decide (lower genre ∈ map lower available_genres).

Definition get_music_url (genre : str) : option str :=
  match normalize_genre genre with
  | Some normalized =>
      if truthy (Some normalized) then Some (u "/music/" ++ normalized) else None
  | None => None
  end.

(** The answer of [neo4j_repo.get_music_preference] during the
    execution: one of the genres the user likes, or none (the repository
    catches its own errors). *)
Variable music_preference : str -> option str.

Definition play (sid normalized : str) (message : str) : M ToolResult :=
  start_music sid normalized ;;;
  ret {| tr_message := message; tr_ui_options := [];
         tr_commands := [PLAY_MUSIC normalized (u "/music/" ++ normalized)] |}.

Definition MusicPlayTool_execute (ctx : ToolContext) : M ToolResult :=
  let genre := p_genre (ctx_params ctx) in
  let already_on :=
    ret {| tr_message := u "🎵 La musica è già accesa (" ++
                         default (u "None") (ctx_music_genre ctx) ++
                         u "). Vuoi cambiare genere?";
           tr_ui_options :=
             [ {| opt_id := u "change_music"; opt_label := u "Cambia genere" |};
               {| opt_id := u "music_ok"; opt_label := u "Va bene così" |} ];
           tr_commands := [] |} in
  if ctx_music_playing ctx then
    match genre with
    | Some g =>
        if truthy genre
           && negb (bool_decide (lower g = lower (default [] (ctx_music_genre ctx))))
        then
          match normalize_genre g with
          | Some normalized =>
              if truthy (Some normalized)
              then play (ctx_session_id ctx) normalized
                        (u "🎵 Cambio a " ++ normalized ++ u "!")
              else already_on
          | None => already_on
          end
        else already_on
    | None => already_on
    end
  else
    let genre :=
      if truthy genre then genre
      else
        let pref_genre := music_preference (ctx_user_id ctx) in
        if truthy pref_genre then pref_genre else genre in
    match genre with
    | Some g =>
        if truthy genre then
          match normalize_genre g with
          | Some normalized =>
              if truthy (Some normalized)
              then play (ctx_session_id ctx) normalized
                        (u "🎵 Avvio " ++ normalized ++ u "! Buon ascolto!")
              else ret (msg_only (u "Non conosco il genere '" ++ g ++
                                  u "'. Prova con Pop, Rock, Jazz, Classica..."))
          | None => ret (msg_only (u "Non conosco il genere '" ++ g ++
                                   u "'. Prova con Pop, Rock, Jazz, Classica..."))
          end
        else
          update_session (ctx_session_id ctx) (pending "music_genre") ;;;
          ret (ask_genre true)
    | None =>
        update_session (ctx_session_id ctx) (pending "music_genre") ;;;
        ret (ask_genre true)
    end.

Definition offer_music : list UIOption :=
  [ {| opt_id := u "ask_music"; opt_label := u "Sì, metti musica 🎵" |};
    {| opt_id := u "cancel"; opt_label := u "No grazie" |} ].

Definition MusicStopTool_execute (ctx : ToolContext) : M ToolResult :=
  if negb (ctx_music_playing ctx) then
    ret {| tr_message := u "🔇 La musica è già spenta. Vuoi che la accenda?";
           tr_ui_options := offer_music; tr_commands := [] |}
  else
    stop_music (ctx_session_id ctx) ;;;
    ret {| tr_message := u "🔇 Musica fermata. Se vuoi riascoltarla, dimmelo!";
           tr_ui_options := []; tr_commands := [STOP_MUSIC] |}.

Definition MusicPauseTool_execute (ctx : ToolContext) : M ToolResult :=
  if negb (ctx_music_playing ctx) then
    ret (msg_only (u "La musica non è in riproduzione."))
  else
    pause_music (ctx_session_id ctx) ;;;
    ret {| tr_message := u "⏸️ Musica in pausa.";
           tr_ui_options := [ {| opt_id := u "resume_music"; opt_label := u "▶️ Riprendi" |} ];
           tr_commands := [PAUSE_MUSIC] |}.

Definition MusicResumeTool_execute (ctx : ToolContext) : M ToolResult :=
  if negb (ctx_music_playing ctx) then
    ret {| tr_message := u "Non c'è musica da riprendere. Vuoi che la metta?";
           tr_ui_options := offer_music; tr_commands := [] |}
  else
    resume_music (ctx_session_id ctx) ;;;
    ret {| tr_message := u "▶️ Riprendo " ++ default (u "None") (ctx_music_genre ctx) ++ u "!";
           tr_ui_options := []; tr_commands := [RESUME_MUSIC] |}.

Definition ChangeGenreTool_execute (ctx : ToolContext) : M ToolResult :=
  let genre := p_genre (ctx_params ctx) in
  let ask :=
    update_session (ctx_session_id ctx) (pending "music_genre") ;;;
    ret (ask_genre false) in
  match genre with
  | Some g =>
      if truthy genre then
        match normalize_genre g with
        | Some normalized =>
            if truthy (Some normalized)
            then play (ctx_session_id ctx) normalized
                      (u "🎵 Cambio a " ++ normalized ++ u "!")
            else ask
        | None => ask
        end
      else ask
  | None => ask
  end.

(** The five tools that start, stop, pause or resume the music. *)
Definition playback_tools : list (ToolContext -> M ToolResult) :=
  [ MusicPlayTool_execute; MusicStopTool_execute; MusicPauseTool_execute;
    MusicResumeTool_execute; ChangeGenreTool_execute ].

End Service.
End Music.

(* ===================================================================== *)
(** * Keyword and number extraction ([main.py], [utils/text.py])          *)
(* ===================================================================== *)

Module Extract.
Import Py Re Core SessionStore IntentClassifier.

(** The first entry of a keyword table, in the order of the [dict]
    literal, one of whose keywords occurs in the text. *)
Definition first_entry (table : list (str * list str)) (text : str) : option str :=
  fst <$> find (fun '(_, keywords) => existsb (fun kw => contains kw text) keywords) table.

Definition need_patterns : list (str * list str) :=
  [ (u "Fame", map u [ "fame"; "mangiare"; "pranzo"; "cena"; "colazione"; "pizza";
                       "ristorante"; "panino" ]%string);
    (u "Sete", map u [ "sete"; "bere"; "bar"; "caffè"; "caffe"; "birra"; "drink" ]%string);
    (u "Malessere", map u [ "male"; "malessere"; "farmacia"; "medicina"; "dottore";
                            "ospedale"; "dentista" ]%string);
    (u "Divertimento", map u [ "divertirmi"; "divertimento"; "cinema"; "teatro"; "disco";
                               "discoteca"; "stadio" ]%string);
    (u "Shopping", map u [ "shopping"; "comprare"; "negozio"; "negozi";
                           "centro commerciale" ]%string) ].

Definition _detect_need (text : str) : option str :=
  first_entry need_patterns text.

Definition genre_map : list (str * str) :=
  [ (u "jazz", u "Jazz"); (u "rock", u "Rock"); (u "pop", u "Pop");
    (u "classica", u "Classica"); (u "hip hop", u "HipHop"); (u "hiphop", u "HipHop");
    (u "hip-hop", u "HipHop"); (u "elettronica", u "Elettronica");
    (u "electronic", u "Elettronica") ].

Definition _extract_genre_from_message (message : str) : option str :=
  let text := lower message in
  snd <$> find (fun '(pattern, _) => contains pattern text) genre_map.

(** What the integer code of the extractors can raise. *)
Inductive failure := ValueError | OverflowError.

Inductive attempt (A : Type) :=
| Returns (a : A)
| Fails (e : failure).
Arguments Returns {A} a.
Arguments Fails {A} e.

Definition and_then {A B} (m : attempt A) (k : A -> attempt B) : attempt B :=
  match m with
  | Returns a => k a
  | Fails e => Fails e
  end.

(** [round(n / 10)] on the exact quotient, halves to the even neighbour. *)
Definition round_tenth (n : Z) : Z :=
  let q := (n / 10)%Z in
  let r := (n mod 10)%Z in
  if (r <? 5)%Z then q
  else if (5 <? r)%Z then (q + 1)%Z
  else if Z.even q then q else (q + 1)%Z.

(** The least [n] whose quotient [n / 10] rounds beyond the largest float. *)
Definition float_overflow : Z := (10 * (2 ^ 1024 - 2 ^ 970))%Z.

(** [max(1, min(10, round(n / 10)))].  The quotient is a float: the
    division raises [OverflowError] from [float_overflow] on; below 105 the
    float rounds as the exact quotient does, and from 105 on the quotient is
    at least 10.5, so that the result is 10 whatever the float's last bits. *)
Definition tenth_level (n : Z) : attempt Z :=
  if (float_overflow <=? n)%Z then Fails OverflowError
  else Returns (clamp_volume (round_tenth n)).

Section Extract.
(** [sys.get_int_max_str_digits()]: 0 when the interpreter has no limit. *)
Variable int_max_str_digits : nat.

(** [int(digits)]: beyond 640 digits the limit applies. *)
Definition int_of (digits : str) : attempt Z :=
  if (640 <? length digits)%nat && (0 <? int_max_str_digits)%nat
     && (int_max_str_digits <? length digits)%nat
  then Fails ValueError
  else Returns (int_of_digits digits).

(** The run of digits after optional whitespace. *)
Definition spaced_digits (rest : str) : option str :=
  match fst (digits_run (lstrip rest)) with
  | [] => None
  | d => Some d
  end.

(** [volume\s*(?:a|al)?\s*(\d+)] at a cursor; the value is group 1.  After
    the whitespace the group is tried as "a", then as "al", then left out. *)
Definition volume_level_here (prev : option char) (rest : str) : option str :=
  match consume (u "volume") prev rest with
  | Some (_, r) =>
      let r := lstrip r in
      let after (w : str) :=
        match consume w None r with
        | Some (_, t) => spaced_digits t
        | None => None
        end in
      match after (u "a") with
      | Some d => Some d
      | None =>
          match after (u "al") with
          | Some d => Some d
          | None => spaced_digits r
          end
      end
  | None => None
  end.

(** [\b(?:a|al)\s*(\d+)\b] at a cursor. *)
Definition a_level_here (prev : option char) (rest : str) : option str :=
  if boundary prev rest then
    let alt (w : str) :=
      match consume w prev rest with
      | Some (p, r) => spaced_number_here p r
      | None => None
      end in
    match alt (u "a") with
    | Some d => Some d
    | None => alt (u "al")
    end
  else None.

(** The end of the first two branches of [_extract_volume_from_message]. *)
Definition to_level (vol : Z) : attempt Z :=
  and_then (if (10 <? vol)%Z then tenth_level vol else Returns vol)
    (fun vol => Returns (clamp_volume vol)).

Definition _extract_volume_from_message (message : str) : attempt (option Z) :=
  let text := lower message in
  match search volume_level_here text with
  | Some digits => and_then (int_of digits) (fun vol =>
                   and_then (to_level vol) (fun vol => Returns (Some vol)))
  | None =>
      match search a_level_here text with
      | Some digits => and_then (int_of digits) (fun vol =>
                       and_then (to_level vol) (fun vol => Returns (Some vol)))
      | None =>
          match search bare_number_here text with
          | Some digits =>
              and_then (int_of digits) (fun vol =>
                if ((1 <=? vol) && (vol <=? 10))%Z then Returns (Some vol)
                else if (10 <? vol)%Z
                then and_then (tenth_level vol) (fun vol => Returns (Some vol))
                else Returns None)
          | None => Returns None
          end
      end
  end.

(** [extract_number] of [utils/text.py]. *)
Definition extract_number (text : str) : attempt (option Z) :=
  match search bare_number_here text with
  | Some digits =>
      and_then (int_of digits) (fun num =>
        if (10 <? num)%Z
        then and_then (tenth_level num) (fun level => Returns (Some level))
        else Returns (Some (clamp_volume num)))
  | None => Returns None
  end.

End Extract.
End Extract.

(* ===================================================================== *)
(** * [handle_ui_action] of [main.py]                                     *)
(* ===================================================================== *)

Module UIActions.
Import Py Core SessionStore IntentClassifier Connection Tools Lifecycle Music Main.

(** The validated [UIAction]; of the payload, the two keys the handler
    reads ([None]: the key is missing). *)
Record UIAction := {
  ua_session_id : str;
  ua_action_id : str;
  ua_poi_id : option str;
  ua_volume : option Z
}.

Definition clear_ui_options : Update :=
  Build_Update None None None None None None None (Some []) None None None None.

Definition mode_normal : Update :=
  Build_Update None None None None None None None None (Some NORMAL) None None None.

Definition need_map : list (str * str) :=
  [ (u "quick:fame", u "Fame"); (u "quick:sete", u "Sete");
    (u "quick:malessere", u "Malessere"); (u "quick:divertimento", u "Divertimento");
    (u "quick:shopping", u "Shopping") ].

Section Handler.
Context `{C : Collaborators}.
(** The branches that go to [handle_genre_selection],
    [handle_music_trigger] and [tool_recommend_pois] (action ids
    ["genre:..."], ["ask_music"], ["show_pois"]), by user id and action. *)
Variable other_action : str -> UIAction -> M Response.

(** ** [PolicyService], the handlers without a repository call *)

Definition handle_cancel_selection (session_id : str) : M ToolResult :=
  clear_poi_suggestions session_id ;;;
  clear_pending_question session_id ;;;
  update_session session_id mode_normal ;;;
  ret (msg_only (u "Va bene, continuiamo verso la destinazione originale. ðŸš•")).

Definition handle_stop_music (session_id : str) : M ToolResult :=
  stop_music session_id ;;;
  clear_pending_question session_id ;;;
  ret {| tr_message := u "ðŸ”‡ Musica fermata. Se hai bisogno di altro, sono qui!";
         tr_ui_options := []; tr_commands := [STOP_MUSIC] |}.

Definition handle_change_music (session_id : str) : M ToolResult :=
  update_session session_id (pending "music_genre") ;;;
  ret {| tr_message := u "Che genere preferisci?";
         tr_ui_options := genre_buttons false; tr_commands := [STOP_MUSIC] |}.

(** ** The branches of [handle_ui_action] *)

(** A button ["policy:..."].  The two warnings of this branch (a failed
    lookup of the conditions, the simulator not connected) are not records
    of the model's log. *)
Definition policy_action (session : SessionState) (session_id user_id action_id : str)
  : M Response :=
  let new_policy := capitalize (replace_empty (u "policy:") action_id) in
  if negb (bool_decide (new_policy ∈ map u ["Sport"; "Comfort"; "Eco"]%string)) then
    ret (reply session_id
           (u "⚠️ Modalità '" ++ new_policy ++
            u "' non riconosciuta. Scegli tra Sport, Comfort o Eco.") [])
  else
    forced <- forced_reason user_id ;;
    match forced with
    | Some override_reason => ret (to_response (refusal override_reason) session_id)
    | None =>
        if bool_decide (lower (driving_policy session) = lower new_policy) then
          ret (to_response (already_active (driving_policy session)) session_id)
        else
          connected <- is_unity_connected ;;
          if connected then
            send_to_unity (cambio_policy session_id new_policy) ;;;
            ret (to_response (request_sent new_policy) session_id)
          else ret (to_response not_connected session_id)
    end.

(** The buttons ["cancel"], ["no_music"] and ["no_tour"]. *)
Definition cancel_action (session : SessionState) (session_id action_id : str)
  : M Response :=
  let pending := pending_question session in
  if bool_decide (action_id = u "no_music")
     || bool_decide (pending ∈ [Some (u "music_genre"); Some (u "music_feedback")])
  then
    clear_pending_question session_id ;;;
    ret (reply session_id (u "Ok, niente musica! Se cambi idea, dimmelo. 🎵") [])
  else if bool_decide (action_id = u "no_tour") || bool_decide (pending = Some (u "tour"))
  then
    clear_pending_question session_id ;;;
    update_session session_id mode_normal ;;;
    ret (reply session_id (u "Va bene, continuiamo verso la destinazione! 🚕") [])
  else
    result <- handle_cancel_selection session_id ;;
    ret (to_response result session_id).

Definition with_commands (r : Response) (commands : list Command) : Response :=
  {| r_session_id := r_session_id r; r_message := r_message r;
     r_ui_options := r_ui_options r; r_commands := commands |}.

(** The [if]/[elif] chain of [handle_ui_action], with the session object
    and the user id read at its start: the reply, or [None] when the
    function ends without a [return]. *)
Definition dispatch (session : SessionState) (user_id : str) (action : UIAction)
  : M (option Response) :=
  let session_id := ua_session_id action in
  let action_id := ua_action_id action in
  if bool_decide (action_id = u "poi_select") || startswith (u "poi:") action_id then
    let poi_id :=
      if truthy (ua_poi_id action) then default [] (ua_poi_id action)
      else replace_empty (u "poi:") action_id in
    result <- handle_poi_selection session_id user_id poi_id ;;
    let response := to_response result session_id in
    _process_side_effects response session_id ;;;
    ret (Some response)
  else if startswith (u "genre:") action_id then
    response <- other_action user_id action ;; ret (Some response)
  else if startswith (u "policy:") action_id then
    response <- policy_action session session_id user_id action_id ;; ret (Some response)
  else if bool_decide (action_id ∈ map u ["cancel"; "no_music"; "no_tour"]%string) then
    response <- cancel_action session session_id action_id ;; ret (Some response)
  else if startswith (u "poi_need:") action_id then
    let need := replace_empty (u "poi_need:") action_id in
    result <- _handle_need_request session_id user_id need None ;;
    ret (Some result)
  else if startswith (u "quick:") action_id then
    match snd <$> find (fun '(id, _) => bool_decide (id = action_id)) need_map with
    | Some need =>
        if truthy (Some need) then
          result <- _handle_need_request session_id user_id need None ;;
          ret (Some result)
        else ret None
    | None => ret None
    end
  else if bool_decide (action_id = u "stop_music") then
    result <- handle_stop_music session_id ;;
    ret (Some (to_response result session_id))
  else if bool_decide (action_id = u "change_music") then
    result <- handle_change_music session_id ;;
    ret (Some (to_response result session_id))
  else if bool_decide (action_id = u "ask_music") then
    response <- other_action user_id action ;; ret (Some response)
  else if bool_decide (action_id = u "show_pois") then
    response <- other_action user_id action ;; ret (Some response)
  else if bool_decide (action_id = u "music_ok") then
    clear_pending_question session_id ;;;
    ret (Some (reply session_id
                 (u "Perfetto, buon viaggio! 🎵 Se hai bisogno di altro, sono qui.") []))
  else if bool_decide (action_id = u "pause_music") then
    pause_music session_id ;;;
    ret (Some (with_commands (reply session_id (u "Musica in pausa. ⏸️") []) [PAUSE_MUSIC]))
  else if bool_decide (action_id = u "resume_music") then
    resume_music session_id ;;;
    ret (Some (with_commands (reply session_id (u "Riprendo la musica! 🎵") [])
                 [RESUME_MUSIC]))
  else if bool_decide (action_id = u "volume_set") then
    actual_volume <- set_volume session_id (default 5%Z (ua_volume action)) ;;
    ret (Some (with_commands
                 (reply session_id
                    (u "Volume impostato a " ++ str_of_Z actual_volume ++ u ". 🔊") [])
                 [SET_VOLUME actual_volume]))
  else
    ret (Some (reply session_id (u "Azione ricevuta.") [])).

(** [handle_ui_action]. *)
Definition handle_ui_action (action : UIAction) : M (option Response) :=
  let session_id := ua_session_id action in
  session <- get_session session_id ;;
  let user_id :=
    if truthy (user_id session) then default [] (user_id session) else u "unknown" in
  (match last_ui_options session with
   | [] => ret tt
   | _ => update_session session_id clear_ui_options ;;; ret tt
   end) ;;;
  dispatch session user_id action.

End Handler.
End UIActions.

(* ===================================================================== *)
(** * Notions the statements about these modules use                      *)
(* ===================================================================== *)

Module Props.
Import Py Re Core SessionStore Tools Lifecycle Music Extract UIActions Spec.

(** No ride, no destination, the music off, the normal mode. *)
Definition idle (s : SessionState) : Prop :=
  Core.is_ride_active s = false
  /\ current_destination_name s = None /\ current_destination_id s = None
  /\ current_passenger_id s = None /\ ride_started_at s = None
  /\ music_playing s = false /\ music_genre s = None /\ music_paused s = false
  /\ mode s = NORMAL.

(** The identity of the session and its position. *)
Definition same_identity (s s' : SessionState) : Prop :=
  session_id s' = session_id s /\ user_id s' = user_id s /\ ride_id s' = ride_id s
  /\ city s' = city s /\ taxi_x s' = taxi_x s /\ taxi_y s' = taxi_y s
  /\ music_volume s' = music_volume s /\ driving_policy s' = driving_policy s.

(** The state of the conversation. *)
Definition same_conversation (s s' : SessionState) : Prop :=
  history s' = history s /\ pending_question s' = pending_question s
  /\ last_poi_suggestions s' = last_poi_suggestions s
  /\ last_ui_options s' = last_ui_options s.

(** The state of the player. *)
Definition same_music (s s' : SessionState) : Prop :=
  music_playing s' = music_playing s /\ music_genre s' = music_genre s
  /\ music_paused s' = music_paused s /\ music_volume s' = music_volume s.

(** A computation that reads and writes no session but that of [sid]. *)
Definition touches_only {A} (sid : str) (m : M A) : Prop :=
  forall w sid', sid' <> sid -> session_of (snd (m w)) sid' = session_of w sid'.

(** What the commands of a playback tool say about the player afterwards:
    no command, no change; [PLAY_MUSIC] names a genre of the catalogue, its
    URL, and that genre is playing; and so on. *)
Definition commands_agree (available : list str) (ctx : ToolContext)
    (commands : list Command) (before after : SessionState) : Prop :=
  match commands with
  | [] => same_music before after
  | [PLAY_MUSIC genre url] =>
      genre ∈ available /\ url = u "/music/" ++ genre
      /\ music_playing after = true /\ music_genre after = Some genre
      /\ music_paused after = false
  | [STOP_MUSIC] =>
      ctx_music_playing ctx = true
      /\ music_playing after = false /\ music_genre after = None
      /\ music_paused after = false
  | [PAUSE_MUSIC] =>
      ctx_music_playing ctx = true
      /\ music_paused after = true
      /\ music_playing after = music_playing before
      /\ music_genre after = music_genre before
  | [RESUME_MUSIC] =>
      ctx_music_playing ctx = true
      /\ music_paused after = false
      /\ music_playing after = music_playing before
      /\ music_genre after = music_genre before
  | _ => False
  end.

(** What a run of a playback tool does to the session of its context. *)
Definition outcome (available_genres : list str) (ctx : ToolContext)
    (result : ToolResult) (before after : SessionState) : Prop :=
  (tr_commands result = [] /\ same_music before after)
  \/ (exists genre,
        genre ∈ available_genres
        /\ tr_commands result = [PLAY_MUSIC genre (u "/music/" ++ genre)]
        /\ after = assign [ set_music_playing true; set_music_genre (Some genre);
                            set_music_paused false ] before)
  \/ (ctx_music_playing ctx = true /\ tr_commands result = [STOP_MUSIC]
      /\ after = assign [ set_music_playing false; set_music_genre None;
                          set_music_paused false ] before)
  \/ (ctx_music_playing ctx = true /\ tr_commands result = [PAUSE_MUSIC]
      /\ after = set_music_paused true before)
  \/ (ctx_music_playing ctx = true /\ tr_commands result = [RESUME_MUSIC]
      /\ after = set_music_paused false before).

(** A paused player is a playing one. *)
Definition paused_is_playing (s : SessionState) : Prop :=
  music_paused s = true -> music_playing s = true.

(** A run of digits that fits in the rest of the input. *)
Definition digits_within (rest : str) (d : str) : Prop :=
  Forall (fun c => isdigit c = true) d /\ (length d <= length rest)%nat.




(** The lookup of the user's conditions, made now, returns a condition
    that forces a policy. *)
Definition constrained `{C : Collaborators} (w : World) (user_id : str) : Prop :=
  exists conditions,
    repo_user_conditions (now w) user_id = Some conditions /\ forces_policy conditions.

(** What a change of the driving policy may send: nothing, or one request
    for a valid policy other than the current one, and that only with the
    simulator connected and no condition of the user forcing a policy. *)
Definition guarded_send `{C : Collaborators} (w : World) (sid user_id current : str)
    (sent : list Call) : Prop :=
  sent = []
  \/ exists policy,
       policy ∈ valid_policies /\ lower policy <> lower current
       /\ sent = [CallSendText (cambio_policy sid policy)]
       /\ unity_connected w = true /\ unconstrained w user_id.

Definition is_reroute (c : Command) : bool :=
  match c with
  | REROUTE_TO _ => true
  | _ => false
  end.

(** The texts [handle_user_message] answers before any classification. *)
Definition short_circuit (text : str) : bool :=
  let analysis := Text.analyze_text text in
  Text.is_simple_rejection analysis || Text.is_simple_confirmation analysis
  || Text.is_help_request text || Text.is_greeting text || Text.has_negation analysis.



(** The external calls a run made. *)
Definition calls_of {A} (w : World) (run : res A * World) : list Call :=
  calls_since w (snd run).

(** The buttons [handle_ui_action] answers from the session alone. *)
Definition session_buttons : list str :=
  map u [ "cancel"; "no_music"; "no_tour"; "stop_music"; "change_music"; "music_ok";
          "pause_music"; "resume_music"; "volume_set" ]%string.

(** The worlds [w] and [w'] differ at most in the session of [sid]. *)
Definition only_session_changed (sid : str) (w w' : World) : Prop :=
  calls w' = calls w /\ log w' = log w /\ unity_connected w' = unity_connected w
  /\ forall sid', sid' <> sid -> session_of w' sid' = session_of w sid'.



(** The question a cancellation is read against: music, tour or neither. *)
Definition about_music (action_id : str) (pending : option str) : Prop :=
  action_id = u "no_music" \/ pending = Some (u "music_genre")
  \/ pending = Some (u "music_feedback").
Definition about_tour (action_id : str) (pending : option str) : Prop :=
  action_id = u "no_tour" \/ pending = Some (u "tour").

End Props.

(* ===================================================================== *)
(** * Facts about strings and matching                                    *)
(* ===================================================================== *)

Module StringFacts.
Import Py Re Spec.

Lemma in_range_spec lo hi c : in_range lo hi c = true <-> lo <= c <= hi.
Proof. unfold in_range. rewrite andb_true_iff, !N.leb_le. tauto. Qed.














Lemma startswith_spec p s : startswith p s = true <-> exists post, s = p ++ post.
Proof.
  revert s. induction p as [| a p IH]; intros s; simpl.
  - split; [intros _; exists s; reflexivity | reflexivity].
  - destruct s as [| c s].
    + split; [discriminate | intros [post Hp]; discriminate].
    + rewrite andb_true_iff, N.eqb_eq, IH. split.
      * intros [-> [post ->]]. exists post. reflexivity.
      * intros [post Hp]. inversion Hp; subst. split; [reflexivity | eauto].
Qed.


End StringFacts.

(* ===================================================================== *)
(** * The text analyzer                                                   *)
(* ===================================================================== *)

Module TextFacts.
Import Py Re Spec Text StringFacts.



(** The analyzer's flags, read off its definition. *)
Lemma has_negation_eq text :
  has_negation (analyze_text text) = _detect_negation (normalized text).
Proof. reflexivity. Qed.

Lemma is_simple_confirmation_eq text :
  is_simple_confirmation (analyze_text text) =
  (word_count text <=? 3)%nat
  && negb (_detect_negation (normalized text))
  && existsb (fun conf => search_word conf (normalized text)) SIMPLE_CONFIRMATIONS
  && negb (existsb (fun action => contains action (normalized text)) action_indicators).
Proof.
  unfold analyze_text, word_count, normalized; cbn [is_simple_confirmation].
  destruct (_ <=? 3)%nat; [| reflexivity].
  destruct (_detect_negation _); [reflexivity |]. cbn [negb andb].
  destruct (existsb _ SIMPLE_CONFIRMATIONS); reflexivity.
Qed.





(** C10 (implicit, [analyze_text]): a text reported as a simple
    confirmation is never reported as containing a negation, and has at
    most three whitespace-separated words. *)
Theorem confirmation_excludes_negation (text : str) :
  is_simple_confirmation (analyze_text text) = true ->
  has_negation (analyze_text text) = false /\ (word_count text <= 3)%nat.
Proof.
  rewrite is_simple_confirmation_eq, has_negation_eq, !andb_true_iff.
  intros [[[Hlen Hneg] _] _].
  apply Nat.leb_le in Hlen. apply negb_true_iff in Hneg. auto.
Qed.

Lemma confirmation_excludes_negation_witness :
  has_negation (analyze_text (u "Va bene, grazie!")) = false
  /\ (word_count (u "Va bene, grazie!") <= 3)%nat.
Proof. apply (confirmation_excludes_negation (u "Va bene, grazie!")). reflexivity. Defined.


End TextFacts.

(* ===================================================================== *)
(** * The intent classifier: sanitization of the need                     *)
(* ===================================================================== *)

Module NeedFacts.
Import Py Re Spec Core IntentClassifier StringFacts.

Lemma occurs_refl s : occurs s s.
Proof. exists [], []. rewrite app_nil_r. reflexivity. Qed.















End NeedFacts.

(* ===================================================================== *)
(** * The intent classifier: option matching                              *)
(* ===================================================================== *)

Module OptionFacts.
Import Py Re Spec Core IntentClassifier StringFacts.





Section MatchOption.
Context `{C : Collaborators} `{O : SetOrder}.








End MatchOption.



End OptionFacts.

(* ===================================================================== *)
(** * The session store and the volume tools                              *)
(* ===================================================================== *)

Module StoreFacts.
Import Py Spec Core SessionStore Tools.

Lemma world_eta w :
  {| sessions := sessions w; unity_connected := unity_connected w;
     calls := calls w; log := log w |} = w.
Proof. destruct w; reflexivity. Qed.

Lemma session_of_with_session sid s w : session_of (with_session sid s w) sid = s.
Proof. unfold session_of, with_session; simpl. rewrite lookup_insert_eq. reflexivity. Qed.

Lemma session_of_with_session_ne sid sid' s w :
  sid <> sid' -> session_of (with_session sid s w) sid' = session_of w sid'.
Proof.
  intros Hne. unfold session_of, with_session; simpl.
  rewrite lookup_insert_ne by exact Hne. reflexivity.
Qed.

(** Storing a session as it already reads changes nothing that
    [session_of] can see. *)
Lemma session_of_touch sid w sid' :
  session_of (with_session sid (session_of w sid) w) sid' = session_of w sid'.
Proof.
  destruct (decide (sid = sid')) as [<- | Hne].
  - apply session_of_with_session.
  - apply session_of_with_session_ne, Hne.
Qed.

Lemma get_session_run sid w :
  exists w', get_session sid w = (Ok (session_of w sid), w')
    /\ sessions w' = <[sid := session_of w sid]> (sessions w)
    /\ unity_connected w' = unity_connected w /\ calls w' = calls w /\ log w' = log w.
Proof.
  unfold get_session, bind, get_world, session_of. simpl.
  destruct (sessions w !! sid) as [s |] eqn:E; simpl.
  - exists w. repeat split. symmetry. apply insert_id, E.
  - eexists. split; [reflexivity |]. simpl. auto.
Qed.

Lemma world_ext (w1 w2 : World) :
  sessions w1 = sessions w2 -> unity_connected w1 = unity_connected w2 ->
  calls w1 = calls w2 -> log w1 = log w2 -> w1 = w2.
Proof. destruct w1, w2; simpl; intros; subst; reflexivity. Qed.

Lemma mutate_run sid f w :
  mutate sid f w = (Ok tt, with_session sid (f (session_of w sid)) w).
Proof.
  unfold mutate, bind. destruct (get_session_run sid w) as (w' & -> & Hs & Hu & Hc & Hl).
  unfold set_sessions, modify_world. f_equal.
  apply world_ext; simpl; try assumption. rewrite Hs. apply insert_insert_eq.
Qed.

Lemma get_session_stored sid s w :
  get_session sid (with_session sid s w) = (Ok s, with_session sid s w).
Proof.
  unfold get_session, bind, get_world; simpl. rewrite lookup_insert_eq. reflexivity.
Qed.

Lemma set_volume_run sid volume w :
  set_volume sid volume w
  = (Ok (clamp_volume volume),
     with_session sid (set_music_volume (clamp_volume volume) (session_of w sid)) w).
Proof.
  unfold set_volume, bind. rewrite mutate_run, get_session_stored. reflexivity.
Qed.

Lemma adjust_volume_run sid delta w :
  adjust_volume sid delta w
  = (Ok (clamp_volume (music_volume (session_of w sid) + delta)),
     with_session sid
       (set_music_volume (clamp_volume (music_volume (session_of w sid) + delta))
          (session_of w sid)) w).
Proof.
  unfold adjust_volume, bind. rewrite mutate_run, get_session_stored. reflexivity.
Qed.




End StoreFacts.

(* ===================================================================== *)
(** * The driving-policy tool                                             *)
(* ===================================================================== *)

Module PolicyFacts.
Import Py Spec Core SessionStore Connection Tools StoreFacts.

Lemma same_sessions_refl w : same_sessions w w.
Proof. intros sid. reflexivity. Qed.

Lemma same_sessions_trans w1 w2 w3 :
  same_sessions w1 w2 -> same_sessions w2 w3 -> same_sessions w1 w3.
Proof. intros H12 H23 sid. rewrite H23. apply H12. Qed.

Lemma preserves_ret {A} (a : A) : preserves_sessions (ret a).
Proof. intros w. apply same_sessions_refl. Qed.

Lemma preserves_raise {A} e : preserves_sessions (@raise A e).
Proof. intros w. apply same_sessions_refl. Qed.

Lemma preserves_bind {A B} (m : M A) (k : A -> M B) :
  preserves_sessions m -> (forall a, preserves_sessions (k a)) ->
  preserves_sessions (bind m k).
Proof.
  intros Hm Hk w. unfold bind. specialize (Hm w).
  destruct (m w) as [[a | e] w1]; simpl in *; [| exact Hm].
  eapply same_sessions_trans; [exact Hm | apply Hk].
Qed.

Lemma preserves_try_except {A} (m : M A) (h : exn -> M A) :
  preserves_sessions m -> (forall e, preserves_sessions (h e)) ->
  preserves_sessions (try_except m h).
Proof.
  intros Hm Hh w. unfold try_except. specialize (Hm w).
  destruct (m w) as [[a | e] w1]; simpl in *; [exact Hm |].
  eapply same_sessions_trans; [exact Hm | apply Hh].
Qed.

Lemma preserves_get_world : preserves_sessions get_world.
Proof. intros w. apply same_sessions_refl. Qed.

Lemma preserves_record_call c : preserves_sessions (record_call c).
Proof. intros w sid. reflexivity. Qed.

Lemma preserves_write_log l m : preserves_sessions (write_log l m).
Proof. intros w sid. reflexivity. Qed.

Lemma preserves_get_session sid : preserves_sessions (get_session sid).
Proof.
  intros w sid'. destruct (get_session_run sid w) as (w' & -> & Hs & _); simpl.
  unfold session_of at 1. rewrite Hs.
  destruct (decide (sid = sid')) as [<- | Hne].
  - rewrite lookup_insert_eq. reflexivity.
  - rewrite lookup_insert_ne by exact Hne. reflexivity.
Qed.

Create HintDb preserves.
#[export] Hint Resolve preserves_ret preserves_raise preserves_get_world
  preserves_record_call preserves_write_log preserves_get_session : preserves.

(** Closes a goal [preserves_sessions m] by following the structure of [m]. *)
Ltac preserves :=
  repeat first
    [ progress intros
    | solve [auto with preserves]
    | apply preserves_bind
    | apply preserves_try_except
    | match goal with
      | |- preserves_sessions (match ?x with _ => _ end) => destruct x
      | |- preserves_sessions (if ?b then _ else _) => destruct b
      end ].

Section Policy.
Context `{C : Collaborators}.

Lemma preserves_is_unity_connected : preserves_sessions is_unity_connected.
Proof. unfold is_unity_connected. preserves. Qed.

Lemma preserves_send_to_unity m : preserves_sessions (send_to_unity m).
Proof. unfold send_to_unity. preserves. Qed.

Lemma preserves_get_user_conditions uid : preserves_sessions (get_user_conditions uid).
Proof. unfold get_user_conditions. preserves. Qed.

Lemma preserves_forced_reason uid : preserves_sessions (forced_reason uid).
Proof.
  unfold forced_reason. apply preserves_try_except; [| preserves].
  apply preserves_bind; [apply preserves_get_user_conditions | preserves].
Qed.

Lemma preserves_change_policy ctx : preserves_sessions (change_policy ctx).
Proof.
  unfold change_policy. pose proof preserves_is_unity_connected.
  pose proof preserves_send_to_unity. preserves.
Qed.

(** The tool never writes to a session. *)
Lemma preserves_change_driving_policy ctx :
  preserves_sessions (ChangeDrivingPolicyTool_execute ctx).
Proof.
  unfold ChangeDrivingPolicyTool_execute.
  apply preserves_bind; [apply preserves_forced_reason |].
  intros [reason |]; [preserves | apply preserves_change_policy].
Qed.

Lemma effective_policy_unforced requested conditions :
  ~ forces_policy conditions -> snd (get_effective_policy requested conditions) = None.
Proof.
  induction conditions as [| c conditions IH]; intros Hno; [reflexivity |].
  cbn [get_effective_policy].
  match goal with
  | |- context [find ?f ?l] => destruct (find f l) as [[c' [forced reason]] |] eqn:E
  end.
  - exfalso. apply Hno. exists c. split; [left |].
    apply find_some in E as [Hin Heq]. apply bool_decide_eq_true_1 in Heq. subst c'.
    apply list_elem_of_In. change c with (fst (c, (forced, reason))).
    apply in_map, Hin.
  - apply IH. intros (c0 & Hin & Hrule). apply Hno. exists c0. split; [right |]; assumption.
Qed.

Lemma forced_reason_unconstrained uid w :
  unconstrained w uid ->
  forced_reason uid w = (Ok None, after_call (CallGetUserConditions uid) w).
Proof.
  unfold unconstrained, forced_reason, get_user_conditions.
  unfold try_except, bind, get_world, record_call, modify_world, ret, raise; simpl.
  unfold after_call. destruct (repo_user_conditions (now w) uid) as [conds |]; [| reflexivity].
  intros Hno. destruct conds as [| c conds]; [reflexivity |].
  rewrite (effective_policy_unforced _ _ Hno). reflexivity.
Qed.

Lemma capitalize_nonempty np policy :
  capitalize np = policy -> policy ∈ valid_policies -> np <> [].
Proof.
  intros <- Hin ->. revert Hin. unfold valid_policies; cbn [map capitalize].
  rewrite !elem_of_cons. intros [H | [H | [H | H]]]; try discriminate. inversion H.
Qed.

Lemma is_unity_connected_run w : is_unity_connected w = (Ok (unity_connected w), w).
Proof. reflexivity. Qed.

(** With the simulator connected, a message is handed to the socket,
    once; the send never raises. *)
Lemma send_to_unity_connected m w :
  unity_connected w = true ->
  exists b w',
    send_to_unity m w = (Ok b, w')
    /\ calls w' = calls w ++ [CallSendText m]
    /\ sessions w' = sessions w /\ unity_connected w' = unity_connected w.
Proof.
  intros Hconn. unfold send_to_unity, bind, get_world; simpl. rewrite Hconn.
  unfold record_call, write_log, modify_world, ret; simpl.
  destruct (socket_send_ok (now w) m); simpl; eexists _, _; (split; [reflexivity |]);
    simpl; auto.
Qed.

(** With no simulator, nothing is sent and a warning is written. *)
Lemma send_to_unity_disconnected m w :
  unity_connected w = false ->
  send_to_unity m w = (Ok false, after_log WARNING LogNoUnityConnection w).
Proof.
  intros Hconn. unfold send_to_unity, bind, get_world; simpl. rewrite Hconn. reflexivity.
Qed.

(** The requested policy, as [change_policy] reads it. *)
Lemma requested_policy_raw ctx policy :
  requested_policy ctx = Some policy -> policy ∈ valid_policies ->
  exists np,
    (if truthy (p_policy (ctx_params ctx)) then p_policy (ctx_params ctx)
     else detect_policy_from_text (ctx_message ctx)) = Some np
    /\ capitalize np = policy /\ truthy (Some np) = true.
Proof.
  unfold requested_policy. intros Hreq Hvalid.
  destruct (if truthy _ then _ else _) as [np |]; [| discriminate].
  simpl in Hreq. injection Hreq as Hcap. exists np. split; [reflexivity |].
  split; [exact Hcap |].
  pose proof (capitalize_nonempty np policy Hcap Hvalid) as Hne.
  destruct np; [contradiction | reflexivity].
Qed.

Lemma calls_since_app w w' l : calls w' = calls w ++ l -> calls_since w w' = l.
Proof. intros Hc. unfold calls_since. rewrite Hc. apply drop_app_length. Qed.

(** The policy already active: the tool says so and sends nothing. *)
Lemma change_policy_same ctx w policy :
  requested_policy ctx = Some policy -> policy ∈ valid_policies ->
  lower (driving_policy (session_of w (ctx_session_id ctx))) = lower policy ->
  exists w',
    change_policy ctx w
    = (Ok (already_active (driving_policy (session_of w (ctx_session_id ctx)))), w')
    /\ calls w' = calls w.
Proof.
  intros Hreq Hvalid Hsame.
  destruct (requested_policy_raw ctx policy Hreq Hvalid) as (np & Hraw & Hcap & Hnp).
  unfold change_policy. rewrite Hraw, Hnp, Hcap.
  rewrite bool_decide_eq_true_2 by exact Hvalid.
  unfold bind. destruct (get_session_run (ctx_session_id ctx) w) as (w' & -> & _ & _ & Hc & _).
  rewrite bool_decide_eq_true_2 by exact Hsame. exists w'. split; [reflexivity | exact Hc].
Qed.

(** Another valid policy, with the simulator connected: one request is
    handed to the socket. *)
Lemma change_policy_other ctx w policy :
  requested_policy ctx = Some policy -> policy ∈ valid_policies ->
  lower (driving_policy (session_of w (ctx_session_id ctx))) <> lower policy ->
  unity_connected w = true ->
  exists w',
    change_policy ctx w = (Ok (request_sent policy), w')
    /\ calls w' = calls w ++ [CallSendText (cambio_policy (ctx_session_id ctx) policy)].
Proof.
  intros Hreq Hvalid Hother Hconn.
  destruct (requested_policy_raw ctx policy Hreq Hvalid) as (np & Hraw & Hcap & Hnp).
  unfold change_policy. rewrite Hraw, Hnp, Hcap.
  rewrite bool_decide_eq_true_2 by exact Hvalid.
  unfold bind. destruct (get_session_run (ctx_session_id ctx) w) as (w' & -> & _ & Hu & Hc & _).
  rewrite bool_decide_eq_false_2 by exact Hother.
  rewrite is_unity_connected_run, Hu, Hconn.
  destruct (send_to_unity_connected (cambio_policy (ctx_session_id ctx) policy) w')
    as (b & w'' & -> & Hc' & _); [congruence |].
  exists w''. split; [reflexivity |]. rewrite Hc', Hc. reflexivity.
Qed.

(** C8 ([ChangeDrivingPolicyTool.execute], as amended): the tool never
    changes a session.  When no condition of the user forces a policy: if the
    requested policy is the current one, up to case, the tool answers
    "already active" with no command and sends nothing; if another valid
    policy is requested and the simulator is connected, the tool hands one
    policy-change request to the simulator. *)
Theorem driving_policy_tool_frame (ctx : ToolContext) (w : World) :
  let sid := ctx_session_id ctx in
  let current := driving_policy (session_of w sid) in
  let run := ChangeDrivingPolicyTool_execute ctx w in
  same_sessions w (snd run)
  /\ forall policy,
       unconstrained w (ctx_user_id ctx) ->
       requested_policy ctx = Some policy -> policy ∈ valid_policies ->
       (lower current = lower policy ->
        fst run = Ok (already_active current)
        /\ tr_commands (already_active current) = []
        /\ filter is_send (calls_since w (snd run)) = [])
       /\ (lower current <> lower policy -> unity_connected w = true ->
           fst run = Ok (request_sent policy)
           /\ filter is_send (calls_since w (snd run))
              = [CallSendText (cambio_policy sid policy)]).
Proof.
  intros sid current run. split; [apply preserves_change_driving_policy |].
  intros policy Hfree Hreq Hvalid. subst run.
  unfold ChangeDrivingPolicyTool_execute, bind.
  rewrite (forced_reason_unconstrained _ _ Hfree).
  set (w1 := after_call (CallGetUserConditions (ctx_user_id ctx)) w).
  split.
  - intros Hsame.
    destruct (change_policy_same ctx w1 policy Hreq Hvalid Hsame) as (w' & Hrun & Hc).
    fold sid in Hrun. change (session_of w1 sid) with (session_of w sid) in Hrun.
    fold current in Hrun. rewrite Hrun; cbn [fst snd].
    split; [reflexivity |]. split; [reflexivity |].
    rewrite (calls_since_app w w' [CallGetUserConditions (ctx_user_id ctx)]); [reflexivity |].
    rewrite Hc. reflexivity.
  - intros Hother Hconn.
    destruct (change_policy_other ctx w1 policy Hreq Hvalid Hother Hconn) as (w' & Hrun & Hc).
    rewrite Hrun; cbn [fst snd]. split; [reflexivity |].
    rewrite (calls_since_app w w'
               [CallGetUserConditions (ctx_user_id ctx);
                CallSendText (cambio_policy sid policy)]); [reflexivity |].
    rewrite Hc. subst w1. simpl. rewrite <- app_assoc. reflexivity.
Qed.

End Policy.

(** A user whose condition forces Comfort asks for Sport, the policy
    already active: the tool refuses instead of answering "already active".
    And with no such condition but the simulator disconnected, a request for
    another valid policy sends nothing. *)
Lemma driving_policy_guards_counterexample :
  let forced := Scenario.scripted (fun _ => None) (fun _ => None) (fun _ => None)
                  (fun _ => Some [u "pregnancy"]) in
  let same := Scenario.ctx_for (Main.with_policy (u "sport") no_params) "modalità sport" in
  let other := Scenario.ctx_for (Main.with_policy (u "eco") no_params) "modalità eco" in
  let current := driving_policy (session_of (Scenario.world_with Scenario.riding true)
                                   Scenario.sid) in
  (requested_policy same = Some (u "Sport") /\ lower current = lower (u "Sport")
   /\ fst (ChangeDrivingPolicyTool_execute (C := forced) same
             (Scenario.world_with Scenario.riding true))
      <> Ok (already_active current))
  /\ (requested_policy other = Some (u "Eco") /\ lower current <> lower (u "Eco")
      /\ filter is_send
           (calls (snd (ChangeDrivingPolicyTool_execute (C := Scenario.offline) other
                          (Scenario.world_with Scenario.riding false)))) = []).
Proof.
  cbv zeta. split; (split; [reflexivity |]); split;
    try reflexivity; vm_compute; discriminate.
Qed.

Lemma driving_policy_tool_frame_witness :
  fst (ChangeDrivingPolicyTool_execute (C := Scenario.offline)
         (Scenario.ctx_for (Main.with_policy (u "SPORT") no_params) "vai più veloce")
         (Scenario.world_with Scenario.riding true))
  = Ok (already_active (u "Sport")).
Proof.
  refine (proj1 (proj1 (proj2 (driving_policy_tool_frame (C := Scenario.offline)
            (Scenario.ctx_for (Main.with_policy (u "SPORT") no_params) "vai più veloce")
            (Scenario.world_with Scenario.riding true)) (u "Sport") _ _ _) _)).
  - intros (c & Hin & _). inversion Hin.
  - reflexivity.
  - apply (bool_decide_eq_true_1 _). vm_compute. reflexivity.
  - reflexivity.
Defined.

End PolicyFacts.

(* ===================================================================== *)
(** * The intent classifier: failures                                     *)
(* ===================================================================== *)

Module ClassifierFacts.
Import Py Re Spec Core IntentClassifier.



Section Degrade.
Context `{C : Collaborators} `{O : SetOrder}.

Lemma call_llm_run prompt w :
  _call_llm prompt w
  = (match llm_complete (now w) prompt with
     | Some text => Ok text
     | None => Raise TransportError
     end, after_call (CallLLM prompt) w).
Proof.
  unfold _call_llm, bind, get_world, record_call, modify_world, ret, raise, after_call.
  simpl. destruct (llm_complete (now w) prompt); reflexivity.
Qed.





(** A reply that decodes to something other than an object makes the
    blocks that read fields raise. *)
Lemma need_try_not_object prompt text w :
  llm_complete (now w) prompt = Some text -> _parse_json_response text = JOther ->
  classify_need_try prompt w = (Raise AttributeError, after_call (CallLLM prompt) w).
Proof.
  intros Hr Hp. unfold classify_need_try, bind. rewrite call_llm_run, Hr, Hp. reflexivity.
Qed.

Lemma match_try_not_object prompt options text w :
  llm_complete (now w) prompt = Some text -> _parse_json_response text = JOther ->
  match_option_try prompt options w = (Raise AttributeError, after_call (CallLLM prompt) w).
Proof.
  intros Hr Hp. unfold match_option_try, bind. rewrite call_llm_run, Hr, Hp. reflexivity.
Qed.

(** For the tool classifier, the text between the first "{" and the last
    "}" that does not decode, or decodes to no object, makes the block raise. *)
Lemma tools_try_undecodable prompt text start_idx end_idx w :
  llm_complete (now w) prompt = Some text ->
  find_char 123 text = Some start_idx -> rfind_char 125 text = Some end_idx ->
  (start_idx < end_idx)%nat ->
  json_loads (slice start_idx (end_idx + 1) text) = None
  \/ json_loads (slice start_idx (end_idx + 1) text) = Some JOther ->
  exists e, classify_with_tools_try prompt w = (Raise e, after_call (CallLLM prompt) w).
Proof.
  intros Hr Hs He Hlt Hbad. unfold classify_with_tools_try, bind.
  rewrite call_llm_run, Hr, Hs, He.
  destruct (Nat.ltb_spec start_idx end_idx) as [_ | ?]; [| lia].
  unfold json_loads_or_raise. destruct Hbad as [-> | ->]; eexists; reflexivity.
Qed.


End Degrade.


End ClassifierFacts.

(* ===================================================================== *)
(** * The side-effect processor                                           *)
(* ===================================================================== *)

Module SideEffectFacts.
Import Py Spec Core SessionStore IntentClassifier Connection Main StoreFacts PolicyFacts.

Lemma logged_since_app w w' l : log w' = log w ++ l -> logged_since w w' = l.
Proof. intros Hl. unfold logged_since. rewrite Hl. apply drop_app_length. Qed.

Section Reroute.
Context `{C : Collaborators} `{O : SetOrder}.

Lemma is_ride_active_run sid w :
  exists w', SessionStore.is_ride_active sid w
             = (Ok (Core.is_ride_active (session_of w sid)), w')
    /\ unity_connected w' = unity_connected w /\ calls w' = calls w /\ log w' = log w.
Proof.
  unfold SessionStore.is_ride_active, bind.
  destruct (get_session_run sid w) as (w' & -> & _ & Hu & Hc & Hl).
  exists w'. auto.
Qed.

(** The last step of the loop body: the message goes to the simulator
    when it is connected, else a warning is written; nothing is raised. *)
Lemma deliver_run (m : UnityMsg) w :
  exists w',
    (connected <- is_unity_connected ;;
     if connected then send_to_unity m ;;; ret tt
     else write_log WARNING LogUnityNotConnected) w = (Ok tt, w')
    /\ (unity_connected w = true ->
        calls w' = calls w ++ [CallSendText m])
    /\ (unity_connected w = false ->
        calls w' = calls w /\ log w' = log w ++ [(WARNING, LogUnityNotConnected)]).
Proof.
  unfold bind at 1. rewrite is_unity_connected_run.
  destruct (unity_connected w) eqn:Hconn.
  - destruct (send_to_unity_connected m w Hconn) as (b & w' & Hrun & Hc & _).
    exists w'. unfold bind. rewrite Hrun. split; [reflexivity |].
    split; [intros _; exact Hc | discriminate].
  - eexists. split; [reflexivity |]. split; [discriminate |]. intros _. split; reflexivity.
Qed.

(** No active ride: the command is dropped with a warning. *)
Lemma reroute_no_ride sid payload w :
  Core.is_ride_active (session_of w sid) = false ->
  exists w', forward_reroute sid payload w = (Ok tt, w')
    /\ calls w' = calls w /\ log w' = log w ++ [(WARNING, LogRerouteNoRide sid)].
Proof.
  intros Hride. unfold forward_reroute, bind at 1.
  destruct (is_ride_active_run sid w) as (w0 & -> & _ & Hc & Hl). rewrite Hride.
  eexists. split; [reflexivity |]. simpl. rewrite Hc, Hl. split; reflexivity.
Qed.

(** An active ride and a payload that carries [id_unity]: no lookup. *)
Lemma reroute_complete sid payload id_unity w :
  Core.is_ride_active (session_of w sid) = true -> rp_id_unity payload = Some id_unity ->
  exists w', forward_reroute sid payload w = (Ok tt, w')
    /\ (unity_connected w = true ->
        calls w' = calls w ++ [CallSendText (cambio_destinazione sid payload)])
    /\ (unity_connected w = false ->
        calls w' = calls w /\ log w' = log w ++ [(WARNING, LogUnityNotConnected)]).
Proof.
  intros Hride Hid. unfold forward_reroute, bind at 1.
  destruct (is_ride_active_run sid w) as (w0 & -> & Hu & Hc & Hl). rewrite Hride, Hid.
  cbn [negb]. unfold bind at 1, ret at 1.
  replace {| rp_poi_id := rp_poi_id payload; rp_name := rp_name payload;
             rp_id_unity := Some id_unity |} with payload
    by (destruct payload; simpl in *; congruence).
  destruct (deliver_run (cambio_destinazione sid payload) w0) as (w' & -> & Hon & Hoff).
  exists w'. split; [reflexivity |]. rewrite <- Hc, <- Hl, <- Hu. split; assumption.
Qed.

(** An active ride and a payload without [id_unity]: one lookup, whose
    answer - an identifier or none - goes into the message. *)
Lemma reroute_recovering sid payload w :
  Core.is_ride_active (session_of w sid) = true -> rp_id_unity payload = None ->
  let found := repo_get_poi_by_id (now w) (rp_poi_id payload) in
  let unity_msg :=
    cambio_destinazione sid
      {| rp_poi_id := rp_poi_id payload; rp_name := rp_name payload;
         rp_id_unity := found ≫= poi_id_unity |} in
  exists w', forward_reroute sid payload w = (Ok tt, w')
    /\ (unity_connected w = true ->
        calls w' = calls w ++ [CallGetPoiById (rp_poi_id payload); CallSendText unity_msg])
    /\ (unity_connected w = false ->
        calls w' = calls w ++ [CallGetPoiById (rp_poi_id payload)]
        /\ exists l, log w' = log w ++ l ++ [(WARNING, LogUnityNotConnected)])
    /\ (found = None ->
        exists l, log w'
                  = log w ++ [(WARNING, LogMissingIdUnity (rp_name payload) (rp_poi_id payload));
                              (ERROR, LogRecoverFailed (rp_poi_id payload))] ++ l).
Proof.
  intros Hride Hid found unity_msg. unfold forward_reroute, bind at 1.
  destruct (is_ride_active_run sid w) as (w0 & -> & Hu & Hc & Hl). rewrite Hride, Hid.
  cbv [negb bind try_except get_poi_by_id write_log record_call modify_world get_world ret
       is_unity_connected send_to_unity now].
  cbn [calls sessions unity_connected log]. rewrite Hu, Hc, Hl.
  subst unity_msg found. unfold now.
  destruct (repo_get_poi_by_id (length (calls w)) (rp_poi_id payload)) as [poi |];
    cbn [calls sessions unity_connected log mbind option_bind];
    destruct (unity_connected w); cbn [calls sessions unity_connected log].
  all: try match goal with
       | |- context [socket_send_ok ?n ?m] => destruct (socket_send_ok n m)
       end.
  all: eexists; (split; [reflexivity |]); cbn [calls sessions unity_connected log].
  all: rewrite <- ?app_assoc; cbn [app].
  all: split; [intros Hconn; first [discriminate Hconn | reflexivity] |].
  all: split;
    [intros Hconn;
     first [ discriminate Hconn
           | split; [reflexivity |];
             first [eexists [_]; reflexivity | eexists [_; _]; reflexivity] ] |].
  all: intros Hnone; first [discriminate Hnone | eexists; reflexivity].
Qed.

(** The loop body never raises. *)
Lemma forward_reroute_total sid payload w :
  exists w', forward_reroute sid payload w = (Ok tt, w').
Proof.
  destruct (Core.is_ride_active (session_of w sid)) eqn:Hride.
  - destruct (rp_id_unity payload) as [id_unity |] eqn:Hid.
    + destruct (reroute_complete sid payload id_unity w Hride Hid) as (w' & Hrun & _).
      exists w'. exact Hrun.
    + destruct (reroute_recovering sid payload w Hride Hid) as (w' & Hrun & _).
      exists w'. exact Hrun.
  - destruct (reroute_no_ride sid payload w Hride) as (w' & Hrun & _).
    exists w'. exact Hrun.
Qed.

Lemma process_commands_total sid commands w :
  exists w', process_commands sid commands w = (Ok tt, w').
Proof.
  revert w. induction commands as [| cmd rest IH]; intros w; [exists w; reflexivity |].
  cbn [process_commands]. unfold bind at 1.
  destruct cmd; try apply IH.
  destruct (forward_reroute_total sid payload w) as (w1 & ->). apply IH.
Qed.

Lemma side_effects_single response sid payload w w' :
  r_commands response = [REROUTE_TO payload] ->
  forward_reroute sid payload w = (Ok tt, w') ->
  _process_side_effects response sid w = (Ok tt, w').
Proof.
  intros Hcmd Hrun. unfold _process_side_effects. rewrite Hcmd.
  cbn [process_commands]. unfold bind. rewrite Hrun. reflexivity.
Qed.

(** X2 ([_process_side_effects] on a response whose command is one
    [REROUTE_TO]): nothing is raised.  With no active ride the command is
    dropped: no call is made and one warning is written.  With an active
    ride: a payload that carries [id_unity] causes no lookup, a payload
    without it causes exactly one; with the simulator disconnected nothing is
    sent and the last record is the warning; but when the lookup fails to
    recover [id_unity] and the simulator is connected, the error is logged
    and the command is still forwarded, with no [id_unity]. *)
Theorem reroute_side_effect (response : Response) (sid : str) (payload : RerouteP)
    (w : World) :
  r_commands response = [REROUTE_TO payload] ->
  let run := _process_side_effects response sid w in
  let active := Core.is_ride_active (session_of w sid) in
  let sent := filter is_send (calls_since w (snd run)) in
  let lookups := filter is_repo_lookup (calls_since w (snd run)) in
  let logged := logged_since w (snd run) in
  fst run = Ok tt
  /\ (active = false ->
      calls_since w (snd run) = [] /\ logged = [(WARNING, LogRerouteNoRide sid)])
  /\ (active = true ->
      (rp_id_unity payload <> None -> lookups = [])
      /\ (rp_id_unity payload = None -> lookups = [CallGetPoiById (rp_poi_id payload)])
      /\ (unity_connected w = false ->
          sent = [] /\ last logged = Some (WARNING, LogUnityNotConnected))
      /\ (unity_connected w = true -> rp_id_unity payload = None ->
          repo_get_poi_by_id (now w) (rp_poi_id payload) = None ->
          sent = [CallSendText
                    (cambio_destinazione sid
                       {| rp_poi_id := rp_poi_id payload; rp_name := rp_name payload;
                          rp_id_unity := None |})]
          /\ (ERROR, LogRecoverFailed (rp_poi_id payload)) ∈ logged)).
Proof.
  intros Hcmd run active sent lookups logged.
  subst sent lookups logged run active.
  destruct (Core.is_ride_active (session_of w sid)) eqn:Hride.
  - destruct (rp_id_unity payload) as [id_unity |] eqn:Hid.
    + destruct (reroute_complete sid payload id_unity w Hride Hid) as (w' & Hrun & Hon & Hoff).
      rewrite (side_effects_single _ _ _ _ _ Hcmd Hrun); cbn [fst snd].
      split; [reflexivity |]. split; [discriminate |]. intros _.
      split; [| split; [discriminate | split; [| discriminate]]].
      * intros _. destruct (unity_connected w).
        -- rewrite (calls_since_app _ _ _ (Hon eq_refl)). reflexivity.
        -- destruct (Hoff eq_refl) as [Hc _].
           rewrite (calls_since_app w w' []); [reflexivity |].
           rewrite Hc, app_nil_r. reflexivity.
      * intros Hconn. destruct (Hoff Hconn) as [Hc Hl].
        rewrite (calls_since_app w w' []) by (rewrite Hc, app_nil_r; reflexivity).
        rewrite (logged_since_app _ _ _ Hl). split; reflexivity.
    + destruct (reroute_recovering sid payload w Hride Hid)
        as (w' & Hrun & Hon & Hoff & Hfail).
      rewrite (side_effects_single _ _ _ _ _ Hcmd Hrun); cbn [fst snd].
      split; [reflexivity |]. split; [discriminate |]. intros _.
      split; [congruence | split; [| split]].
      * intros _. destruct (unity_connected w).
        -- rewrite (calls_since_app _ _ _ (Hon eq_refl)). reflexivity.
        -- destruct (Hoff eq_refl) as [Hc _].
           rewrite (calls_since_app _ _ _ Hc). reflexivity.
      * intros Hconn. destruct (Hoff Hconn) as [Hc [l Hl]].
        rewrite (calls_since_app _ _ _ Hc), (logged_since_app _ _ _ Hl).
        split; [reflexivity | apply last_snoc].
      * intros Hconn _ Hnone. rewrite Hnone in Hon. destruct (Hfail Hnone) as [l Hl].
        rewrite (calls_since_app _ _ _ (Hon Hconn)), (logged_since_app _ _ _ Hl).
        split; [reflexivity |]. cbn [app]. rewrite !elem_of_cons. auto.
  - destruct (reroute_no_ride sid payload w Hride) as (w' & Hrun & Hc & Hl).
    rewrite (side_effects_single _ _ _ _ _ Hcmd Hrun); cbn [fst snd].
    split; [reflexivity |]. split; [| discriminate]. intros _.
    rewrite (calls_since_app w w' []) by (rewrite Hc, app_nil_r; reflexivity).
    rewrite (logged_since_app _ _ _ Hl). split; reflexivity.
Qed.

End Reroute.

(** A ride is active, the simulator is connected, the payload has no
    [id_unity] and the repository does not know the POI: the message goes to
    the simulator all the same. *)
Lemma reroute_side_effect_witness :
  let payload := {| rp_poi_id := Some (u "POI_1"); rp_name := Some (u "Bar Centrale");
                    rp_id_unity := None |} in
  let response := {| r_session_id := Scenario.sid; r_message := [];
                     r_ui_options := []; r_commands := [REROUTE_TO payload] |} in
  let w := Scenario.world_with Scenario.riding true in
  filter is_send
    (calls_since w (snd (_process_side_effects (C := Scenario.offline) response Scenario.sid w)))
  = [CallSendText (cambio_destinazione Scenario.sid payload)].
Proof.
  intros payload response w.
  refine (proj1 (proj2 (proj2 (proj2 (proj2 (proj2
            (reroute_side_effect (C := Scenario.offline) response Scenario.sid payload w
               _)) _))) _ _ _));
    reflexivity.
Defined.

End SideEffectFacts.

(* ===================================================================== *)
(** * Selections, cancellations and the lists on offer                    *)
(* ===================================================================== *)

Module SelectionFacts.
Import Py Spec Core SessionStore IntentClassifier Text Main StoreFacts.

Lemma update_session_run sid up w :
  update_session sid up w
  = (Ok (apply_update up (session_of w sid)),
     with_session sid (apply_update up (session_of w sid)) w).
Proof. unfold update_session, bind. rewrite mutate_run, get_session_stored. reflexivity. Qed.

Lemma with_session_twice sid s1 s2 w :
  with_session sid s2 (with_session sid s1 w) = with_session sid s2 w.
Proof. unfold with_session; simpl. f_equal. apply insert_insert_eq. Qed.

Section Selection.
Context `{C : Collaborators} `{O : SetOrder}.

(** The option-matching stage, on a selection or a cancellation, empties
    both lists before it hands the choice to [handle_ui_action]. *)
Lemma option_matching_clears_both sid text w result w1 :
  last_ui_options (session_of w sid) <> [] ->
  match_option text (last_ui_options (session_of w sid)) w = (Ok result, w1) ->
  (action result = u "select" /\ truthy (selected_id result) = true)
  \/ action result = u "cancel" ->
  exists w2 action_id,
    option_matching sid text w
    = (response <- handle_ui_action sid action_id ;; ret (Some response)) w2
    /\ last_ui_options (session_of w2 sid) = []
    /\ last_poi_suggestions (session_of w2 sid) = [].
Proof.
  intros Hne Hmatch Hhit. unfold option_matching, bind at 1, get_world at 1.
  destruct (last_ui_options (session_of w sid)) as [| o options]; [contradiction |].
  unfold bind at 1. rewrite Hmatch.
  destruct Hhit as [[Hsel Hid] | Hcancel].
  - rewrite Hsel, Hid, bool_decide_eq_true_2 by reflexivity. cbn [andb].
    unfold bind at 1. rewrite update_session_run.
    eexists _, _. split; [reflexivity |]. rewrite (session_of_with_session sid _ w1).
    split; reflexivity.
  - rewrite Hcancel. rewrite (bool_decide_eq_false_2 (u "cancel" = u "select")) by discriminate.
    cbn [andb]. rewrite bool_decide_eq_true_2 by reflexivity.
    unfold bind at 1. rewrite update_session_run.
    eexists _, _. split; [reflexivity |]. rewrite (session_of_with_session sid _ w1).
    split; reflexivity.
Qed.

(** X3 (the simple-rejection branch of [handle_user_message]): a simple
    rejection is answered at once; it empties [last_poi_suggestions] and
    clears the pending question, and leaves [last_ui_options] as it was: the
    options on offer before the rejection are still stored after it. *)
Theorem rejection_keeps_ui_options (msg : UserMessage) (w : World) :
  is_simple_rejection (analyze_text (strip (msg_text msg))) = true ->
  let sid := msg_session_id msg in
  let run := handle_user_message msg w in
  let after := session_of (snd run) sid in
  fst run = Ok (reply sid rejection_message [])
  /\ last_poi_suggestions after = []
  /\ last_ui_options after = last_ui_options (session_of w sid)
  /\ pending_question after = None.
Proof.
  intros Hrej sid run after. subst after run.
  set (header := Build_Update (Some (msg_user_id msg)) (Some (msg_ride_id msg))
                   (Some (msg_city msg)) (Some (msg_taxi_x msg)) (Some (msg_taxi_y msg))
                   None None None None None None None).
  assert (Hrun : handle_user_message msg w
                 = (Ok (reply sid rejection_message []),
                    with_session sid
                      (set_pending_question None
                         (apply_update clear_suggestions
                            (apply_update header (session_of w sid)))) w)).
  { unfold handle_user_message. fold sid header. unfold bind at 1.
    rewrite update_session_run, Hrej.
    unfold bind at 1. rewrite update_session_run.
    unfold bind at 1, clear_pending_question. rewrite mutate_run.
    rewrite !session_of_with_session, !with_session_twice. reflexivity. }
  rewrite Hrun; cbn [fst snd]. rewrite session_of_with_session.
  repeat split; reflexivity.
Qed.

End Selection.

(** "no grazie" during a ride with three options and two suggestions on
    offer: the suggestions are emptied, the three options stay. *)
Lemma rejection_keeps_ui_options_witness :
  let msg := {| msg_session_id := Scenario.sid; msg_user_id := u "u1";
                msg_ride_id := u "r1"; msg_city := u "Palermo";
                msg_taxi_x := 0%float; msg_taxi_y := 0%float;
                msg_text := u "no grazie" |} in
  let after :=
    session_of (snd (handle_user_message (C := Scenario.offline) (O := Scenario.source_order)
                       msg (Scenario.world_with Scenario.riding true))) Scenario.sid in
  last_poi_suggestions after = [] /\ last_ui_options after = Scenario.three_options.
Proof.
  intros msg after.
  assert (Hrej : is_simple_rejection (analyze_text (strip (msg_text msg))) = true)
    by (vm_compute; reflexivity).
  pose proof (rejection_keeps_ui_options (C := Scenario.offline) (O := Scenario.source_order)
                msg (Scenario.world_with Scenario.riding true) Hrej)
    as (_ & Hpoi & Hui & _).
  split; [exact Hpoi | exact Hui].
Defined.

(** The POI-selection stage has the same shape: with one option on offer
    and two suggestions pending, "2" selects the second suggestion; the
    suggestions are emptied and the option stays. *)
Lemma stale_selection_keeps_ui_options :
  let known := Scenario.scripted (fun _ => None) (fun _ => None)
                 (fun _ => Some {| poi_name := u "Bar Centrale"; poi_id_unity := Some (u "7") |})
                 (fun _ => Some []) in
  let offer := [button "ask_music" "🎵 Metti musica"] in
  let msg := {| msg_session_id := Scenario.sid; msg_user_id := u "u1";
                msg_ride_id := u "r1"; msg_city := u "Palermo";
                msg_taxi_x := 0%float; msg_taxi_y := 0%float; msg_text := u "2" |} in
  let run := handle_user_message (C := known) (O := Scenario.source_order) msg
               (Scenario.world_with (set_last_ui_options offer Scenario.riding) true) in
  (r_commands <$> answer (fst run))
  = Some [REROUTE_TO {| rp_poi_id := Some (u "POI_2"); rp_name := Some (u "Bar Centrale");
                        rp_id_unity := Some (u "7") |}]
  /\ last_poi_suggestions (session_of (snd run) Scenario.sid) = []
  /\ last_ui_options (session_of (snd run) Scenario.sid) = offer.
Proof. cbv zeta. split; [| split]; vm_compute; reflexivity. Qed.

End SelectionFacts.

(* ===================================================================== *)
(** * The session store: history, rides and deletion                      *)
(* ===================================================================== *)

Module LifecycleFacts.
Import Py Spec Props Core SessionStore Lifecycle StoreFacts.

Lemma mutate_other sid f w sid' :
  sid <> sid' -> session_of (snd (mutate sid f w)) sid' = session_of w sid'.
Proof. intros Hne. rewrite mutate_run. apply session_of_with_session_ne, Hne. Qed.

Lemma mutate_same sid f w :
  session_of (snd (mutate sid f w)) sid = f (session_of w sid).
Proof. rewrite mutate_run. apply session_of_with_session. Qed.

Lemma last_n_length {A} (n : Z) (h : list A) :
  (0 < n)%Z -> length (last_n n h) = Nat.min (length h) (Z.to_nat n).
Proof.
  intros Hn. unfold last_n. destruct (Z.ltb_spec 0 n) as [_ | ?]; [| lia].
  rewrite length_drop. lia.
Qed.

Lemma last_n_suffix {A} (n : Z) (h : list A) : exists dropped, h = dropped ++ last_n n h.
Proof.
  unfold last_n. destruct (0 <? n)%Z; eexists; symmetry; apply take_drop.
Qed.

Lemma last_n_last {A} (n : Z) (h : list A) (x : A) :
  (0 < n)%Z -> last (last_n n (h ++ [x])) = Some x.
Proof.
  intros Hn. unfold last_n. destruct (Z.ltb_spec 0 n) as [_ | ?]; [| lia].
  rewrite length_app; cbn [length].
  replace (length h + 1 - Z.to_nat n)%nat with (length h - (Z.to_nat n - 1))%nat by lia.
  rewrite drop_app_le by lia. apply last_snoc.
Qed.

Section Store.
Variable max_history_turns : Z.
Variable isoformat_now : nat -> str.

(** X4 ([add_to_history]): the turn is appended and, with a positive
    [max_history_turns], the history is cut to its last [max_history_turns]
    turns: afterwards it is never longer than the limit, it ends with the
    new turn and it is the end of the old history followed by the new turn.
    With the limit 0 nothing is ever cut. *)
Theorem history_bounded (sid role content : str) (w : World) :
  let before := history (session_of w sid) in
  let after := history (session_of (snd (add_to_history max_history_turns sid role content w))
                          sid) in
  ((0 < max_history_turns)%Z ->
     length after = Nat.min (length before + 1) (Z.to_nat max_history_turns)
     /\ last after = Some (role, content)
     /\ exists dropped, before ++ [(role, content)] = dropped ++ after)
  /\ (max_history_turns = 0%Z -> after = before ++ [(role, content)]).
Proof.
  intros before after. subst after. unfold add_to_history. rewrite mutate_same.
  fold before. cbv zeta.
  destruct (Z.ltb_spec max_history_turns (Z.of_nat (length (before ++ [(role, content)]))))
    as [Hcut | Hfit]; cbn [history set_history].
  - split.
    + intros Hpos. split; [| split].
      * rewrite last_n_length by exact Hpos. rewrite length_app in *; cbn [length] in *. lia.
      * apply last_n_last, Hpos.
      * apply last_n_suffix.
    + intros ->. unfold last_n. cbn. reflexivity.
  - split.
    + intros Hpos. rewrite length_app in *; cbn [length] in *.
      split; [lia |]. split; [apply last_snoc |]. exists []. reflexivity.
    + intros _. reflexivity.
Qed.

Lemma assign_cons (f : SessionState -> SessionState) fs s :
  assign (f :: fs) s = assign fs (f s).
Proof. reflexivity. Qed.

(** X5 ([end_ride], [clear_session]): however the session was, ending
    the ride leaves it idle - no ride, no destination, the music off, the
    normal mode.  [end_ride] keeps the conversation (history, pending
    question, suggestions, options); [clear_session] empties it.  Both keep
    the user, the volume and the driving policy, leave the other sessions
    alone, and change nothing when repeated. *)
Theorem ending_a_ride_leaves_idle (sid : str) (w : World) :
  let before := session_of w sid in
  let ended := session_of (snd (end_ride sid w)) sid in
  let cleared := session_of (snd (clear_session sid w)) sid in
  (idle ended /\ same_identity before ended /\ same_conversation before ended)
  /\ (idle cleared /\ same_identity before cleared
      /\ history cleared = [] /\ pending_question cleared = None
      /\ last_poi_suggestions cleared = [] /\ last_ui_options cleared = [])
  /\ (touches_only sid (end_ride sid) /\ touches_only sid (clear_session sid))
  /\ (session_of (snd (end_ride sid (snd (end_ride sid w)))) sid = ended
      /\ session_of (snd (clear_session sid (snd (clear_session sid w)))) sid = cleared).
Proof.
  intros before ended cleared. subst ended cleared. unfold end_ride, clear_session.
  rewrite !mutate_same. fold before.
  split; [| split; [| split]].
  - destruct before. cbv. repeat split.
  - destruct before. cbv. repeat split.
  - split; intros w' sid' Hne; apply mutate_other; congruence.
  - destruct before. cbv. split; reflexivity.
Qed.

(** X6 ([start_ride], [update_destination], [end_ride]): [start_ride]
    makes the ride active towards the given destination, in the normal mode,
    and keeps the player and the conversation; [update_destination] replaces
    the destination during a ride and does nothing otherwise; and on an idle
    session [start_ride] followed by [end_ride] restores the session as it
    was. *)
Theorem ride_round_trip (sid name dest_id : str) (passenger : option str) (w : World) :
  idle (session_of w sid) ->
  let before := session_of w sid in
  let started_w := snd (start_ride isoformat_now sid name dest_id passenger w) in
  let started := session_of started_w sid in
  (Core.is_ride_active started = true
   /\ current_destination_name started = Some name
   /\ current_destination_id started = Some dest_id
   /\ current_passenger_id started = passenger
   /\ mode started = NORMAL
   /\ same_music before started /\ same_conversation before started)
  /\ session_of (snd (end_ride sid started_w)) sid = before
  /\ (forall name' dest_id',
        session_of (snd (update_destination sid name' dest_id' w)) sid = before
        /\ let moved := session_of (snd (update_destination sid name' dest_id' started_w)) sid in
           current_destination_name moved = Some name'
           /\ current_destination_id moved = Some dest_id'
           /\ Core.is_ride_active moved = true
           /\ ride_started_at moved = ride_started_at started).
Proof.
  intros Hidle before started_w started. subst started started_w before.
  unfold start_ride, end_ride, update_destination, bind, get_world. cbn [snd].
  assert (Hall : forall s, idle s ->
            let started := assign [ set_is_ride_active true;
                                    set_current_destination_name (Some name);
                                    set_current_destination_id (Some dest_id);
                                    set_current_passenger_id passenger;
                                    set_ride_started_at (Some (isoformat_now (now w)));
                                    set_mode NORMAL ] s in
            (Core.is_ride_active started = true
             /\ current_destination_name started = Some name
             /\ current_destination_id started = Some dest_id
             /\ current_passenger_id started = passenger
             /\ mode started = NORMAL
             /\ same_music s started /\ same_conversation s started)
            /\ assign [ set_is_ride_active false; set_current_destination_name None;
                        set_current_destination_id None; set_current_passenger_id None;
                        set_ride_started_at None; set_music_playing false;
                        set_music_genre None; set_music_paused false; set_mode NORMAL ]
                 started = s
            /\ forall name' dest_id',
                 (if Core.is_ride_active s
                  then assign [ set_current_destination_name (Some name');
                                set_current_destination_id (Some dest_id') ] s
                  else s) = s
                 /\ let moved :=
                      if Core.is_ride_active started
                      then assign [ set_current_destination_name (Some name');
                                    set_current_destination_id (Some dest_id') ] started
                      else started in
                    current_destination_name moved = Some name'
                    /\ current_destination_id moved = Some dest_id'
                    /\ Core.is_ride_active moved = true
                    /\ ride_started_at moved = ride_started_at started).
  { intros s Hs. destruct s. unfold idle in Hs. cbn in Hs.
    destruct Hs as (-> & -> & -> & -> & -> & -> & -> & -> & ->).
    cbv. repeat split. }
  destruct (Hall _ Hidle) as (Hstarted & Hback & Hmove).
  rewrite !mutate_same. split; [exact Hstarted |]. split; [exact Hback |].
  intros name' dest_id'. rewrite !mutate_same. apply Hmove.
Qed.

(** X7 (the session store): a session is created, with the field
    defaults, the first time it is asked for, and is stored from then on;
    after [delete_session] it reads as new again, and deleting a session
    that does not exist changes nothing.  Every operation of the store
    touches the one session it is called with. *)
Theorem sessions_fresh_and_isolated (sid : str) (w : World) :
  (sessions w !! sid = None ->
     fst (get_session sid w) = Ok (new_session sid)
     /\ sessions (snd (get_session sid w)) !! sid = Some (new_session sid))
  /\ (fst (get_session sid (snd (delete_session sid w))) = Ok (new_session sid)
      /\ (sessions w !! sid = None -> delete_session sid w = (Ok tt, w)))
  /\ (touches_only sid (get_session sid)
      /\ touches_only sid (delete_session sid)
      /\ (forall up, touches_only sid (update_session sid up))
      /\ (forall role content, touches_only sid (add_to_history max_history_turns sid role content))
      /\ (forall name dest_id passenger,
            touches_only sid (start_ride isoformat_now sid name dest_id passenger))
      /\ (forall name dest_id, touches_only sid (update_destination sid name dest_id))
      /\ (forall genre, touches_only sid (start_music sid genre))
      /\ touches_only sid (stop_music sid) /\ touches_only sid (pause_music sid)
      /\ touches_only sid (resume_music sid)
      /\ (forall volume, touches_only sid (set_volume sid volume))
      /\ (forall delta, touches_only sid (adjust_volume sid delta))).
Proof.
  assert (Hget : touches_only sid (get_session sid)).
  { intros w' sid' Hne. destruct (get_session_run sid w') as (w1 & -> & Hs & _); cbn [snd].
    unfold session_of. rewrite Hs, lookup_insert_ne by congruence. reflexivity. }
  assert (Hmut : forall f, touches_only sid (mutate sid f)).
  { intros f w' sid' Hne. apply mutate_other. congruence. }
  split; [| split].
  - intros Hnone. unfold get_session, bind, get_world; cbn. rewrite Hnone; cbn.
    split; [reflexivity | apply lookup_insert_eq].
  - split.
    + unfold delete_session, set_sessions, modify_world, get_session, bind, get_world; cbn.
      rewrite lookup_delete_eq. reflexivity.
    + intros Hnone. unfold delete_session, set_sessions, modify_world. f_equal.
      rewrite delete_id by exact Hnone. apply world_eta.
  - split; [exact Hget |]. split.
    { intros w' sid' Hne. unfold delete_session, set_sessions, modify_world, session_of; cbn.
      rewrite lookup_delete_ne by congruence. reflexivity. }
    split.
    { intros up w' sid' Hne. rewrite SelectionFacts.update_session_run; cbn [snd].
      apply session_of_with_session_ne. congruence. }
    split; [intros; apply Hmut |].
    split.
    { intros name dest_id passenger w' sid' Hne. unfold start_ride, bind, get_world.
      apply mutate_other. congruence. }
    split; [intros; apply Hmut |]. split; [intros; apply Hmut |].
    split; [apply Hmut |]. split; [apply Hmut |]. split; [apply Hmut |].
    split.
    + intros volume w' sid' Hne. rewrite set_volume_run; cbn [snd].
      apply session_of_with_session_ne. congruence.
    + intros delta w' sid' Hne. rewrite adjust_volume_run; cbn [snd].
      apply session_of_with_session_ne. congruence.
Qed.

End Store.

Lemma ride_round_trip_witness :
  let w := Scenario.empty_world true in
  session_of
    (snd (end_ride Scenario.sid
            (snd (start_ride (fun _ => u "2025-01-01T10:00:00") Scenario.sid
                    (u "Stazione") (u "POI_9") (Some (u "u1")) w))))
    Scenario.sid
  = session_of w Scenario.sid.
Proof.
  intros w.
  refine (proj1 (proj2 (ride_round_trip (fun _ => u "2025-01-01T10:00:00") Scenario.sid
                          (u "Stazione") (u "POI_9") (Some (u "u1")) w _))).
  repeat split.
Defined.

Lemma history_bounded_witness :
  let w := Scenario.world_with Scenario.riding true in
  let after := history (session_of (snd (add_to_history 1 Scenario.sid (u "user") (u "ciao")
                                            (snd (add_to_history 1 Scenario.sid (u "user")
                                                    (u "ho fame") w)))) Scenario.sid) in
  length after = 1%nat.
Proof.
  intros w after.
  pose proof (history_bounded 1 Scenario.sid (u "user") (u "ciao")
                (snd (add_to_history 1 Scenario.sid (u "user") (u "ho fame") w)))
    as [Hcut _].
  destruct (Hcut ltac:(lia)) as (Hlen & _). exact Hlen.
Defined.

End LifecycleFacts.

(* ===================================================================== *)
(** * The music catalogue and the playback tools                          *)
(* ===================================================================== *)

Module MusicFacts.
Import Py Spec Props Core SessionStore Lifecycle Music Tools StoreFacts.

Lemma find_ext {A} (P Q : A -> bool) (l : list A) :
  (forall a, P a = Q a) -> find P l = find Q l.
Proof. intros Heq. induction l as [| a l IH]; cbn; [reflexivity |]. rewrite Heq, IH. reflexivity. Qed.

Lemma find_Some_elem {A} (P : A -> bool) (l : list A) (x : A) :
  find P l = Some x -> x ∈ l /\ P x = true.
Proof.
  intros Hf. apply find_some in Hf as [Hin HP]. split; [apply list_elem_of_In, Hin | exact HP].
Qed.

Lemma find_None_iff {A} (P : A -> bool) (l : list A) :
  find P l = None <-> forall x, x ∈ l -> P x = false.
Proof.
  split.
  - intros Hf x Hin. apply (find_none P l Hf), list_elem_of_In, Hin.
  - intros Hall. induction l as [| a l IH]; cbn; [reflexivity |].
    rewrite (Hall a) by left. apply IH. intros x Hin. apply Hall. right. exact Hin.
Qed.

Section Catalogue.
Variable available_genres : list str.

Lemma normalize_genre_Some genre normalized :
  normalize_genre available_genres genre = Some normalized ->
  normalized ∈ available_genres /\ lower normalized = lower genre.
Proof.
  intros Hf. apply find_Some_elem in Hf as [Hin Heq]. split; [exact Hin |].
  apply bool_decide_eq_true_1 in Heq. exact Heq.
Qed.

(** X8 ([normalize_genre], [is_valid_genre], [get_music_url]): the
    normalized genre is a genre of the catalogue that equals the request up
    to case, and normalizing it again gives it back; genres that are equal up
    to case normalize alike; a genre is valid exactly when it normalizes; and
    the URL of a genre is "/music/" followed by its normalized name. *)
Theorem normalize_genre_canonical (genre : str) :
  (forall normalized,
     normalize_genre available_genres genre = Some normalized ->
     normalized ∈ available_genres /\ lower normalized = lower genre
     /\ normalize_genre available_genres normalized = Some normalized)
  /\ (forall other, lower other = lower genre ->
        normalize_genre available_genres other = normalize_genre available_genres genre)
  /\ (normalize_genre available_genres genre = None <->
        lower genre ∉ map lower available_genres)
  /\ (is_valid_genre available_genres genre = true <->
        is_Some (normalize_genre available_genres genre))
  /\ (forall url, get_music_url available_genres genre = Some url ->
        exists normalized, normalize_genre available_genres genre = Some normalized
                           /\ url = u "/music/" ++ normalized).
Proof.
  assert (Hsame : forall other, lower other = lower genre ->
            normalize_genre available_genres other = normalize_genre available_genres genre).
  { intros other Heq. unfold normalize_genre. apply find_ext. intros a. rewrite Heq. reflexivity. }
  assert (Hnone : normalize_genre available_genres genre = None <->
                  lower genre ∉ map lower available_genres).
  { unfold normalize_genre. rewrite find_None_iff. split.
    - intros Hall Hin. apply list_elem_of_fmap in Hin as (a & Heq & Hin).
      specialize (Hall a Hin). apply bool_decide_eq_false_1 in Hall. congruence.
    - intros Hnot a Hin. apply bool_decide_eq_false_2. intros Heq. apply Hnot.
      apply list_elem_of_fmap. exists a. split; [congruence | exact Hin]. }
  split; [| split; [exact Hsame | split; [exact Hnone | split]]].
  - intros normalized Hf. destruct (normalize_genre_Some _ _ Hf) as [Hin Heq].
    split; [exact Hin |]. split; [exact Heq |]. rewrite (Hsame normalized Heq). exact Hf.
  - unfold is_valid_genre. rewrite bool_decide_eq_true.
    destruct (normalize_genre available_genres genre) as [n |] eqn:Hf.
    + split; [intros _; eexists; reflexivity |]. intros _.
      destruct (decide (lower genre ∈ map lower available_genres)) as [Hin | Hnot];
        [exact Hin |]. apply Hnone in Hnot. congruence.
    + split; [| intros [? Hx]; discriminate Hx]. intros Hin. exfalso.
      apply (proj1 Hnone); [reflexivity | exact Hin].
  - intros url. unfold get_music_url.
    destruct (normalize_genre available_genres genre) as [n |]; [| discriminate].
    destruct (truthy (Some n)); [| discriminate]. intros [= <-]. exists n. split; reflexivity.
Qed.

End Catalogue.

Lemma same_music_refl s : same_music s s.
Proof. repeat split. Qed.

Lemma pending_keeps_music question s : same_music s (apply_update (pending question) s).
Proof. destruct s. repeat split. Qed.

Lemma started_fields genre s :
  let s' := assign [ set_music_playing true; set_music_genre (Some genre);
                     set_music_paused false ] s in
  music_playing s' = true /\ music_genre s' = Some genre /\ music_paused s' = false
  /\ music_volume s' = music_volume s.
Proof. destruct s. cbv. repeat split. Qed.

Lemma stopped_fields s :
  let s' := assign [ set_music_playing false; set_music_genre None;
                     set_music_paused false ] s in
  music_playing s' = false /\ music_genre s' = None /\ music_paused s' = false
  /\ music_volume s' = music_volume s.
Proof. destruct s. cbv. repeat split. Qed.

Lemma paused_fields b s :
  let s' := set_music_paused b s in
  music_paused s' = b /\ music_playing s' = music_playing s
  /\ music_genre s' = music_genre s /\ music_volume s' = music_volume s.
Proof. destruct s. repeat split. Qed.

Section Playback.
Variable available_genres : list str.
Variable music_preference : str -> option str.

Lemma play_outcome ctx genre normalized message w :
  normalize_genre available_genres genre = Some normalized ->
  exists result w',
    play (ctx_session_id ctx) normalized message w = (Ok result, w')
    /\ outcome available_genres ctx result (session_of w (ctx_session_id ctx))
         (session_of w' (ctx_session_id ctx)).
Proof.
  intros Hn. unfold play, start_music, bind. rewrite mutate_run.
  eexists _, _. split; [reflexivity |]. right; left. exists normalized.
  split; [apply (normalize_genre_Some _ _ _ Hn) |]. split; [reflexivity |].
  apply session_of_with_session.
Qed.

Lemma quiet_outcome ctx result w :
  tr_commands result = [] ->
  exists result' w',
    ret result w = (Ok result', w')
    /\ outcome available_genres ctx result' (session_of w (ctx_session_id ctx))
         (session_of w' (ctx_session_id ctx)).
Proof.
  intros Hc. exists result, w. split; [reflexivity |]. left. split; [exact Hc |].
  apply same_music_refl.
Qed.

Lemma ask_outcome ctx with_refusal w :
  exists result w',
    (update_session (ctx_session_id ctx) (pending "music_genre") ;;;
     ret (ask_genre with_refusal)) w = (Ok result, w')
    /\ outcome available_genres ctx result (session_of w (ctx_session_id ctx))
         (session_of w' (ctx_session_id ctx)).
Proof.
  unfold bind. rewrite SelectionFacts.update_session_run.
  eexists _, _. split; [reflexivity |]. left. split; [reflexivity |].
  rewrite session_of_with_session. apply pending_keeps_music.
Qed.

Lemma playback_outcome tool ctx w :
  tool ∈ playback_tools available_genres music_preference ->
  exists result w',
    tool ctx w = (Ok result, w')
    /\ outcome available_genres ctx result (session_of w (ctx_session_id ctx))
         (session_of w' (ctx_session_id ctx)).
Proof.
  unfold playback_tools. rewrite !elem_of_cons.
  intros [-> | [-> | [-> | [-> | [-> | Hin]]]]]; [| | | | | inversion Hin].
  - unfold MusicPlayTool_execute.
    destruct (ctx_music_playing ctx).
    + destruct (p_genre (ctx_params ctx)) as [g |]; [| apply quiet_outcome; reflexivity].
      destruct (truthy (Some g) && _); [| apply quiet_outcome; reflexivity].
      destruct (normalize_genre available_genres g) as [n |] eqn:Hn;
        [| apply quiet_outcome; reflexivity].
      destruct (truthy (Some n)); [| apply quiet_outcome; reflexivity].
      eapply play_outcome, Hn.
    + destruct (if truthy (p_genre (ctx_params ctx)) then _ else _) as [g |];
        [| apply ask_outcome].
      destruct (truthy (Some g)); [| apply ask_outcome].
      destruct (normalize_genre available_genres g) as [n |] eqn:Hn;
        [| apply quiet_outcome; reflexivity].
      destruct (truthy (Some n)); [| apply quiet_outcome; reflexivity].
      eapply play_outcome, Hn.
  - unfold MusicStopTool_execute. destruct (ctx_music_playing ctx) eqn:Hplay; cbn [negb].
    + unfold stop_music, bind. rewrite mutate_run. eexists _, _. split; [reflexivity |].
      right; right; left. split; [exact Hplay |]. split; [reflexivity |].
      apply session_of_with_session.
    + apply quiet_outcome. reflexivity.
  - unfold MusicPauseTool_execute. destruct (ctx_music_playing ctx) eqn:Hplay; cbn [negb].
    + unfold pause_music, bind. rewrite mutate_run. eexists _, _. split; [reflexivity |].
      right; right; right; left. split; [exact Hplay |]. split; [reflexivity |].
      apply session_of_with_session.
    + apply quiet_outcome. reflexivity.
  - unfold MusicResumeTool_execute. destruct (ctx_music_playing ctx) eqn:Hplay; cbn [negb].
    + unfold resume_music, bind. rewrite mutate_run. eexists _, _. split; [reflexivity |].
      right; right; right; right. split; [exact Hplay |]. split; [reflexivity |].
      apply session_of_with_session.
    + apply quiet_outcome. reflexivity.
  - unfold ChangeGenreTool_execute.
    destruct (p_genre (ctx_params ctx)) as [g |]; [| apply ask_outcome].
    destruct (truthy (Some g)); [| apply ask_outcome].
    destruct (normalize_genre available_genres g) as [n |] eqn:Hn; [| apply ask_outcome].
    destruct (truthy (Some n)); [| apply ask_outcome].
    eapply play_outcome, Hn.
Qed.

(** X9 (the tools that play, stop, pause, resume and change genre):
    a run never raises, and its commands tell what happened to the player of
    the session: with no command the player is as before; [PLAY_MUSIC] names
    a genre of the catalogue and its URL, and that genre is now playing;
    [STOP_MUSIC], [PAUSE_MUSIC] and [RESUME_MUSIC] are issued only when the
    context says that music is on, and the player is then stopped, paused or
    resumed.  The volume is never changed. *)
Theorem playback_commands_agree (tool : ToolContext -> M ToolResult) (ctx : ToolContext)
    (w : World) :
  tool ∈ playback_tools available_genres music_preference ->
  let before := session_of w (ctx_session_id ctx) in
  let after := session_of (snd (tool ctx w)) (ctx_session_id ctx) in
  exists result,
    fst (tool ctx w) = Ok result
    /\ commands_agree available_genres ctx (tr_commands result) before after
    /\ music_volume after = music_volume before.
Proof.
  intros Hin before after. subst before after.
  destruct (playback_outcome tool ctx w Hin) as (result & w' & Hrun & Hout).
  rewrite Hrun; cbn [fst snd]. exists result. split; [reflexivity |].
  destruct Hout as [[Hc Hsame] | [(g & Hg & Hc & Hs) | [(Hp & Hc & Hs) | [(Hp & Hc & Hs)
                   | (Hp & Hc & Hs)]]]]; rewrite Hc; cbn [commands_agree].
  - split; [exact Hsame | apply Hsame].
  - rewrite Hs. destruct (started_fields g (session_of w (ctx_session_id ctx)))
      as (H1 & H2 & H3 & H4). repeat split; assumption.
  - rewrite Hs. destruct (stopped_fields (session_of w (ctx_session_id ctx)))
      as (H1 & H2 & H3 & H4). repeat split; assumption.
  - rewrite Hs. destruct (paused_fields true (session_of w (ctx_session_id ctx)))
      as (H1 & H2 & H3 & H4). repeat split; assumption.
  - rewrite Hs. destruct (paused_fields false (session_of w (ctx_session_id ctx)))
      as (H1 & H2 & H3 & H4). repeat split; assumption.
Qed.

(** X10 (the same tools, run on a context that mirrors the session as
    [_execute_tool] builds it): a player that was never paused without
    playing is not left paused without playing. *)
Theorem playback_keeps_paused_playing (tool : ToolContext -> M ToolResult)
    (ctx : ToolContext) (w : World) :
  tool ∈ playback_tools available_genres music_preference ->
  ctx_music_playing ctx = music_playing (session_of w (ctx_session_id ctx)) ->
  paused_is_playing (session_of w (ctx_session_id ctx)) ->
  paused_is_playing (session_of (snd (tool ctx w)) (ctx_session_id ctx)).
Proof.
  intros Hin Hmirror Hinv.
  destruct (playback_outcome tool ctx w Hin) as (result & w' & Hrun & Hout).
  rewrite Hrun; cbn [snd]. unfold paused_is_playing in *.
  destruct Hout as [[Hc Hsame] | [(g & Hg & Hc & Hs) | [(Hp & Hc & Hs) | [(Hp & Hc & Hs)
                   | (Hp & Hc & Hs)]]]].
  - destruct Hsame as (-> & _ & -> & _). exact Hinv.
  - rewrite Hs. destruct (started_fields g (session_of w (ctx_session_id ctx)))
      as (-> & _). reflexivity.
  - rewrite Hs. destruct (stopped_fields (session_of w (ctx_session_id ctx)))
      as (_ & _ & -> & _). discriminate.
  - rewrite Hs. destruct (paused_fields true (session_of w (ctx_session_id ctx)))
      as (_ & -> & _). intros _. congruence.
  - rewrite Hs. destruct (paused_fields false (session_of w (ctx_session_id ctx)))
      as (-> & _). discriminate.
Qed.

End Playback.

Lemma playback_commands_agree_witness :
  exists result,
    fst (MusicPlayTool_execute [u "Jazz"; u "Rock"] (fun _ => None)
           (Scenario.ctx_for (Main.with_genre (u "rock") no_params) "metti rock")
           (Scenario.world_with Scenario.riding true)) = Ok result
    /\ tr_commands result = [PLAY_MUSIC (u "Rock") (u "/music/Rock")].
Proof.
  destruct (playback_commands_agree [u "Jazz"; u "Rock"] (fun _ => None)
              (MusicPlayTool_execute [u "Jazz"; u "Rock"] (fun _ => None))
              (Scenario.ctx_for (Main.with_genre (u "rock") no_params) "metti rock")
              (Scenario.world_with Scenario.riding true))
    as (result & Hrun & _).
  - left.
  - exists result. split; [exact Hrun |].
    vm_compute in Hrun. injection Hrun as <-. reflexivity.
Defined.

Lemma playback_keeps_paused_playing_witness :
  paused_is_playing
    (session_of
       (snd (MusicPauseTool_execute
               (Scenario.ctx_for no_params "metti in pausa la musica")
               (Scenario.world_with (set_music_playing true Scenario.riding) true)))
       Scenario.sid).
Proof.
  refine (playback_keeps_paused_playing [] (fun _ => None)
            MusicPauseTool_execute
            (Scenario.ctx_for no_params "metti in pausa la musica")
            (Scenario.world_with (set_music_playing true Scenario.riding) true) _ _ _).
  - right. right. left.
  - reflexivity.
  - intros _. reflexivity.
Defined.

End MusicFacts.

(* ===================================================================== *)
(** * Keyword and number extraction                                       *)
(* ===================================================================== *)

Module ExtractFacts.
Import Py Re Spec Props Core SessionStore IntentClassifier Music Extract StringFacts.

(** ** Runs of digits *)

Lemma digits_run_spec s :
  Forall (fun c => isdigit c = true) (fst (digits_run s))
  /\ s = fst (digits_run s) ++ snd (digits_run s).
Proof.
  induction s as [| c r [IHd IHs]]; cbn; [split; [constructor | reflexivity] |].
  destruct (isdigit c) eqn:Hc; [| split; [constructor | reflexivity]].
  destruct (digits_run r) as [d t]; cbn in *. split; [constructor; assumption |].
  f_equal. exact IHs.
Qed.

Lemma digits_run_length s : (length (fst (digits_run s)) <= length s)%nat.
Proof.
  destruct (digits_run_spec s) as [_ Hs]. rewrite Hs at 2. rewrite length_app. lia.
Qed.

Lemma lstrip_length s : (length (lstrip s) <= length s)%nat.
Proof.
  induction s as [| c r IH]; cbn; [lia |]. destruct (isspace c); cbn; lia.
Qed.

Lemma consume_length w prev rest p r :
  consume w prev rest = Some (p, r) -> (length r <= length rest)%nat.
Proof.
  revert prev rest. induction w as [| a w IH]; intros prev rest; cbn.
  - intros [= _ <-]. lia.
  - destruct rest as [| c rest']; [discriminate |]. destruct (a =? c); [| discriminate].
    intros H. apply IH in H. cbn. lia.
Qed.

Lemma search_from_within (m : option char -> str -> option str) prev s d :
  (forall p r d, m p r = Some d -> digits_within r d) ->
  search_from m prev s = Some d -> digits_within s d.
Proof.
  intros Hm. revert prev. induction s as [| c r IH]; intros prev; cbn.
  - destruct (m prev []) eqn:E; [intros [= <-]; eapply Hm, E | discriminate].
  - destruct (m prev (c :: r)) eqn:E; [intros [= <-]; eapply Hm, E |].
    intros H. apply IH in H. destruct H as [Hd Hl]. split; [exact Hd | cbn; lia].
Qed.

Lemma number_here_within p r d : number_here p r = Some d -> digits_within r d.
Proof.
  unfold number_here. destruct (digits_run r) as [d' t] eqn:E.
  destruct d' as [| c d']; [discriminate |]. destruct (boundary _ _); [| discriminate].
  intros [= <-]. pose proof (digits_run_spec r) as [Hd _].
  pose proof (digits_run_length r) as Hl. rewrite E in Hd, Hl. split; assumption.
Qed.

Lemma spaced_number_here_within p r d :
  spaced_number_here p r = Some d -> digits_within r d.
Proof.
  unfold spaced_number_here. intros H. apply number_here_within in H as [Hd Hl].
  split; [exact Hd |]. pose proof (lstrip_length r). lia.
Qed.

Lemma bare_number_here_within p r d : bare_number_here p r = Some d -> digits_within r d.
Proof.
  unfold bare_number_here. destruct (boundary p r); [apply number_here_within | discriminate].
Qed.

Lemma spaced_digits_within r d : spaced_digits r = Some d -> digits_within r d.
Proof.
  unfold spaced_digits. pose proof (digits_run_spec (lstrip r)) as [Hd _].
  pose proof (digits_run_length (lstrip r)) as Hl. pose proof (lstrip_length r).
  destruct (fst (digits_run (lstrip r))) as [| c d']; [discriminate |].
  intros [= <-]. split; [exact Hd | lia].
Qed.

Lemma digits_within_le r r' d :
  (length r <= length r')%nat -> digits_within r d -> digits_within r' d.
Proof. intros Hle [Hd Hl]. split; [exact Hd | lia]. Qed.

Lemma volume_level_here_within p r d : volume_level_here p r = Some d -> digits_within r d.
Proof.
  unfold volume_level_here. destruct (consume (u "volume") p r) as [[p1 r1] |] eqn:E;
    [| discriminate].
  apply consume_length in E. pose proof (lstrip_length r1) as Hs.
  assert (Hafter : forall w d, match consume w None (lstrip r1) with
                               | Some (_, t) => spaced_digits t
                               | None => None
                               end = Some d -> digits_within r d).
  { intros w d'. destruct (consume w None (lstrip r1)) as [[p2 t] |] eqn:E2; [| discriminate].
    apply consume_length in E2. intros H. apply spaced_digits_within in H.
    eapply digits_within_le; [| exact H]. lia. }
  destruct (match consume (u "a") None (lstrip r1) with
            | Some (_, t) => spaced_digits t | None => None end) eqn:Ea.
  { intros [= <-]. eapply Hafter, Ea. }
  destruct (match consume (u "al") None (lstrip r1) with
            | Some (_, t) => spaced_digits t | None => None end) eqn:Eal.
  { intros [= <-]. eapply Hafter, Eal. }
  intros H. apply spaced_digits_within in H. eapply digits_within_le; [| exact H]. lia.
Qed.

Lemma a_level_here_within p r d : a_level_here p r = Some d -> digits_within r d.
Proof.
  unfold a_level_here. destruct (boundary p r); [| discriminate].
  assert (Halt : forall w d, match consume w p r with
                             | Some (p', r') => spaced_number_here p' r'
                             | None => None
                             end = Some d -> digits_within r d).
  { intros w d'. destruct (consume w p r) as [[p2 t] |] eqn:E2; [| discriminate].
    apply consume_length in E2. intros H. apply spaced_number_here_within in H.
    eapply digits_within_le; [| exact H]. lia. }
  destruct (match consume (u "a") p r with
            | Some (p', r') => spaced_number_here p' r' | None => None end) eqn:Ea.
  { intros [= <-]. eapply Halt, Ea. }
  apply Halt.
Qed.

(** The value of [n] digits is below [10 ^ n]. *)
Lemma int_of_digits_bound d :
  Forall (fun c => isdigit c = true) d ->
  (0 <= int_of_digits d < 10 ^ Z.of_nat (length d))%Z.
Proof.
  unfold int_of_digits.
  assert (Hgen : forall acc, (0 <= acc)%Z ->
            Forall (fun c => isdigit c = true) d ->
            (0 <= fold_left (fun acc c => acc * 10 + Z.of_N (c - 48)) d acc
             < (acc + 1) * 10 ^ Z.of_nat (length d))%Z).
  { induction d as [| c d IH]; intros acc Hacc Hd; cbn [fold_left length].
    - change (10 ^ Z.of_nat 0)%Z with 1%Z. lia.
    - inversion Hd as [| ? ? Hc Hd']; subst.
      unfold isdigit in Hc. apply in_range_spec in Hc.
      assert (0 <= Z.of_N (c - 48) <= 9)%Z by lia.
      specialize (IH (acc * 10 + Z.of_N (c - 48))%Z ltac:(lia) Hd').
      rewrite Nat2Z.inj_succ, Z.pow_succ_r by lia.
      assert (0 < 10 ^ Z.of_nat (length d))%Z by (apply Z.pow_pos_nonneg; lia).
      nia. }
  intros Hd. specialize (Hgen 0%Z ltac:(lia) Hd). lia.
Qed.

Lemma short_digits_harmless limit d :
  Forall (fun c => isdigit c = true) d -> (length d <= 300)%nat ->
  int_of limit d = Returns (int_of_digits d)
  /\ (int_of_digits d < float_overflow)%Z.
Proof.
  intros Hd Hl. split.
  - unfold int_of. destruct (Nat.ltb_spec 640 (length d)) as [? | _]; [lia | reflexivity].
  - pose proof (int_of_digits_bound d Hd) as [_ Hlt].
    assert (10 ^ Z.of_nat (length d) <= 10 ^ 300)%Z by (apply Z.pow_le_mono_r; lia).
    assert (10 ^ 300 < float_overflow)%Z by (vm_compute; reflexivity).
    lia.
Qed.

Lemma tenth_level_range n v : tenth_level n = Returns v -> (1 <= v <= 10)%Z.
Proof.
  unfold tenth_level. destruct (float_overflow <=? n)%Z; [discriminate |].
  intros [= <-]. unfold clamp_volume. lia.
Qed.

Lemma to_level_range n v : to_level n = Returns v -> (1 <= v <= 10)%Z.
Proof.
  unfold to_level, and_then.
  destruct (if (10 <? n)%Z then tenth_level n else Returns n); [| discriminate].
  intros [= <-]. unfold clamp_volume. lia.
Qed.

Lemma tenth_level_returns n : (n < float_overflow)%Z -> exists v, tenth_level n = Returns v.
Proof.
  intros Hn. unfold tenth_level. destruct (Z.leb_spec float_overflow n); [lia |].
  eexists. reflexivity.
Qed.

Lemma lower_length s : length (lower s) = length s.
Proof. apply length_map. Qed.

Section Numbers.
Variable int_max_str_digits : nat.

(** X11 ([_extract_volume_from_message]): a level that is returned lies
    between 1 and 10; a lone "0" gives no level, while "volume 0" gives 1;
    and on a message of at most 300 characters the function raises nothing
    ([int] and the float division fail only on much longer runs of digits). *)
Theorem extracted_volume_in_range (message : str) :
  (forall level,
     _extract_volume_from_message int_max_str_digits message = Returns (Some level) ->
     (1 <= level <= 10)%Z)
  /\ ((length message <= 300)%nat ->
      exists result, _extract_volume_from_message int_max_str_digits message = Returns result)
  /\ _extract_volume_from_message int_max_str_digits (u "0") = Returns None
  /\ _extract_volume_from_message int_max_str_digits (u "volume 0") = Returns (Some 1%Z).
Proof.
  split; [| split; [| split; reflexivity]].
  - intros level. unfold _extract_volume_from_message.
    destruct (search volume_level_here (lower message)) as [d |].
    { unfold and_then. destruct (int_of _ d) as [vol |]; [| discriminate].
      destruct (to_level vol) as [v |] eqn:E; [| discriminate].
      intros [= <-]. eapply to_level_range, E. }
    destruct (search a_level_here (lower message)) as [d |].
    { unfold and_then. destruct (int_of _ d) as [vol |]; [| discriminate].
      destruct (to_level vol) as [v |] eqn:E; [| discriminate].
      intros [= <-]. eapply to_level_range, E. }
    destruct (search bare_number_here (lower message)) as [d |]; [| discriminate].
    unfold and_then. destruct (int_of _ d) as [vol |]; [| discriminate].
    destruct ((1 <=? vol) && (vol <=? 10))%Z eqn:Hin.
    { intros [= <-]. lia. }
    destruct (10 <? vol)%Z; [| discriminate].
    destruct (tenth_level vol) as [v |] eqn:E; [| discriminate].
    intros [= <-]. eapply tenth_level_range, E.
  - intros Hshort. unfold _extract_volume_from_message.
    assert (Hfit : forall d, digits_within (lower message) d ->
              int_of int_max_str_digits d = Returns (int_of_digits d)
              /\ (int_of_digits d < float_overflow)%Z).
    { intros d [Hd Hl]. rewrite lower_length in Hl. apply short_digits_harmless; [exact Hd | lia]. }
    assert (Hlevel : forall d, digits_within (lower message) d ->
              exists result,
                and_then (int_of int_max_str_digits d) (fun vol =>
                  and_then (to_level vol) (fun vol => Returns (Some vol))) = Returns result).
    { intros d Hd. destruct (Hfit d Hd) as [-> Hlt]. unfold and_then at 1, to_level.
      destruct (10 <? int_of_digits d)%Z.
      - destruct (tenth_level_returns _ Hlt) as [v ->]. eexists. reflexivity.
      - eexists. reflexivity. }
    destruct (search volume_level_here (lower message)) as [d |] eqn:E1.
    { apply Hlevel. eapply search_from_within, E1. apply volume_level_here_within. }
    destruct (search a_level_here (lower message)) as [d |] eqn:E2.
    { apply Hlevel. eapply search_from_within, E2. apply a_level_here_within. }
    destruct (search bare_number_here (lower message)) as [d |] eqn:E3;
      [| eexists; reflexivity].
    assert (Hd : digits_within (lower message) d).
    { eapply search_from_within, E3. apply bare_number_here_within. }
    destruct (Hfit d Hd) as [-> Hlt]. unfold and_then at 1.
    destruct ((1 <=? int_of_digits d) && (int_of_digits d <=? 10))%Z;
      [eexists; reflexivity |].
    destruct (10 <? int_of_digits d)%Z; [| eexists; reflexivity].
    destruct (tenth_level_returns _ Hlt) as [v ->]. eexists. reflexivity.
Qed.

(** X12 ([extract_number]): the number returned lies between 1 and 10
    (a "0" gives 1); nothing is returned exactly when the text has no run of
    digits between word boundaries; and on a text of at most 300 characters
    nothing is raised. *)
Theorem extracted_number_in_range (text : str) :
  (forall level, extract_number int_max_str_digits text = Returns (Some level) ->
                 (1 <= level <= 10)%Z)
  /\ (extract_number int_max_str_digits text = Returns None <->
      search bare_number_here text = None)
  /\ ((length text <= 300)%nat ->
      exists result, extract_number int_max_str_digits text = Returns result)
  /\ extract_number int_max_str_digits (u "0") = Returns (Some 1%Z).
Proof.
  split; [| split; [| split; [| reflexivity]]].
  - intros level. unfold extract_number.
    destruct (search bare_number_here text) as [d |]; [| discriminate].
    unfold and_then. destruct (int_of _ d) as [num |]; [| discriminate].
    destruct (10 <? num)%Z.
    + destruct (tenth_level num) as [v |] eqn:E; [| discriminate].
      intros [= <-]. eapply tenth_level_range, E.
    + intros [= <-]. unfold clamp_volume. lia.
  - unfold extract_number. destruct (search bare_number_here text) as [d |].
    + split; [| discriminate]. unfold and_then.
      destruct (int_of _ d) as [num |]; [| discriminate].
      destruct (10 <? num)%Z; [| discriminate].
      destruct (tenth_level num); discriminate.
    + split; reflexivity.
  - intros Hshort. unfold extract_number.
    destruct (search bare_number_here text) as [d |] eqn:E; [| eexists; reflexivity].
    assert (Hd : digits_within text d).
    { eapply search_from_within, E. apply bare_number_here_within. }
    destruct Hd as [Hd Hl].
    destruct (short_digits_harmless int_max_str_digits d Hd ltac:(lia)) as [-> Hlt].
    unfold and_then at 1. destruct (10 <? int_of_digits d)%Z; [| eexists; reflexivity].
    destruct (tenth_level_returns _ Hlt) as [v ->]. eexists. reflexivity.
Qed.

End Numbers.

(** X13 ([_extract_genre_from_message]): the genre read from a message
    is the genre of the first pattern of the table, in the table's order,
    that the lower-cased message contains, and it is always one of the six
    genres the genre buttons offer; a message that contains none of the
    patterns gives no genre. *)
Theorem extracted_genre_is_offered (message : str) :
  match _extract_genre_from_message message with
  | Some genre =>
      u "genre:" ++ genre ∈ map opt_id (Music.genre_buttons false)
      /\ exists earlier pattern later,
           genre_map = earlier ++ (pattern, genre) :: later
           /\ contains pattern (lower message) = true
           /\ Forall (fun entry => contains (fst entry) (lower message) = false) earlier
  | None => Forall (fun entry => contains (fst entry) (lower message) = false) genre_map
  end.
Proof.
  unfold _extract_genre_from_message. cbv zeta.
  generalize (lower message). intros text.
  assert (Hoffered : Forall (fun entry =>
                       u "genre:" ++ snd entry ∈ map opt_id (Music.genre_buttons false))
                     genre_map).
  { apply (proj1 (bool_decide_eq_true _)). vm_compute. reflexivity. }
  revert Hoffered. generalize genre_map. intros table.
  induction table as [| [pattern genre] table IH]; intros Hoffered.
  - constructor.
  - apply Forall_cons in Hoffered. destruct Hoffered as [Hhere Hrest].
    cbn [find]. destruct (contains pattern text) eqn:Hc; cbn [fmap option_fmap option_map snd].
    + split; [exact Hhere |]. exists [], pattern, table. repeat split; [exact Hc | constructor].
    + specialize (IH Hrest).
      destruct (find _ table) as [[p g] |]; cbn [fmap option_fmap option_map snd] in *.
      * destruct IH as (Hin & earlier & p' & later & -> & Hp & Hearlier).
        split; [exact Hin |]. exists ((pattern, genre) :: earlier), p', later.
        repeat split; [exact Hp |]. constructor; [exact Hc | exact Hearlier].
      * constructor; [exact Hc | exact IH].
Qed.

End ExtractFacts.

(* ===================================================================== *)
(** * What the classifier hands to its callers                            *)
(* ===================================================================== *)

Module SanitizeFacts.
Import Py Re Spec Props Core SessionStore IntentClassifier StringFacts NeedFacts OptionFacts
  ClassifierFacts ExtractFacts.







Section Sanitize.
Context `{C : Collaborators} `{O : SetOrder}.



End Sanitize.
End SanitizeFacts.

(* ===================================================================== *)
(** * Changing the driving policy, by tool and by button                  *)
(* ===================================================================== *)

Module GuardFacts.
Import Py Spec Props Core SessionStore IntentClassifier Connection Tools Main UIActions
  StoreFacts PolicyFacts.

Lemma effective_policy_cases requested conditions :
  (snd (get_effective_policy requested conditions) = None /\ ~ forces_policy conditions)
  \/ (exists reason,
        snd (get_effective_policy requested conditions) = Some reason
        /\ truthy (Some reason) = true /\ forces_policy conditions).
Proof.
  induction conditions as [| c conditions IH].
  - left. split; [reflexivity |]. intros (c & Hin & _). inversion Hin.
  - cbn [get_effective_policy].
    match goal with
    | |- context [find ?f ?l] => destruct (find f l) as [[c' [forced reason]] |] eqn:E
    end.
    + right. apply find_some in E as [Hin Heq]. apply bool_decide_eq_true_1 in Heq. subst c'.
      exists reason. split; [reflexivity |]. split.
      * destruct Hin as [[= _ _ <-] | []]. reflexivity.
      * exists c. split; [left |]. apply list_elem_of_In.
        change c with (fst (c, (forced, reason))). apply in_map, Hin.
    + destruct IH as [[Hnone Hno] | (reason & Hsome & Htruthy & Hforces)].
      * left. split; [exact Hnone |]. intros (c0 & Hin & Hrule).
        apply elem_of_cons in Hin as [-> | Hin]; [| apply Hno; exists c0; auto].
        apply list_elem_of_In, in_map_iff in Hrule as ([c1 rule] & Hfst & Hin1).
        cbn in Hfst. subst c1.
        pose proof (find_none _ _ E _ Hin1) as Hf. cbn in Hf.
        apply bool_decide_eq_false_1 in Hf. congruence.
      * right. exists reason. split; [exact Hsome |]. split; [exact Htruthy |].
        destruct Hforces as (c0 & Hin & Hrule). exists c0. split; [right |]; assumption.
Qed.

Section Guard.
Context `{C : Collaborators} `{O : SetOrder}.
Variable other_action : str -> UIAction -> M Response.

(** The check of the user's conditions makes one lookup and never raises. *)
Lemma forced_reason_cases uid w :
  (exists reason,
     forced_reason uid w = (Ok (Some reason), after_call (CallGetUserConditions uid) w)
     /\ constrained w uid)
  \/ (forced_reason uid w = (Ok None, after_call (CallGetUserConditions uid) w)
      /\ unconstrained w uid).
Proof.
  unfold forced_reason, get_user_conditions, constrained, unconstrained.
  unfold try_except, bind, get_world, record_call, modify_world, ret, raise; simpl.
  unfold after_call.
  destruct (repo_user_conditions (now w) uid) as [conds |]; [| right; split; [reflexivity | exact I]].
  destruct (effective_policy_cases (u "Sport") conds)
    as [[Hnone Hno] | (reason & Hsome & Htruthy & Hforces)].
  - right. split; [| exact Hno]. destruct conds; [reflexivity |]. rewrite Hnone. reflexivity.
  - left. exists reason. split; [| exists conds; split; [reflexivity | exact Hforces]].
    destruct conds as [| c conds]; [destruct Hforces as (c & Hin & _); inversion Hin |].
    rewrite Hsome. destruct reason; [discriminate Htruthy | reflexivity].
Qed.

(** After the check: nothing is sent, or one request for a valid policy
    other than the current one, and that only when connected. *)
Lemma change_policy_guarded ctx w :
  exists result w',
    change_policy ctx w = (Ok result, w')
    /\ tr_commands result = []
    /\ (calls w' = calls w
        \/ exists policy,
             policy ∈ valid_policies
             /\ lower policy <> lower (driving_policy (session_of w (ctx_session_id ctx)))
             /\ unity_connected w = true
             /\ calls w' = calls w ++ [CallSendText (cambio_policy (ctx_session_id ctx) policy)]).
Proof.
  unfold change_policy.
  destruct (if truthy (p_policy (ctx_params ctx)) then _ else _) as [np |];
    [| eexists _, _; split; [reflexivity |]; split; [reflexivity | left; reflexivity]].
  destruct (truthy (Some np));
    [| eexists _, _; split; [reflexivity |]; split; [reflexivity | left; reflexivity]].
  case_bool_decide as Hvalid;
    [| eexists _, _; split; [reflexivity |]; split; [reflexivity | left; reflexivity]].
  unfold bind at 1.
  destruct (get_session_run (ctx_session_id ctx) w) as (w1 & -> & _ & Hu & Hc & _).
  case_bool_decide as Hsame.
  { eexists _, _. split; [reflexivity |]. split; [reflexivity | left; exact Hc]. }
  unfold bind at 1. rewrite is_unity_connected_run.
  destruct (unity_connected w1) eqn:Hconn.
  - destruct (send_to_unity_connected (cambio_policy (ctx_session_id ctx) (capitalize np)) w1 Hconn)
      as (b & w2 & Hsend & Hc2 & _).
    unfold bind. rewrite Hsend. eexists _, _. split; [reflexivity |]. split; [reflexivity |].
    right. exists (capitalize np). split; [exact Hvalid |]. split; [congruence |].
    split; [congruence |]. rewrite Hc2, Hc. reflexivity.
  - eexists _, _. split; [reflexivity |]. split; [reflexivity | left; exact Hc].
Qed.

(** The same for the button. *)
Lemma policy_button_guarded session sid policy w :
  policy ∈ valid_policies ->
  exists response w',
    (if bool_decide (lower (driving_policy session) = lower policy) then
       ret (to_response (already_active (driving_policy session)) sid)
     else
       connected <- is_unity_connected ;;
       if connected then
         send_to_unity (cambio_policy sid policy) ;;;
         ret (to_response (request_sent policy) sid)
       else ret (to_response not_connected sid)) w = (Ok response, w')
    /\ r_commands response = []
    /\ (calls w' = calls w
        \/ (lower policy <> lower (driving_policy session)
            /\ unity_connected w = true
            /\ calls w' = calls w ++ [CallSendText (cambio_policy sid policy)])).
Proof.
  intros Hvalid. case_bool_decide as Hsame.
  { eexists _, _. split; [reflexivity |]. split; [reflexivity | left; reflexivity]. }
  unfold bind at 1. rewrite is_unity_connected_run.
  destruct (unity_connected w) eqn:Hconn.
  - destruct (send_to_unity_connected (cambio_policy sid policy) w Hconn)
      as (b & w2 & Hsend & Hc2 & _).
    unfold bind. rewrite Hsend. eexists _, _. split; [reflexivity |]. split; [reflexivity |].
    right. split; [congruence |]. split; [reflexivity | exact Hc2].
  - eexists _, _. split; [reflexivity |]. split; [reflexivity | left; reflexivity].
Qed.

Lemma sends_after_lookup w w' uid l :
  calls w' = calls (after_call (CallGetUserConditions uid) w) ++ l ->
  filter is_send (calls_since w w') = filter is_send l.
Proof.
  intros Hc. rewrite (calls_since_app w w' (CallGetUserConditions uid :: l)); [reflexivity |].
  rewrite Hc. cbn. rewrite <- app_assoc. reflexivity.
Qed.

Lemma constrained_excludes w uid : constrained w uid -> unconstrained w uid -> False.
Proof.
  intros (conds & Hrepo & Hforces). unfold unconstrained. rewrite Hrepo. tauto.
Qed.

Lemma tool_guarded ctx w :
  (exists result, fst (ChangeDrivingPolicyTool_execute ctx w) = Ok result
                  /\ tr_commands result = [])
  /\ guarded_send w (ctx_session_id ctx) (ctx_user_id ctx)
       (driving_policy (session_of w (ctx_session_id ctx)))
       (filter is_send (calls_of w (ChangeDrivingPolicyTool_execute ctx w)))
  /\ (constrained w (ctx_user_id ctx) ->
      exists reason,
        fst (ChangeDrivingPolicyTool_execute ctx w) = Ok (refusal reason)
        /\ filter is_send (calls_of w (ChangeDrivingPolicyTool_execute ctx w)) = []).
Proof.
  unfold calls_of, ChangeDrivingPolicyTool_execute, bind.
  set (w1 := after_call (CallGetUserConditions (ctx_user_id ctx)) w).
  destruct (forced_reason_cases (ctx_user_id ctx) w) as [(reason & -> & Hcon) | [-> Hfree]];
    fold w1.
  - cbn [fst snd ret]. split; [eexists; split; reflexivity |].
    rewrite (sends_after_lookup w w1 (ctx_user_id ctx) []) by (rewrite app_nil_r; reflexivity).
    split; [left; reflexivity |]. intros _. exists reason. split; reflexivity.
  - destruct (change_policy_guarded ctx w1) as (result & w' & -> & Hcmd & Hsent).
    cbn [fst snd]. split; [exists result; split; [reflexivity | exact Hcmd] |].
    split; [| intros Hcon; destruct (constrained_excludes _ _ Hcon Hfree)].
    destruct Hsent as [Hc | (policy & Hvalid & Hother & Hconn & Hc)].
    + rewrite (sends_after_lookup w w' (ctx_user_id ctx) []) by (rewrite app_nil_r; exact Hc).
      left. reflexivity.
    + rewrite (sends_after_lookup w w' (ctx_user_id ctx) _ Hc). right. exists policy.
      split; [exact Hvalid |]. split; [exact Hother |]. split; [reflexivity |].
      split; [exact Hconn | exact Hfree].
Qed.

Lemma button_guarded session sid uid action_id w :
  (exists response, fst (policy_action session sid uid action_id w) = Ok response
                    /\ r_commands response = [])
  /\ guarded_send w sid uid (driving_policy session)
       (filter is_send (calls_of w (policy_action session sid uid action_id w)))
  /\ (constrained w uid ->
      capitalize (replace_empty (u "policy:") action_id) ∈ valid_policies ->
      exists reason,
        fst (policy_action session sid uid action_id w) = Ok (to_response (refusal reason) sid)
        /\ filter is_send (calls_of w (policy_action session sid uid action_id w)) = []).
Proof.
  unfold calls_of, policy_action.
  set (w1 := after_call (CallGetUserConditions uid) w).
  case_bool_decide as Hvalid; cbn [negb].
  2:{ cbn [fst snd ret]. rewrite (calls_since_app w w []) by (rewrite app_nil_r; reflexivity).
      split; [eexists; split; reflexivity |]. split; [left; reflexivity |].
      intros _ Hin. contradiction. }
  match goal with |- context [fst ?r] => set (run := r) end.
  destruct (forced_reason_cases uid w) as [(reason & Hf & Hcon) | [Hf Hfree]]; fold w1 in Hf.
  - assert (Hrun : run = (Ok (to_response (refusal reason) sid), w1))
      by (subst run; unfold bind at 1; rewrite Hf; reflexivity).
    rewrite Hrun. cbn [fst snd ret]. split; [eexists; split; reflexivity |].
    rewrite (sends_after_lookup w w1 uid []) by (rewrite app_nil_r; reflexivity).
    split; [left; reflexivity |]. intros _ _. exists reason. split; reflexivity.
  - destruct (policy_button_guarded session sid _ w1 Hvalid)
      as (response & w' & Hbutton & Hcmd & Hsent).
    assert (Hrun : run = (Ok response, w'))
      by (subst run; unfold bind at 1; rewrite Hf; exact Hbutton).
    rewrite Hrun.
    cbn [fst snd]. split; [exists response; split; [reflexivity | exact Hcmd] |].
    split; [| intros Hcon; destruct (constrained_excludes _ _ Hcon Hfree)].
    destruct Hsent as [Hc | (Hother & Hconn & Hc)].
    + rewrite (sends_after_lookup w w' uid []) by (rewrite app_nil_r; exact Hc).
      left. reflexivity.
    + rewrite (sends_after_lookup w w' uid _ Hc). right. eexists.
      split; [exact Hvalid |]. split; [exact Hother |]. split; [reflexivity |].
      split; [exact Hconn | exact Hfree].
Qed.

(** X16 (the driving-policy tool and the ["policy:..."] button): neither
    raises, neither returns a command, and what they send to the simulator
    is guarded: nothing, or one request for a valid policy other than the
    current one, and that only with the simulator connected and no condition
    of the user forcing a policy.  A user with such a condition is refused,
    whatever the request. *)
Theorem policy_change_is_guarded (ctx : ToolContext) (session : SessionState)
    (action_id : str) (w : World) :
  let sid := ctx_session_id ctx in
  let uid := ctx_user_id ctx in
  let tool := ChangeDrivingPolicyTool_execute ctx w in
  let button := policy_action session sid uid action_id w in
  ((exists result, fst tool = Ok result /\ tr_commands result = [])
   /\ guarded_send w sid uid (driving_policy (session_of w sid))
        (filter is_send (calls_of w tool))
   /\ (constrained w uid ->
       exists reason, fst tool = Ok (refusal reason) /\ filter is_send (calls_of w tool) = []))
  /\ ((exists response, fst button = Ok response /\ r_commands response = [])
      /\ guarded_send w sid uid (driving_policy session) (filter is_send (calls_of w button))
      /\ (constrained w uid ->
          capitalize (replace_empty (u "policy:") action_id) ∈ valid_policies ->
          exists reason,
            fst button = Ok (to_response (refusal reason) sid)
            /\ filter is_send (calls_of w button) = [])).
Proof.
  cbv zeta. split; [apply tool_guarded | apply button_guarded].
Qed.

End Guard.
End GuardFacts.

(* ===================================================================== *)
(** * Stages of the pipeline                                              *)
(* ===================================================================== *)

Module PipelineFacts.
Import Py Spec Props Core SessionStore IntentClassifier Text Connection Tools Main
  StoreFacts PolicyFacts SideEffectFacts SelectionFacts.

Section Pipeline.
Context `{C : Collaborators} `{O : SetOrder}.

Lemma preserves_get_poi_by_id poi_id : preserves_sessions (get_poi_by_id poi_id).
Proof. unfold get_poi_by_id. preserves. Qed.

Lemma preserves_is_ride_active sid : preserves_sessions (SessionStore.is_ride_active sid).
Proof. unfold SessionStore.is_ride_active. preserves. Qed.

Lemma preserves_forward_reroute sid payload : preserves_sessions (forward_reroute sid payload).
Proof.
  unfold forward_reroute.
  pose proof (preserves_is_ride_active sid). pose proof preserves_is_unity_connected.
  pose proof preserves_send_to_unity. pose proof preserves_get_poi_by_id.
  apply preserves_bind; [assumption |]. intros active.
  destruct (negb active); [preserves |].
  apply preserves_bind.
  - destruct (rp_id_unity payload); [preserves |].
    apply preserves_bind; [preserves |]. intros _.
    apply preserves_try_except; [| preserves].
    apply preserves_bind; [auto |]. preserves.
  - intros id_unity. apply preserves_bind; [assumption |]. intros connected.
    destruct connected; [| preserves].
    apply preserves_bind; [auto | preserves].
Qed.

Lemma preserves_process_commands sid commands :
  preserves_sessions (process_commands sid commands).
Proof.
  induction commands as [| cmd rest IH]; cbn [process_commands]; [preserves |].
  apply preserves_bind; [| intros _; exact IH].
  destruct cmd; first [apply preserves_forward_reroute | preserves].
Qed.

(** One [REROUTE_TO]: at most one lookup and at most one message. *)
Lemma forward_reroute_step sid payload w :
  exists w' l,
    forward_reroute sid payload w = (Ok tt, w') /\ calls w' = calls w ++ l
    /\ (length (filter is_send l) <= 1)%nat
    /\ (length (filter is_repo_lookup l) <= 1)%nat.
Proof.
  destruct (Core.is_ride_active (session_of w sid)) eqn:Hride.
  - destruct (rp_id_unity payload) as [id_unity |] eqn:Hid.
    + destruct (reroute_complete sid payload id_unity w Hride Hid) as (w' & Hrun & Hon & Hoff).
      exists w'. destruct (unity_connected w).
      * eexists. split; [exact Hrun |]. split; [exact (Hon eq_refl) |]. split; vm_compute; lia.
      * exists []. split; [exact Hrun |]. rewrite app_nil_r.
        split; [apply (Hoff eq_refl) |]. split; vm_compute; lia.
    + destruct (reroute_recovering sid payload w Hride Hid) as (w' & Hrun & Hon & Hoff & _).
      exists w'. destruct (unity_connected w).
      * eexists. split; [exact Hrun |]. split; [exact (Hon eq_refl) |]. split; vm_compute; lia.
      * eexists. split; [exact Hrun |]. split; [apply (Hoff eq_refl) |]. split; vm_compute; lia.
  - destruct (reroute_no_ride sid payload w Hride) as (w' & Hrun & Hc & _).
    exists w', []. split; [exact Hrun |]. rewrite app_nil_r. split; [exact Hc |]. split; vm_compute; lia.
Qed.

Lemma process_commands_step sid commands w :
  exists w' l,
    process_commands sid commands w = (Ok tt, w') /\ calls w' = calls w ++ l
    /\ (length (filter is_send l) <= length (filter is_reroute commands))%nat
    /\ (length (filter is_repo_lookup l) <= length (filter is_reroute commands))%nat
    /\ (filter is_reroute commands = [] -> w' = w).
Proof.
  revert w. induction commands as [| cmd rest IH]; intros w.
  { exists w, []. split; [reflexivity |]. rewrite app_nil_r. cbn. auto with lia. }
  cbn [process_commands]. unfold bind at 1.
  assert (Hskip : is_reroute cmd = false ->
            exists w' l,
              process_commands sid rest w = (Ok tt, w') /\ calls w' = calls w ++ l
              /\ (length (filter is_send l) <= length (filter is_reroute (cmd :: rest)))%nat
              /\ (length (filter is_repo_lookup l)
                  <= length (filter is_reroute (cmd :: rest)))%nat
              /\ (filter is_reroute (cmd :: rest) = [] -> w' = w)).
  { intros Hcmd. destruct (IH w) as (w' & l & Hrun & Hc & Hs & Hl & Hsame).
    exists w', l. rewrite filter_cons_False by (rewrite Hcmd; exact id). auto. }
  destruct cmd; try (apply Hskip; reflexivity).
  destruct (forward_reroute_step sid payload w) as (w1 & l1 & -> & Hc1 & Hs1 & Hl1).
  destruct (IH w1) as (w' & l & Hrun & Hc & Hs & Hl & _).
  exists w', (l1 ++ l). split; [exact Hrun |].
  split; [rewrite Hc, Hc1, app_assoc; reflexivity |].
  rewrite (filter_cons_True is_reroute) by exact I.
  rewrite !filter_app, !length_app. cbn [length].
  split; [lia |]. split; [lia | discriminate].
Qed.

(** X17 ([_process_side_effects]): whatever the commands of the
    response, nothing is raised and no session is changed; a response without
    [REROUTE_TO] causes nothing at all; and there is at most one repository
    lookup and at most one message to the simulator for each [REROUTE_TO]. *)
Theorem side_effects_frame (response : Response) (sid : str) (w : World) :
  let run := _process_side_effects response sid w in
  let reroutes := length (filter is_reroute (r_commands response)) in
  fst run = Ok tt
  /\ same_sessions w (snd run)
  /\ (reroutes = 0%nat -> snd run = w)
  /\ (length (filter is_send (calls_of w run)) <= reroutes)%nat
  /\ (length (filter is_repo_lookup (calls_of w run)) <= reroutes)%nat.
Proof.
  intros run reroutes. subst run reroutes. unfold calls_of, _process_side_effects.
  split; [| split; [apply preserves_process_commands |]];
    destruct (process_commands_step sid (r_commands response) w)
      as (w' & l & Hrun & Hc & Hs & Hl & Hsame); rewrite Hrun; cbn [fst snd].
  - reflexivity.
  - rewrite (calls_since_app _ _ _ Hc). split; [| split; assumption].
    intros Hzero. apply Hsame. apply length_zero_iff_nil, Hzero.
Qed.

Lemma get_poi_by_id_run poi_id w :
  get_poi_by_id poi_id w
  = (Ok (repo_get_poi_by_id (now w) poi_id), after_call (CallGetPoiById poi_id) w).
Proof. reflexivity. Qed.

Lemma record_call_run c w : record_call c w = (Ok tt, after_call c w).
Proof. reflexivity. Qed.

Lemma handle_poi_selection_run sid uid poi_id w :
  handle_poi_selection sid uid poi_id w
  = match repo_get_poi_by_id (now w) (Some poi_id) with
    | None =>
        (Ok (msg_only (u "Mi dispiace, non ho trovato il luogo selezionato.")),
         after_call (CallGetPoiById (Some poi_id)) w)
    | Some poi =>
        let cleared := set_last_poi_suggestions [] (session_of w sid) in
        (Ok {| tr_message :=
                 if Core.is_ride_active cleared then []
                 else u "Perfetto! Ti sto portando a " ++ poi_name poi ++ u ". ðŸš•";
               tr_ui_options := [];
               tr_commands :=
                 [REROUTE_TO {| rp_poi_id := Some poi_id; rp_name := Some (poi_name poi);
                                rp_id_unity := poi_id_unity poi |}] |},
         with_session sid cleared
           (after_call (CallRecordVisit uid poi_id)
              (after_call (CallGetPoiById (Some poi_id)) w)))
    end.
Proof.
  unfold handle_poi_selection, bind at 1. rewrite get_poi_by_id_run.
  destruct (repo_get_poi_by_id (now w) (Some poi_id)) as [poi |]; [| reflexivity].
  unfold bind at 1. rewrite record_call_run.
  unfold bind at 1, clear_poi_suggestions. rewrite mutate_run.
  unfold bind at 1, SessionStore.is_ride_active, bind. rewrite get_session_stored.
  reflexivity.
Qed.

Lemma handle_poi_selection_touches sid uid poi_id :
  touches_only sid (handle_poi_selection sid uid poi_id).
Proof.
  intros w0 sid' Hne. rewrite handle_poi_selection_run.
  destruct (repo_get_poi_by_id (now w0) (Some poi_id)); cbv zeta; cbn [snd].
  - rewrite session_of_with_session_ne by congruence. reflexivity.
  - reflexivity.
Qed.

Lemma greeting_not_empty name : u "Perfetto! Ti sto portando a " ++ name <> [].
Proof. intros Hm. apply app_eq_nil in Hm as [Hm _]. vm_compute in Hm. discriminate Hm. Qed.

Lemma silent_during_ride (active : bool) (name : str) :
  (if active then [] else u "Perfetto! Ti sto portando a " ++ name) = [] <-> active = true.
Proof.
  destruct active; split; intros H; try reflexivity; try discriminate H;
    destruct (greeting_not_empty _ H).
Qed.

Lemma active_after_clear s :
  Core.is_ride_active (set_last_poi_suggestions [] s) = Core.is_ride_active s.
Proof. destruct s; reflexivity. Qed.

(** X18 ([PolicyService.handle_poi_selection]): a POI the repository
    does not know gives an apology, no command, no recorded visit and an
    untouched session.  A known POI gives exactly one [REROUTE_TO] with the
    repository's name and simulator id; the visit is recorded once, the
    suggestions of the session are emptied, and the reply is silent exactly
    during a ride. *)
Theorem poi_selection_outcome (sid uid poi_id : str) (w : World) :
  let run := handle_poi_selection sid uid poi_id w in
  touches_only sid (handle_poi_selection sid uid poi_id)
  /\ match repo_get_poi_by_id (now w) (Some poi_id) with
     | None =>
         run = (Ok (msg_only (u "Mi dispiace, non ho trovato il luogo selezionato.")),
                after_call (CallGetPoiById (Some poi_id)) w)
     | Some poi =>
         exists result,
           fst run = Ok result
           /\ tr_commands result
              = [REROUTE_TO {| rp_poi_id := Some poi_id; rp_name := Some (poi_name poi);
                               rp_id_unity := poi_id_unity poi |}]
           /\ tr_ui_options result = []
           /\ (tr_message result = [] <-> Core.is_ride_active (session_of w sid) = true)
           /\ calls_of w run = [CallGetPoiById (Some poi_id); CallRecordVisit uid poi_id]
           /\ session_of (snd run) sid = set_last_poi_suggestions [] (session_of w sid)
     end.
Proof.
  intros run. subst run. split; [apply handle_poi_selection_touches |].
  unfold calls_of. rewrite handle_poi_selection_run.
  destruct (repo_get_poi_by_id (now w) (Some poi_id)) as [poi |]; [| reflexivity].
  cbv zeta. eexists. cbn [fst snd tr_commands tr_ui_options tr_message].
  split; [reflexivity |]. split; [reflexivity |]. split; [reflexivity |].
  split; [| split].
  - rewrite active_after_clear. apply silent_during_ride.
  - apply calls_since_app. cbn [calls with_session after_call].
    rewrite <- app_assoc. reflexivity.
  - apply session_of_with_session.
Qed.


(** X20 ([handle_user_message], [handle_pre_ride_message]): a text
    that is a simple rejection or confirmation, a request for help, a
    greeting or a negation is answered at once: no call is made to the LLM,
    the repository or the simulator, no warning or error is logged, and the
    reply carries no command.  The same holds for a greeting or a request for help before
    the ride, which also puts the session in the pre-ride mode. *)
Theorem short_circuit_makes_no_call (msg : UserMessage) (data : PreRideData) (w : World) :
  (short_circuit (strip (msg_text msg)) = true ->
   let run := handle_user_message msg w in
   exists response,
     fst run = Ok response
     /\ r_session_id response = msg_session_id msg /\ r_commands response = []
     /\ calls (snd run) = calls w /\ log (snd run) = log w)
  /\ (let text := strip (default [] (pr_text data)) in
      let sid := default (u "unknown") (pr_session_id data) in
      is_greeting text || is_help_request text = true ->
      let run := handle_pre_ride_message data w in
      exists reply,
        fst run = Ok reply
        /\ r_commands (pr_response reply) = [] /\ pr_selected_poi reply = Some None
        /\ calls (snd run) = calls w /\ log (snd run) = log w
        /\ mode (session_of (snd run) sid) = PRE_RIDE).
Proof.
  split.
  - intros Hshort. unfold short_circuit in Hshort. cbv zeta in Hshort |- *.
    remember (handle_user_message msg w) as run eqn:Hrun.
    unfold handle_user_message, bind at 1 in Hrun. rewrite update_session_run in Hrun.
    destruct (is_simple_rejection (analyze_text (strip (msg_text msg)))).
    { unfold bind at 1 in Hrun. rewrite update_session_run in Hrun.
      unfold bind at 1, clear_pending_question in Hrun. rewrite mutate_run in Hrun.
      subst run. eexists. repeat split. }
    destruct (is_simple_confirmation (analyze_text (strip (msg_text msg))));
      [subst run; eexists; repeat split |].
    destruct (is_help_request (strip (msg_text msg))); [subst run; eexists; repeat split |].
    destruct (is_greeting (strip (msg_text msg))); [subst run; eexists; repeat split |].
    destruct (has_negation (analyze_text (strip (msg_text msg))));
      [subst run; eexists; repeat split |].
    discriminate Hshort.
  - cbv zeta. intros Hshort.
    remember (handle_pre_ride_message data w) as run eqn:Hrun.
    unfold handle_pre_ride_message, bind at 1 in Hrun. rewrite update_session_run in Hrun.
    assert (Hmode : forall up_user up_city s,
              mode (apply_update
                      (Build_Update (Some up_user) None (Some up_city) None None None None None
                         (Some PRE_RIDE) None None None) s) = PRE_RIDE).
    { intros up_user up_city s. destruct s. reflexivity. }
    destruct (is_greeting (strip (default [] (pr_text data)))).
    { subst run. eexists. cbn [fst snd ret]. rewrite session_of_with_session.
      split; [reflexivity |]. split; [reflexivity |]. split; [reflexivity |].
      split; [reflexivity |]. split; [reflexivity |]. apply Hmode. }
    destruct (is_help_request (strip (default [] (pr_text data)))); [| discriminate Hshort].
    subst run. eexists. cbn [fst snd ret]. rewrite session_of_with_session.
    split; [reflexivity |]. split; [reflexivity |]. split; [reflexivity |].
    split; [reflexivity |]. split; [reflexivity |]. apply Hmode.
Qed.

End Pipeline.

Lemma short_circuit_makes_no_call_witness :
  let msg := {| msg_session_id := Scenario.sid; msg_user_id := u "u1";
                msg_ride_id := u "r1"; msg_city := u "Palermo";
                msg_taxi_x := 0%float; msg_taxi_y := 0%float;
                msg_text := u "ciao!" |} in
  calls (snd (handle_user_message (C := Scenario.offline) (O := Scenario.source_order) msg
                (Scenario.world_with Scenario.riding true))) = [].
Proof.
  intros msg.
  assert (Hshort : short_circuit (strip (msg_text msg)) = true) by (vm_compute; reflexivity).
  destruct (proj1 (short_circuit_makes_no_call (C := Scenario.offline)
                     (O := Scenario.source_order) msg
                     {| pr_session_id := None; pr_user_id := None; pr_city := None;
                        pr_text := None |}
                     (Scenario.world_with Scenario.riding true)) Hshort)
    as (response & _ & _ & _ & Hcalls & _).
  exact Hcalls.
Defined.

End PipelineFacts.

(* ===================================================================== *)
(** * The buttons of the chat                                             *)
(* ===================================================================== *)

Module UIFacts.
Import Py Spec Props Core SessionStore IntentClassifier Tools Lifecycle Music Main UIActions.
Import StringFacts StoreFacts SelectionFacts.

(** Closed tests of the chain are decided by evaluation. *)
Ltac decide_test :=
  match goal with
  | |- context [if ?b then _ else _] =>
      first [ replace b with false by (vm_compute; reflexivity)
            | replace b with true by (vm_compute; reflexivity) ]
  end.

Ltac run_step :=
  unfold bind at 1;
  first [ rewrite mutate_run | rewrite update_session_run | rewrite set_volume_run ];
  rewrite ?with_session_twice, ?session_of_with_session.

Lemma only_session_changed_refl sid w : only_session_changed sid w w.
Proof. repeat split. Qed.

Lemma only_session_changed_with sid s w w' :
  only_session_changed sid w w' -> only_session_changed sid w (with_session sid s w').
Proof.
  intros (Hc & Hl & Hu & Hs). repeat split; try assumption.
  intros sid' Hne. rewrite session_of_with_session_ne by (intros ->; apply Hne; reflexivity).
  apply Hs, Hne.
Qed.

Lemma closed_already (s : SessionState) :
  last_ui_options s = [] -> set_last_ui_options [] s = s.
Proof. destruct s; simpl. intros ->. reflexivity. Qed.

Section Buttons.
Context `{C : Collaborators}.
Variable other_action : str -> UIAction -> M Response.

(** The start of [handle_ui_action]: the options of the session are
    closed, nothing else changes, and the chain runs on what the session
    held. *)
Lemma header_run (action : UIAction) (w : World) :
  let sid := ua_session_id action in
  let session := session_of w sid in
  exists w1 user_id,
    handle_ui_action other_action action w = dispatch other_action session user_id action w1
    /\ session_of w1 sid = set_last_ui_options [] session
    /\ only_session_changed sid w w1.
Proof.
  intros sid session. unfold handle_ui_action. fold sid. unfold bind at 1.
  destruct (get_session_run sid w) as (w' & -> & Hs & Hu & Hc & Hl). fold session.
  assert (Hsame : session_of w' sid = session).
  { unfold session_of at 1. rewrite Hs, lookup_insert_eq. reflexivity. }
  assert (Hother : only_session_changed sid w w').
  { repeat split; try assumption. intros sid' Hne. unfold session_of.
    rewrite Hs, lookup_insert_ne by (intros ->; apply Hne; reflexivity). reflexivity. }
  destruct (last_ui_options session) eqn:Hopts.
  - exists w'. eexists. split; [reflexivity |]. split; [| exact Hother].
    rewrite Hsame. symmetry. apply closed_already, Hopts.
  - unfold bind at 1. unfold bind at 1. rewrite update_session_run.
    eexists. eexists. split; [reflexivity |]. split.
    + rewrite session_of_with_session, Hsame. destruct session; reflexivity.
    + apply only_session_changed_with, Hother.
Qed.

Lemma about_music_decide (id : str) (pending : option str) :
  bool_decide (id = u "no_music")
  || bool_decide (pending ∈ [Some (u "music_genre"); Some (u "music_feedback")]) = true
  <-> about_music id pending.
Proof.
  unfold about_music. rewrite orb_true_iff, !bool_decide_eq_true, !elem_of_cons, elem_of_nil.
  tauto.
Qed.

Lemma about_tour_decide (id : str) (pending : option str) :
  bool_decide (id = u "no_tour") || bool_decide (pending = Some (u "tour")) = true
  <-> about_tour id pending.
Proof. unfold about_tour. rewrite orb_true_iff, !bool_decide_eq_true. tauto. Qed.

(** The three ways of [cancel_action]. *)
Lemma cancel_action_run (s : SessionState) (sid id : str) (w1 : World) :
  exists response f,
    cancel_action s sid id w1 = (Ok response, with_session sid (f (session_of w1 sid)) w1)
    /\ r_session_id response = sid /\ r_ui_options response = [] /\ r_commands response = []
    /\ (forall x, pending_question (f x) = None /\ last_ui_options (f x) = last_ui_options x
                  /\ same_music x (f x))
    /\ (about_music id (pending_question s) ->
        forall x, last_poi_suggestions (f x) = last_poi_suggestions x /\ mode (f x) = mode x)
    /\ (~ about_music id (pending_question s) -> about_tour id (pending_question s) ->
        forall x, last_poi_suggestions (f x) = last_poi_suggestions x /\ mode (f x) = NORMAL)
    /\ (~ about_music id (pending_question s) -> ~ about_tour id (pending_question s) ->
        forall x, last_poi_suggestions (f x) = [] /\ mode (f x) = NORMAL).
Proof.
  unfold cancel_action, handle_cancel_selection, clear_poi_suggestions, clear_pending_question.
  destruct (bool_decide (id = u "no_music") || _) eqn:Hmusic.
  { apply about_music_decide in Hmusic.
    eexists. exists (set_pending_question None).
    split; [run_step; reflexivity |].
    repeat split; try reflexivity; try (intros; contradiction). }
  assert (Hnot : ~ about_music id (pending_question s)).
  { intros H. apply about_music_decide in H. congruence. }
  destruct (bool_decide (id = u "no_tour") || _) eqn:Htour.
  { apply about_tour_decide in Htour.
    eexists. exists (fun x => apply_update mode_normal (set_pending_question None x)).
    split; [run_step; run_step; reflexivity |].
    repeat split; try reflexivity; try (intros; contradiction). }
  assert (Hnot' : ~ about_tour id (pending_question s)).
  { intros H. apply about_tour_decide in H. congruence. }
  eexists.
  exists (fun x => apply_update mode_normal
                     (set_pending_question None (set_last_poi_suggestions [] x))).
  split; [unfold bind at 1; run_step; run_step; run_step; reflexivity |].
  repeat split; try reflexivity; try (intros; contradiction).
Qed.

Lemma closing_keeps (s : SessionState) :
  pending_question (set_last_ui_options [] s) = pending_question s
  /\ last_poi_suggestions (set_last_ui_options [] s) = last_poi_suggestions s
  /\ mode (set_last_ui_options [] s) = mode s
  /\ last_ui_options (set_last_ui_options [] s) = []
  /\ same_music s (set_last_ui_options [] s).
Proof. destruct s. repeat split. Qed.

Lemma same_music_trans (a b c : SessionState) :
  same_music a b -> same_music b c -> same_music a c.
Proof. unfold same_music. intuition congruence. Qed.

(** X21 ([handle_ui_action], [handle_cancel_selection]): the buttons
    [cancel], [no_music] and [no_tour] are read against the pending
    question.  Whatever the case, the reply carries no option and no
    command, only the session of the action changes, its pending question
    and its open options are cleared and the player is left alone.  On a
    music question (or [no_music]) the suggested places and the mode stay;
    on a tour question (or [no_tour]) the mode becomes NORMAL and the
    suggestions stay; otherwise the suggestions are emptied and the mode
    becomes NORMAL. *)
Theorem cancel_is_context_aware (action : UIAction) (w : World) :
  let sid := ua_session_id action in
  let id := ua_action_id action in
  let before := session_of w sid in
  let run := handle_ui_action other_action action w in
  let after := session_of (snd run) sid in
  id ∈ map u ["cancel"; "no_music"; "no_tour"]%string ->
  exists response,
    fst run = Ok (Some response)
    /\ r_session_id response = sid /\ r_ui_options response = [] /\ r_commands response = []
    /\ only_session_changed sid w (snd run)
    /\ pending_question after = None /\ last_ui_options after = []
    /\ same_music before after
    /\ (about_music id (pending_question before) ->
        last_poi_suggestions after = last_poi_suggestions before /\ mode after = mode before)
    /\ (~ about_music id (pending_question before) ->
        about_tour id (pending_question before) ->
        last_poi_suggestions after = last_poi_suggestions before /\ mode after = NORMAL)
    /\ (~ about_music id (pending_question before) ->
        ~ about_tour id (pending_question before) ->
        last_poi_suggestions after = [] /\ mode after = NORMAL).
Proof.
  intros sid id before run after Hid. subst run after.
  destruct (header_run action w) as (w1 & uid & Hhead & Hsession & Hframe).
  fold sid in Hhead, Hsession, Hframe. fold before in Hhead, Hsession.
  destruct (cancel_action_run before sid id w1)
    as (response & f & Hrun & Hsid & Hopts & Hcmds & Hall & Hmusic & Htour & Hgeneric).
  assert (Hdispatch : dispatch other_action before uid action w1
                      = (Ok (Some response), with_session sid (f (session_of w1 sid)) w1)).
  { unfold dispatch. fold sid id.
    cbn [map] in Hid. rewrite !elem_of_cons, elem_of_nil in Hid.
    assert (Hin : bool_decide (id ∈ map u ["cancel"; "no_music"; "no_tour"]%string) = true).
    { apply bool_decide_eq_true. cbn [map]. rewrite !elem_of_cons. tauto. }
    destruct Hid as [Hid | [Hid | [Hid | []]]]; revert Hrun Hin; rewrite Hid; intros Hrun Hin;
      repeat (decide_test; cbv iota); unfold bind at 1; rewrite Hrun; reflexivity. }
  rewrite Hhead, Hdispatch. cbn [fst snd]. rewrite session_of_with_session, Hsession.
  destruct (closing_keeps before) as (Kpending & Kpois & Kmode & Kopts & Kmusic).
  destruct (Hall (set_last_ui_options [] before)) as (Apending & Aopts & Amusic).
  exists response.
  split; [reflexivity |]. split; [exact Hsid |]. split; [exact Hopts |].
  split; [exact Hcmds |]. split; [apply only_session_changed_with, Hframe |].
  split; [exact Apending |]. split; [rewrite Aopts; exact Kopts |].
  split; [exact (same_music_trans _ _ _ Kmusic Amusic) |].
  split; [| split].
  - intros H. destruct (Hmusic H (set_last_ui_options [] before)) as [-> ->]. auto.
  - intros H H'. destruct (Htour H H' (set_last_ui_options [] before)) as [-> ->]. auto.
  - intros H H'. destruct (Hgeneric H H' (set_last_ui_options [] before)) as [-> ->]. auto.
Qed.





Lemma find_key_None {B} (l : list (str * B)) (id : str) :
  id ∉ map fst l -> find (fun '(k, _) => bool_decide (k = id)) l = None.
Proof.
  induction l as [| [k v] l IH]; [reflexivity |]. cbn [map fst find]. intros Hnot.
  rewrite bool_decide_eq_false_2.
  - apply IH. intros Hin. apply Hnot. right. exact Hin.
  - intros ->. apply Hnot. left.
Qed.

(** X23 ([handle_ui_action]): an action id that starts with [quick:]
    and is not one of the five quick needs gets no reply at all: the
    function ends without a [return], after it has closed the open options
    of the session; nothing else changes. *)
Theorem unmapped_quick_action_has_no_reply (action : UIAction) (w : World) :
  let sid := ua_session_id action in
  let run := handle_ui_action other_action action w in
  startswith (u "quick:") (ua_action_id action) = true ->
  ua_action_id action ∉ map fst need_map ->
  fst run = Ok None
  /\ only_session_changed sid w (snd run)
  /\ session_of (snd run) sid = set_last_ui_options [] (session_of w sid).
Proof.
  intros sid run Hquick Hnot. subst run.
  destruct (header_run action w) as (w1 & uid & Hhead & Hsession & Hframe).
  fold sid in Hhead, Hsession, Hframe. rewrite Hhead.
  assert (Hrun : dispatch other_action (session_of w sid) uid action w1 = (Ok None, w1)).
  { unfold dispatch. rewrite (find_key_None _ _ Hnot).
    apply startswith_spec in Hquick. destruct Hquick as [post Hid]. rewrite Hid.
    repeat (decide_test; cbv iota). reflexivity. }
  rewrite Hrun. auto.
Qed.

End Buttons.

Lemma cancel_is_context_aware_witness :
  let action := {| ua_session_id := Scenario.sid; ua_action_id := u "cancel";
                   ua_poi_id := None; ua_volume := None |} in
  let run := handle_ui_action (C := Scenario.offline)   (fun _ _ => ret (reply [] [] [])) action
               (Scenario.world_with Scenario.riding true) in
  pending_question (session_of (snd run) Scenario.sid) = None.
Proof.
  intros action run.
  assert (Hid : ua_action_id action ∈ map u ["cancel"; "no_music"; "no_tour"]%string)
    by (vm_compute; left).
  destruct (cancel_is_context_aware (C := Scenario.offline)  (fun _ _ => ret (reply [] [] [])) action
              (Scenario.world_with Scenario.riding true) Hid)
    as (response & _ & _ & _ & _ & _ & Hpending & _).
  exact Hpending.
Defined.


Lemma unmapped_quick_action_has_no_reply_witness :
  let action := {| ua_session_id := Scenario.sid; ua_action_id := u "quick:taxi";
                   ua_poi_id := None; ua_volume := None |} in
  fst (handle_ui_action (C := Scenario.offline)
         (fun _ _ => ret (reply [] [] [])) action
         (Scenario.world_with Scenario.riding true)) = Ok None.
Proof.
  intros action.
  assert (Hquick : startswith (u "quick:") (ua_action_id action) = true)
    by (vm_compute; reflexivity).
  assert (Hnot : ua_action_id action ∉ map fst need_map).
  { apply (proj1 (bool_decide_eq_false _)). vm_compute. reflexivity. }
  exact (proj1 (unmapped_quick_action_has_no_reply (C := Scenario.offline) (fun _ _ => ret (reply [] [] [])) action
                  (Scenario.world_with Scenario.riding true) Hquick Hnot)).
Defined.

End UIFacts.
